(** * The traffic-vision batch pipeline ([csv_transform.py])

    A shallow embedding of
    [datasets/clemson_dice_traffic_vision/pipelines/_images/run_csv_transform_kub/csv_transform.py]
    and the properties of its manifest generator, batch processor,
    staging manager and retry wrapper.

    Python integers are [Z]; Python [str] values are [string] (ASCII);
    the local staging file system is a finite map from paths to nodes;
    the object store is the list of its objects, those of a bucket in
    the order in which the bucket lists them; a Python
    function with side effects is a function from worlds to a world and
    either a raised exception or a value. *)

From Stdlib Require Import ZArith List String Ascii Bool Lia Permutation DecimalString.
From stdpp Require Import gmap strings.
Import ListNotations.

Local Open Scope string_scope.
Local Open Scope list_scope.
Local Open Scope Z_scope.

#[local] Arguments String.append : simpl nomatch.

(** ** Python string operations *)

Module Py.

(** The double quote and the backslash, by character code. *)
Definition dq : string := String (ascii_of_nat 34) EmptyString.
Definition bs : string := String (ascii_of_nat 92) EmptyString.
Definition sq : string := String (ascii_of_nat 39) EmptyString.

Definition slash : ascii := ascii_of_nat 47.

Definition ascii_eqb (a b : ascii) : bool := Ascii.eqb a b.

(** [s.startswith(p)] *)
Fixpoint startswith (p s : string) : bool :=
  match p, s with
  | EmptyString, _ => true
  | String a p', String b s' => ascii_eqb a b && startswith p' s'
  | String _ _, EmptyString => false
  end.

(** [len(s)] *)
Definition len (s : string) : Z := Z.of_nat (String.length s).

(** [s.find(sub)]: the index of the first occurrence, [-1] when there is
    none. [find_from] carries the index of the current position. *)
Fixpoint find_from (sub s : string) (i : Z) : Z :=
  if startswith sub s then i
  else match s with
       | EmptyString => -1
       | String _ s' => find_from sub s' (i + 1)
       end.

Definition find (s sub : string) : Z := find_from sub s 0.

(** [s.rfind("/")]: the index of the last slash, [-1] when there is none.
    [last] is the answer so far. *)
Fixpoint rfind_slash_from (s : string) (i last : Z) : Z :=
  match s with
  | EmptyString => last
  | String c s' =>
      rfind_slash_from s' (i + 1) (if ascii_eqb c slash then i else last)
  end.

Definition rfind_slash (s : string) : Z := rfind_slash_from s 0 (-1).

(** [s[:i]] and [s[i:]] for [0 <= i]. *)
Definition slice_to (s : string) (i : Z) : string :=
  String.substring 0 (Z.to_nat i) s.

Definition slice_from (s : string) (i : Z) : string :=
  String.substring (Z.to_nat i) (String.length s - Z.to_nat i) s.

(** [s.replace(old, new)]. [skip] counts the characters of a matched
    occurrence still to be dropped. With an empty [old] Python puts [new]
    before every character and at the end. *)
Fixpoint replace_go (old new : string) (skip : nat) (s : string) : string :=
  match s with
  | EmptyString => EmptyString
  | String c s' =>
      match skip with
      | S k => replace_go old new k s'
      | O =>
          if startswith old s
          then new +:+ replace_go old new (String.length old - 1) s'
          else String c (replace_go old new O s')
      end
  end.

Fixpoint intersperse (new s : string) : string :=
  match s with
  | EmptyString => new
  | String c s' => new +:+ String c (intersperse new s')
  end.

Definition replace (s old new : string) : string :=
  match old with
  | EmptyString => intersperse new s
  | _ => replace_go old new O s
  end.

(** [s.split(sep)] for a non-empty [sep]: [cur] is the current piece,
    reversed. *)
Fixpoint split_go (sep : string) (skip : nat) (cur : string) (s : string)
  : list string :=
  match s with
  | EmptyString => [String.rev cur]
  | String c s' =>
      match skip with
      | S k => split_go sep k cur s'
      | O =>
          if startswith sep s
          then String.rev cur :: split_go sep (String.length sep - 1) EmptyString s'
          else split_go sep O (String c cur) s'
      end
  end.

Definition split (s sep : string) : list string :=
  split_go sep O EmptyString s.

(** [s.strip()] *)
Definition is_space (c : ascii) : bool :=
  let n := nat_of_ascii c in
  ((9 <=? n) && (n <=? 13) || (28 <=? n) && (n <=? 32))%nat.

Fixpoint lstrip (s : string) : string :=
  match s with
  | String c s' => if is_space c then lstrip s' else s
  | EmptyString => EmptyString
  end.

Definition strip (s : string) : string :=
  String.rev (lstrip (String.rev (lstrip s))).

(** [s.rstrip("/")] *)
Fixpoint lstrip_slash (s : string) : string :=
  match s with
  | String c s' => if ascii_eqb c slash then lstrip_slash s' else s
  | EmptyString => EmptyString
  end.

Definition rstrip_slash (s : string) : string :=
  String.rev (lstrip_slash (String.rev s)).

Fixpoint all_slashes (s : string) : bool :=
  match s with
  | EmptyString => true
  | String c s' => ascii_eqb c slash && all_slashes s'
  end.

(** [os.path.split(p)] and [os.path.basename(p)] (posixpath). *)
Definition os_path_split (p : string) : string * string :=
  let i := rfind_slash p + 1 in
  let head := slice_to p i in
  let tail := slice_from p i in
  let head :=
    if negb (String.eqb head EmptyString) && negb (all_slashes head)
    then rstrip_slash head else head in
  (head, tail).

Definition os_path_basename (p : string) : string :=
  slice_from p (rfind_slash p + 1).

(** [str(n)] for an integer, and [s.zfill(width)]. *)
Definition str_of_int (n : Z) : string :=
  NilZero.string_of_int (Z.to_int n).

Fixpoint zeros (n : nat) : string :=
  match n with
  | O => EmptyString
  | S k => String "0" (zeros k)
  end.

Definition zfill (s : string) (width : nat) : string :=
  match s with
  | String c s' =>
      if ascii_eqb c "-" || ascii_eqb c "+"
      then String c (zeros (width - String.length s) +:+ s')
      else zeros (width - String.length s) +:+ s
  | EmptyString => zeros width
  end.

End Py.

(** ** Worlds: the local staging area, the object store, the clock *)

(** A manifest row, as [generate_batch_metadata_files] appends it to the
    data frame with columns [pathname], [guid], [batchnumber]. *)
Record row := Row { pathname : string; guid : string; batchnumber : Z }.

(** What a file holds. A manifest is kept as the table that [to_csv]
    writes and [read_csv] reads back; an archive as its regular members
    (relative path, text lines). *)
Inductive content :=
| Table (rows : list row)
| Tar (members : list (string * list string))
| Text (lines : list string).

Inductive node :=
| File (c : content)
| Dir.

(** An object of the store. [str(blob)] prints bucket, name and
    generation. *)
Record blob := Blob {
  blob_bucket : string;
  blob_name : string;
  blob_generation : Z;
  blob_data : content }.

(** The effects a run performs, in the order it performs them. *)
Inductive effect :=
| Makedirs (p : string)
| SaveFile (p : string) (rows : list row)
| Download (bucket name dest : string)
| Upload (file_path bucket gcs_path : string)
| DeleteBlob (bucket name : string)
| ListBlobs (bucket prefix : string)
| Extract (tar_file dest : string)
| CopyFile (src dst : string)
| Shell (cmd : string)
| Unlink (p : string)
| Rmtree (p : string).

Inductive exn :=
| FileNotFoundError (p : string)
| FileExistsError (p : string)
| IsADirectoryError (p : string)
| NotADirectoryError (p : string)
| SameFileError (p : string)
| ParserError (p : string)
| ReadError (p : string)
| NotFound (bucket name : string)
| IndexError
| ZeroDivisionError
| CalledProcessError (status : Z) (cmd : string)
| Unmodelled (what : string).   (* where the model of the shell ends *)

(** [wall] is the wall clock in milliseconds: the value of the [k]-th
    reading. [ticks] counts the readings made so far. *)
Record World := mkWorld {
  local : gmap string node;
  gcs : list blob;
  wall : nat -> Z;
  ticks : nat;
  journal : list effect }.

Definition set_local (f : gmap string node -> gmap string node) (w : World) : World :=
  mkWorld (f (local w)) (gcs w) (wall w) (ticks w) (journal w).

Definition set_gcs (f : list blob -> list blob) (w : World) : World :=
  mkWorld (local w) (f (gcs w)) (wall w) (ticks w) (journal w).

Definition log (e : effect) (w : World) : World :=
  mkWorld (local w) (gcs w) (wall w) (ticks w) (journal w ++ [e]).

(** ** Computations that may raise *)

Definition M (A : Type) : Type := World -> World * (exn + A).

Definition ret {A} (a : A) : M A := fun w => (w, inr a).

Definition raise {A} (e : exn) : M A := fun w => (w, inl e).

Definition bind {A B} (c : M A) (k : A -> M B) : M B :=
  fun w =>
    match c w with
    | (w', inr a) => k a w'
    | (w', inl e) => (w', inl e)
    end.

Declare Scope py_scope.
Delimit Scope py_scope with py.
Bind Scope py_scope with M.

Notation "x <- c ;; k" := (bind c (fun x => k))
  (at level 100, c at next level, right associativity) : py_scope.
Notation "c ;; k" := (bind c (fun _ => k))
  (at level 100, right associativity) : py_scope.

Local Open Scope py_scope.

Definition get_world : M World := fun w => (w, inr w).

Definition modify (f : World -> World) : M unit := fun w => (f w, inr tt).

(** [for x in l: body(x)] *)
Fixpoint for_each {A} (body : A -> M unit) (l : list A) : M unit :=
  match l with
  | [] => ret tt
  | x :: rest => body x ;; for_each body rest
  end.

(** [l[i]] *)
Definition index {A} (l : list A) (i : nat) : M A :=
  match nth_error l i with
  | Some x => ret x
  | None => raise IndexError
  end.

(** [a % b] on Python integers: the sign follows the divisor. *)
Definition py_mod (a b : Z) : M Z :=
  if b =? 0 then raise ZeroDivisionError else ret (a mod b).

(** [int(round(time.time() * 1000))] *)
Definition time_ms : M Z :=
  fun w => (mkWorld (local w) (gcs w) (wall w) (S (ticks w)) (journal w),
            inr (wall w (ticks w))).

(** ** The local staging file system ([os], [shutil], [tarfile], [pandas]) *)

Module OS.

(** The directories above [p]: every prefix of [p] that ends just before
    a slash, the empty prefix and prefixes ending in a slash left out.
    [acc] is the prefix read so far, reversed. *)
Fixpoint ancestors_go (acc s : string) : list string :=
  match s with
  | EmptyString => []
  | String c s' =>
      let here :=
        match acc with
        | String a _ =>
            if Py.ascii_eqb c Py.slash && negb (Py.ascii_eqb a Py.slash)
            then [String.rev acc] else []
        | EmptyString => []
        end in
      here ++ ancestors_go (String c acc) s'
  end.

Definition ancestors (p : string) : list string := ancestors_go EmptyString p.

Definition add_dir (d : string) (m : gmap string node) : gmap string node :=
  match m !! d with
  | Some _ => m
  | None => <[d := Dir]> m
  end.

Definition add_dirs (ds : list string) (m : gmap string node) : gmap string node :=
  fold_left (fun m d => add_dir d m) ds m.

(** The paths that the model follows: components separated by single
    slashes, none of them empty, [.] or [..], with or without a slash in
    front. On any other path the operations below answer [Unmodelled],
    and on the empty path they answer as the system does. The staging
    area is meant as a tree: the directories above an entry are entries
    too. *)
Definition is_dot (c : string) : bool := String.eqb c "." || String.eqb c "..".

Definition plain (p : string) : bool :=
  match Py.split p "/" with
  | first :: rest =>
      negb (String.eqb p EmptyString)
      && negb (is_dot first)
      && forallb (fun c => negb (String.eqb c EmptyString) && negb (is_dot c)) rest
  | [] => false
  end.

Definition refused (p : string) : option exn :=
  if String.eqb p EmptyString then Some (FileNotFoundError p)
  else if plain p then None
  else Some (Unmodelled p).

(** Whether, going down the directories [above], a regular file is met
    before a missing entry. *)
Fixpoint barred (m : gmap string node) (above : list string) : bool :=
  match above with
  | [] => false
  | q :: rest =>
      match m !! q with
      | Some Dir => barred m rest
      | Some (File _) => true
      | None => false
      end
  end.

(** The error of a call on [p] when the directory of [p] is not there. *)
Definition no_entry (m : gmap string node) (p : string) : exn :=
  if barred m (ancestors p) then NotADirectoryError p else FileNotFoundError p.

(** The directory that holds [p], when [p] names one. *)
Definition dirname (p : string) : option string :=
  List.last (map Some (ancestors p)) None.

(** Looking up the directory of [p], as every call on [p] does first. *)
Definition enter (p : string) : M unit :=
  fun w =>
    match refused p with
    | Some e => (w, inl e)
    | None =>
        match dirname p with
        | None => (w, inr tt)
        | Some d =>
            match local w !! d with
            | Some Dir => (w, inr tt)
            | Some (File _) => (w, inl (NotADirectoryError p))
            | None => (w, inl (no_entry (local w) p))
            end
        end
    end.

(** [os.path.exists(p)] *)
Definition path_exists (p : string) : M bool :=
  fun w =>
    if String.eqb p EmptyString then (w, inr false)
    else if plain p then (w, inr (bool_decide (is_Some (local w !! p))))
    else (w, inl (Unmodelled p)).

(** The path at which [os.makedirs(p)] fails when a regular file stands
    above [p]: the one just below the file. *)
Fixpoint below_file (m : gmap string node) (above : list string) (p : string)
  : option string :=
  match above with
  | [] => None
  | q :: rest =>
      match m !! q with
      | Some (File _) => Some (hd p rest)
      | _ => below_file m rest p
      end
  end.

(** [os.makedirs(p)]: creates [p] and the missing directories above it;
    raises on the empty path, when [p] is already there, and when a
    regular file stands above [p]. *)
Definition makedirs (p : string) : M unit :=
  fun w =>
    match refused p with
    | Some e => (w, inl e)
    | None =>
        match local w !! p with
        | Some _ => (w, inl (FileExistsError p))
        | None =>
            match below_file (local w) (ancestors p) p with
            | Some q => (w, inl (NotADirectoryError q))
            | None =>
                (log (Makedirs p)
                   (set_local (fun m => <[p := Dir]> (add_dirs (ancestors p) m)) w),
                 inr tt)
            end
        end
    end.

(** No regular file stands at [p] or above it. *)
Definition not_file (m : gmap string node) (q : string) : bool :=
  match m !! q with
  | Some (File _) => false
  | _ => true
  end.

Definition no_file_on (m : gmap string node) (p : string) : bool :=
  forallb (not_file m) (ancestors p ++ [p]).

(** Opening [p] for writing and storing [c]: the directory of [p] must
    exist and [p] must not be a directory. *)
Definition write_file (p : string) (c : content) : M unit :=
  enter p ;;
  fun w =>
    match local w !! p with
    | Some Dir => (w, inl (IsADirectoryError p))
    | _ => (set_local (fun m => <[p := File c]> m) w, inr tt)
    end.

Definition read_file (p : string) : M content :=
  enter p ;;
  fun w =>
    match local w !! p with
    | Some (File c) => (w, inr c)
    | Some Dir => (w, inl (IsADirectoryError p))
    | None => (w, inl (FileNotFoundError p))
    end.

(** [os.unlink(p)] *)
Definition unlink (p : string) : M unit :=
  enter p ;;
  fun w =>
    match local w !! p with
    | Some (File _) => (log (Unlink p) (set_local (fun m => delete p m) w), inr tt)
    | Some Dir => (w, inl (IsADirectoryError p))
    | None => (w, inl (FileNotFoundError p))
    end.

Definition under (d : string) (p : string) : bool :=
  Py.startswith (d +:+ "/") p.

(** [shutil.rmtree(d)]: removes [d] and everything below it. *)
Definition rmtree (d : string) : M unit :=
  enter d ;;
  fun w =>
    match local w !! d with
    | Some Dir =>
        (log (Rmtree d)
           (set_local
              (fun m => filter (fun kv => under d (fst kv) = false) (delete d m)) w),
         inr tt)
    | Some (File _) => (w, inl (NotADirectoryError d))
    | None => (w, inl (FileNotFoundError d))
    end.

(** [shutil.copyfile(src, dst)]: refuses to copy a file onto itself. *)
Definition copyfile (src dst : string) : M unit :=
  there <- path_exists src ;;
  if there && String.eqb src dst then raise (SameFileError src)
  else
    c <- read_file src ;;
    write_file dst c ;;
    modify (log (CopyFile src dst)).

(** [with tarfile.open(tar_file) as file: file.extractall(path=dest)]:
    each member is written below [dest], over a file that is there, after
    the missing directories above it are made. *)
Definition extract_member (dest : string) (member : string * list string) : M unit :=
  let p := dest +:+ "/" +:+ fst member in
  fun w =>
    match refused p with
    | Some e => (w, inl e)
    | None =>
        match below_file (local w) (ancestors p) p with
        | Some q => (w, inl (NotADirectoryError q))
        | None =>
            match local w !! p with
            | Some Dir => (w, inl (IsADirectoryError p))
            | _ =>
                (set_local
                   (fun m => <[p := File (Text (snd member))]> (add_dirs (ancestors p) m)) w,
                 inr tt)
            end
        end
    end.

Definition tar_extractall (tar_file dest : string) : M unit :=
  c <- read_file tar_file ;;
  match c with
  | Tar members =>
      if plain dest then
        for_each (extract_member dest) members ;;
        modify (log (Extract tar_file dest))
      else raise (Unmodelled dest)
  | _ => raise (ReadError tar_file)
  end.

(** The values that [pd.read_csv] hands back as they were written: text
    that begins with a letter and is none of the words it reads as a
    missing value, a number or a truth value. *)
Definition is_letter (c : ascii) : bool :=
  let n := nat_of_ascii c in
  ((65 <=? n) && (n <=? 90) || (97 <=? n) && (n <=? 122))%nat.

Definition lower (c : ascii) : ascii :=
  let n := nat_of_ascii c in
  if ((65 <=? n) && (n <=? 90))%nat then ascii_of_nat (n + 32) else c.

Fixpoint lowercase (s : string) : string :=
  match s with
  | EmptyString => EmptyString
  | String c s' => String (lower c) (lowercase s')
  end.

Definition kept_as_text (s : string) : bool :=
  match s with
  | String c _ =>
      is_letter c
      && negb (existsb (String.eqb (lowercase s))
                 ["na"; "n/a"; "nan"; "null"; "none"; "inf"; "infinity"; "true"; "false"])
  | EmptyString => false
  end.

(** [pd.read_csv(p, sep="|")]. A table with a value that would come back
    changed is beyond the model. *)
Definition read_csv (p : string) : M (list row) :=
  c <- read_file p ;;
  match c with
  | Table rows =>
      if forallb (fun r => kept_as_text (pathname r) && kept_as_text (guid r)) rows
      then ret rows
      else raise (Unmodelled p)
  | _ => raise (ParserError p)
  end.

(** [df.to_csv(p, index=False, sep=sep)] *)
Definition to_csv (df : list row) (p : string) : M unit :=
  write_file p (Table df) ;;
  modify (log (SaveFile p df)).

End OS.

(** ** The object store ([google.cloud.storage]) *)

Module GCS.

Definition is_blob (bucket name : string) (b : blob) : bool :=
  String.eqb (blob_bucket b) bucket && String.eqb (blob_name b) name.

(** [str(blob)] *)
Definition blob_str (b : blob) : string :=
  String.concat EmptyString
    ["<Blob: "; blob_bucket b; ", "; blob_name b; ", ";
     Py.str_of_int (blob_generation b); ">"].

(** [bucket.list_blobs(prefix=prefix)]; without a prefix, [prefix] is
    the empty string. *)
Definition list_blobs (bucket prefix : string) : M (list blob) :=
  fun w =>
    (log (ListBlobs bucket prefix) w,
     inr (List.filter
            (fun b => String.eqb (blob_bucket b) bucket
                      && Py.startswith prefix (blob_name b))
            (gcs w))).

(** [bucket.blob(name).download_to_filename(dest)]: the client opens
    [dest] for writing before it asks for the object, and removes the
    file it opened when the object is not there (earlier releases of the
    client leave the file behind, empty). *)
Definition download_to_filename (bucket name dest : string) : M unit :=
  OS.write_file dest (Text []) ;;
  w <- get_world ;;
  match List.find (is_blob bucket name) (gcs w) with
  | Some b =>
      modify (set_local (fun m => <[dest := File (blob_data b)]> m)) ;;
      modify (log (Download bucket name dest))
  | None =>
      modify (set_local (fun m => delete dest m)) ;;
      raise (NotFound bucket name)
  end.

(** An upload replaces the object of that name, or adds a new one at
    its place in the listing of the bucket, which is in the order of the
    names. The store numbers the generation; the count of effects so far
    stands for that number. *)
Fixpoint replace_blob (b : blob) (l : list blob) : list blob :=
  match l with
  | [] => []
  | x :: rest =>
      (if is_blob (blob_bucket b) (blob_name b) x then b else x) :: replace_blob b rest
  end.

Fixpoint insert_blob (b : blob) (l : list blob) : list blob :=
  match l with
  | [] => [b]
  | x :: rest =>
      if String.eqb (blob_bucket x) (blob_bucket b)
         && String.ltb (blob_name b) (blob_name x)
      then b :: l
      else x :: insert_blob b rest
  end.

Definition put_blob (b : blob) (l : list blob) : list blob :=
  if existsb (is_blob (blob_bucket b) (blob_name b)) l
  then replace_blob b l
  else insert_blob b l.

(** [bucket.blob(gcs_path).upload_from_filename(file_path)] *)
Definition upload_from_filename (bucket gcs_path file_path : string) : M unit :=
  c <- OS.read_file file_path ;;
  w <- get_world ;;
  let generation := Z.of_nat (length (journal w)) in
  modify (set_gcs (put_blob (Blob bucket gcs_path generation c))) ;;
  modify (log (Upload file_path bucket gcs_path)).

Definition delete_blob (b : blob) : M unit :=
  fun w =>
    if existsb (is_blob (blob_bucket b) (blob_name b)) (gcs w)
    then (log (DeleteBlob (blob_bucket b) (blob_name b))
            (set_gcs (List.filter
                        (fun x => negb (is_blob (blob_bucket b) (blob_name b) x))) w),
          inr tt)
    else (w, inl (NotFound (blob_bucket b) (blob_name b))).

(** [bucket.delete_blobs(blobs=blobs)] *)
Definition delete_blobs (blobs : list blob) : M unit :=
  for_each delete_blob blobs.

End GCS.

(** ** The pipeline

    [logging] calls and the construction of storage clients are left out:
    they change nothing the functions below read. The [int(...)]
    conversions of [source_file_batch_length], [batch_group_size] and
    [batch_ordinal] are taken as done: these parameters are integers.
    A listing is the list of objects found when the loop starts. *)

(** An f-string: the concatenation of its pieces. *)
Definition fstr (pieces : list string) : string := String.concat EmptyString pieces.

(** [str(blob).split(",")[1].strip()] *)
Definition blob_filename (b : blob) : M string :=
  piece <- index (Py.split (GCS.blob_str b) ",") 1 ;;
  ret (Py.strip piece).

(** [str.split(location, "gs://")[1].split("/")[0]] *)
Definition bucket_of (location : string) : M string :=
  rest <- index (Py.split location "gs://") 1 ;;
  index (Py.split rest "/") 0.

Section Pipeline.

(** [/bin/sh -c cmd] of the container the pipeline runs in: the exit
    status of the command, with its effect on the world. *)
Variable sh : string -> M Z.

(** [subprocess.check_call(cmd, shell=True)] *)
Definition check_call (cmd : string) : M unit :=
  modify (log (Shell cmd)) ;;
  status <- sh cmd ;;
  if status =? 0 then ret tt else raise (CalledProcessError status cmd).

Definition copy_source_files_gcs_to_gcs
           (source_bucket destination_bucket destination_folder file_type : string)
           (silent : bool) : M unit :=
  check_call "which gsutil" ;;
  let cmd := fstr ["gsutil -m cp -n gs://"; source_bucket; " gs://";
                destination_bucket; "/"; destination_folder] in
  let cmd := if silent then cmd +:+ " 2> /dev/null" else cmd in
  check_call cmd.

Definition download_file_gcs (project_id source_location destination_folder : string)
  : M unit :=
  let object_name := Py.os_path_basename source_location in
  let dest_object := fstr [destination_folder; "/"; object_name] in
  bucket_name <- bucket_of source_location ;;
  source_object_path <-
    index (Py.split source_location (fstr ["gs://"; bucket_name; "/"])) 1 ;;
  GCS.download_to_filename bucket_name source_object_path dest_object.

(** The f-string [cmd] of [add_id_column]: the closing single quote is
    followed at once by the file name. *)
Definition add_id_column_cmd (destination_json_file guid : string) : string :=
  fstr ["sed -i -e "; Py.sq;
        "s/{"; Py.bs; Py.dq; "frame"; Py.bs; Py.dq;
        "/{"; Py.dq; "id"; Py.dq; ": "; Py.bs; Py.dq; guid; Py.bs; Py.dq; ", ";
        Py.bs; Py.dq; "frame"; Py.bs; Py.dq; "/g"; Py.sq;
        destination_json_file].

Definition add_id_column (source_json_file destination_json_file guid : string)
  : M unit :=
  OS.copyfile source_json_file destination_json_file ;;
  let cmd := add_id_column_cmd destination_json_file guid in
  check_call cmd.

Definition upload_file_to_gcs (file_path gcs_bucket gcs_path : string) : M unit :=
  GCS.upload_from_filename gcs_bucket gcs_path file_path.

Definition remove_gcs_path (gcs_bucket gcs_path : string) : M unit :=
  let drop_path := fst (Py.os_path_split gcs_path) in
  blobs <- GCS.list_blobs gcs_bucket (fstr [drop_path; "/"]) ;;
  GCS.delete_blobs blobs.

Definition save_to_new_file (df : list row) (file_path : string) : M unit :=
  OS.to_csv df file_path.

(** [df["guid"]] of the first row whose [pathname] is the given one. *)
Definition guid_of (df : list row) (gcs_source_file : string) : M string :=
  match List.find (fun r => String.eqb (pathname r) gcs_source_file) df with
  | Some r => ret (Py.strip (guid r))
  | None => raise IndexError
  end.

Definition process_batch
           (project_id batch_filename target_gcs_bucket target_gcs_path
              target_root_path target_source_folder target_unpack_folder
              target_load_folder target_batch_folder : string) : M unit :=
  download_file_gcs project_id
    (fstr ["gs://"; target_gcs_bucket; "/"; batch_filename])
    (fstr [target_root_path; "/"; target_batch_folder]) ;;
  let batch_filename :=
    fstr [target_root_path; "/"; target_batch_folder; "/";
       Py.os_path_basename batch_filename] in
  df_filelist <- OS.read_csv batch_filename ;;
  for_each
    (fun gcs_source_file =>
       let filename := Py.os_path_basename gcs_source_file in
       guid <- guid_of df_filelist gcs_source_file ;;
       let source_json_file :=
         fstr [target_root_path; "/"; target_unpack_folder; "/"; guid; "/out.log"] in
       let destination_json_file :=
         fstr [target_root_path; "/"; target_load_folder; "/out"; guid; ".log"] in
       let source_tar_file :=
         fstr [target_root_path; "/"; target_source_folder; "/"; filename] in
       download_file_gcs project_id gcs_source_file
         (fstr [target_root_path; "/"; target_source_folder]) ;;
       OS.tar_extractall source_tar_file (fstr [target_root_path; "/"; target_unpack_folder]) ;;
       add_id_column source_json_file destination_json_file guid ;;
       upload_file_to_gcs destination_json_file target_gcs_bucket
         (fstr [target_gcs_path; "/"; target_load_folder; "/out"; guid; ".log"]) ;;
       OS.unlink source_tar_file ;;
       OS.unlink destination_json_file ;;
       OS.rmtree (fstr [target_root_path; "/"; target_unpack_folder; "/"; guid]) ;;
       OS.unlink batch_filename)
    (map pathname df_filelist).

(** The loop of [process_batch_metadata_files]: [call] is what is done
    with a selected manifest, [file_group_ordinal] the slot of the
    manifest at the head of the listing. *)
Fixpoint batch_loop (call : string -> M unit)
         (batch_group_size batch_ordinal file_group_ordinal : Z)
         (blobs : list blob) : M unit :=
  match blobs with
  | [] => ret tt
  | blob :: rest =>
      batch_filename <- blob_filename blob ;;
      (if file_group_ordinal =? batch_ordinal
       then call batch_filename
       else ret tt) ;;
      let file_group_ordinal := file_group_ordinal + 1 in
      let file_group_ordinal :=
        if file_group_ordinal >? batch_group_size then 1 else file_group_ordinal in
      batch_loop call batch_group_size batch_ordinal file_group_ordinal rest
  end.

Definition process_batch_metadata_files
           (project_id target_gcs_bucket target_gcs_path target_root_path
              target_source_folder target_unpack_folder target_load_folder
              target_batch_folder batch_gcs_path : string)
           (batch_group_size batch_ordinal : Z) : M unit :=
  let bucket_name := target_gcs_bucket in
  blobs <- GCS.list_blobs bucket_name batch_gcs_path ;;
  batch_loop
    (fun batch_filename =>
       process_batch project_id batch_filename target_gcs_bucket target_gcs_path
         target_root_path target_source_folder target_unpack_folder
         target_load_folder target_batch_folder)
    batch_group_size batch_ordinal 1 blobs.

Definition make_if_missing (p : string) : M unit :=
  there <- OS.path_exists p ;;
  if negb there then OS.makedirs p else ret tt.

Definition generate_folder_hierarchy
           (target_root_path target_source_folder target_unpack_folder
              target_load_folder target_batch_folder : string) : M unit :=
  make_if_missing (fstr [target_root_path]) ;;
  make_if_missing (fstr [target_root_path; "/"; target_source_folder]) ;;
  make_if_missing (fstr [target_root_path; "/"; target_unpack_folder]) ;;
  make_if_missing (fstr [target_root_path; "/"; target_load_folder]) ;;
  make_if_missing (fstr [target_root_path; "/"; target_batch_folder]).

Definition matches (name file_type : string) : bool :=
  (Py.find name file_type >? 0) || String.eqb file_type EmptyString.

Fixpoint count_loop (file_type : string) (cnt_files : Z) (blobs : list blob) : M Z :=
  match blobs with
  | [] => ret cnt_files
  | blob :: rest =>
      filename <- blob_filename blob ;;
      if matches (Py.os_path_basename filename) file_type
      then count_loop file_type (cnt_files + 1) rest
      else count_loop file_type cnt_files rest
  end.

Definition count_files_in_gcs_bucket (project_id source_gcs_folder_path file_type : string)
  : M Z :=
  bucket_name <- bucket_of source_gcs_folder_path ;;
  blobs <- GCS.list_blobs bucket_name EmptyString ;;
  count_loop file_type 0 blobs.

(** The variables the loop of [generate_batch_metadata_files] updates. *)
Record gen_state := GenState {
  df_filelist : list row;
  file_counter : Z;
  batch_number : Z }.

Definition batch_metadata_file_path_of
           (target_root_path target_batch_folder : string) (batch_number : Z) : string :=
  let batch_number_zfill := Py.zfill (Py.str_of_int batch_number) 6 in
  fstr [target_root_path; "/"; target_batch_folder; "/batch_metadata-";
     batch_number_zfill; ".txt"].

Fixpoint generate_loop
         (source_gcs_folder_path : string) (source_file_batch_length : Z)
         (target_gcs_bucket target_root_path target_batch_folder file_type : string)
         (total_number_files_in_bucket : Z)
         (st : gen_state) (blobs : list blob) : M unit :=
  match blobs with
  | [] => ret tt
  | blob :: rest =>
      filename <- blob_filename blob ;;
      let batch_metadata_file_path :=
        batch_metadata_file_path_of target_root_path target_batch_folder
          (batch_number st) in
      st <-
        (if matches filename file_type then
           let filenm := Py.os_path_basename filename in
           let path := fstr [source_gcs_folder_path; "/"; filenm] in
           let guid := Py.replace filenm file_type EmptyString in
           r <- py_mod (file_counter st) source_file_batch_length ;;
           st <-
             (if (r =? 0) || (file_counter st =? total_number_files_in_bucket) then
                (if batch_number st >? 0 then
                   save_to_new_file (df_filelist st) batch_metadata_file_path ;;
                   let metadata_filename := Py.os_path_basename batch_metadata_file_path in
                   upload_file_to_gcs batch_metadata_file_path target_gcs_bucket
                     (fstr [target_root_path; "/"; target_batch_folder; "/";
                         metadata_filename])
                 else ret tt) ;;
                ret (GenState [] (file_counter st) (batch_number st + 1))
              else ret st) ;;
           ret (GenState (df_filelist st ++ [Row path guid (batch_number st)])
                  (file_counter st + 1) (batch_number st))
         else ret st) ;;
      generate_loop source_gcs_folder_path source_file_batch_length
        target_gcs_bucket target_root_path target_batch_folder file_type
        total_number_files_in_bucket st rest
  end.

Definition generate_batch_metadata_files
           (project_id source_gcs_folder_path : string) (source_file_batch_length : Z)
           (target_gcs_bucket target_root_path target_batch_folder file_type : string)
  : M unit :=
  bucket_name <- bucket_of source_gcs_folder_path ;;
  total_number_files_in_bucket <-
    count_files_in_gcs_bucket project_id source_gcs_folder_path ".tar.gz" ;;
  let prefix_folder :=
    Py.replace (Py.replace source_gcs_folder_path "gs://" EmptyString)
      (fstr [bucket_name; "/"]) EmptyString in
  blobs <- GCS.list_blobs bucket_name prefix_folder ;;
  generate_loop source_gcs_folder_path source_file_batch_length
    target_gcs_bucket target_root_path target_batch_folder file_type
    total_number_files_in_bucket (GenState [] 0 0) blobs.

(** The parameters of [main]. The batch length, the batch group size
    and the batch ordinal stand as the integers that [int(...)] reads
    off the strings of the environment; a string that [int] rejects is
    beyond the model. *)
Record main_args := MainArgs {
  source_url_gcs : string;
  source_file_batch_length : Z;
  target_gcs_bucket : string;
  target_gcs_path : string;
  target_root_path : string;
  target_source_folder : string;
  target_unpack_folder : string;
  target_load_folder : string;
  target_batch_folder : string;
  project_id : string;
  pipeline_name : string;
  batch_group_size : Z;
  batch_ordinal : Z }.

(** The body of [main], without its decorator. *)
Definition main_body (a : main_args) : M unit :=
  generate_folder_hierarchy (target_root_path a) (target_source_folder a)
    (target_unpack_folder a) (target_load_folder a) (target_batch_folder a) ;;
  if String.eqb (pipeline_name a) "transfer_source" then
    copy_source_files_gcs_to_gcs "gcs-public-data-trafficvision"
      (target_gcs_bucket a)
      (fstr ["data/trafficvision/"; target_source_folder a]) ".tar.gz" true
  else if String.eqb (pipeline_name a) "generate_batch_metadata_files" then
    remove_gcs_path (target_gcs_bucket a)
      (fstr [target_gcs_path a; "/"; target_load_folder a]) ;;
    remove_gcs_path (target_gcs_bucket a)
      (fstr [target_gcs_path a; "/"; target_batch_folder a]) ;;
    generate_batch_metadata_files (project_id a) (source_url_gcs a)
      (source_file_batch_length a) (target_gcs_bucket a) (target_root_path a)
      (target_batch_folder a) ".tar.gz"
  else if String.eqb (pipeline_name a) "run_batch_data" then
    process_batch_metadata_files (project_id a) (target_gcs_bucket a)
      (target_gcs_path a) (target_root_path a) (target_source_folder a)
      (target_unpack_folder a) (target_load_folder a) (target_batch_folder a)
      (fstr [target_gcs_path a; "/"; target_batch_folder a])
      (batch_group_size a) (batch_ordinal a)
  else ret tt.

End Pipeline.

(** ** The retry decorator *)

(** Modelled from the spec: the decorator [retry] of the [retrying]
    package, which is not part of the repository. [main] is decorated with
    [stop_max_attempt_number=7] and [stop_max_delay=300000]: a raised
    error is retried, retrying stops after the attempt whose number
    reaches the limit or once the time since the start of the first
    attempt, in milliseconds, reaches the delay limit, and the error of
    the last attempt is then raised. No wait is configured.
    [attempts_left] is the limit minus the number of the current attempt. *)
Fixpoint retry_call {A} (attempts_left : nat) (stop_max_delay start_time : Z)
         (fn : M A) : M A :=
  fun w =>
    match fn w with
    | (w1, inr v) => (w1, inr v)
    | (w1, inl e) =>
        match time_ms w1 with
        | (w2, inr now) =>
            let delay_since_first_attempt_ms := now - start_time in
            match attempts_left with
            | O => (w2, inl e)
            | S k =>
                if delay_since_first_attempt_ms >=? stop_max_delay
                then (w2, inl e)
                else retry_call k stop_max_delay start_time fn w2
            end
        | (w2, inl e') => (w2, inl e')
        end
    end.

Definition retry {A} (stop_max_attempt_number : nat) (stop_max_delay : Z)
           (fn : M A) : M A :=
  start_time <- time_ms ;;
  retry_call (stop_max_attempt_number - 1) stop_max_delay start_time fn.

(** [@retry(stop_max_attempt_number=7, stop_max_delay=300000) def main(...)] *)
Definition main (sh : string -> M Z) (a : main_args) : M unit :=
  retry 7 300000 (main_body sh a).

(** ** The shell and [sed]

    What [/bin/sh -c] and GNU [sed] do with the command that
    [add_id_column] builds. Only what that command needs is modelled:
    words made of plain characters and single-quoted text, and the script
    [s/pattern/replacement/g] with a literal pattern. Anything else is
    answered with [Unmodelled]. *)

Module Sh.

Definition blank (c : ascii) : bool :=
  Py.ascii_eqb c " " || Py.ascii_eqb c (ascii_of_nat 9).

(** Characters that mean something to the shell outside quotes. *)
Definition meta (c : ascii) : bool :=
  existsb (fun n => Py.ascii_eqb c (ascii_of_nat n))
    [10; 34; 92; 36; 96; 59; 38; 124; 60; 62; 40; 41; 42; 63; 91; 126; 35]%nat.

Definition quote (c : ascii) : bool := Py.ascii_eqb c (ascii_of_nat 39).

Inductive lexer :=
| Between
| InWord (acc : string)
| InQuote (acc : string).

(** Word splitting: blanks separate words, a single-quoted stretch is
    taken as it stands and joins the word around it. [acc] is the word
    so far, reversed. *)
Fixpoint words_go (st : lexer) (s : string) : option (list string) :=
  match s with
  | EmptyString =>
      match st with
      | Between => Some []
      | InWord acc => Some [String.rev acc]
      | InQuote _ => None
      end
  | String c s' =>
      match st with
      | InQuote acc =>
          if quote c then words_go (InWord acc) s'
          else words_go (InQuote (String c acc)) s'
      | Between =>
          if blank c then words_go Between s'
          else if quote c then words_go (InQuote EmptyString) s'
          else if meta c then None
          else words_go (InWord (String c EmptyString)) s'
      | InWord acc =>
          if blank c then
            match words_go Between s' with
            | Some ws => Some (String.rev acc :: ws)
            | None => None
            end
          else if quote c then words_go (InQuote acc) s'
          else if meta c then None
          else words_go (InWord (String c acc)) s'
      end
  end.

Definition words (cmd : string) : option (list string) := words_go Between cmd.

End Sh.

Module Sed.

Definition is_digit (c : ascii) : bool :=
  let n := nat_of_ascii c in ((48 <=? n) && (n <=? 57))%nat.

Definition is_alnum (c : ascii) : bool :=
  let n := nat_of_ascii c in
  (is_digit c || (65 <=? n) && (n <=? 90) || (97 <=? n) && (n <=? 122))%nat.

Definition one_of (codes : list nat) (c : ascii) : bool :=
  existsb (fun n => Py.ascii_eqb c (ascii_of_nat n)) codes.

Definition backslash (c : ascii) : bool := Py.ascii_eqb c (ascii_of_nat 92).

(** A backslash before [c] gives the character [c] itself when [c] is
    neither a letter or digit nor one of the characters that a
    backslash turns into an operator. *)
Definition escapes_to_itself (c : ascii) : bool :=
  negb (is_alnum c)
  && negb (one_of [10; 40; 41; 123; 125; 124; 43; 63; 60; 62; 39; 96]%nat c).

Inductive parsed :=
| Part (text rest : string)
| Unterminated
| Beyond.

(** One part of the [s] command, up to its closing slash: the part with
    its escapes resolved, and the rest of the script. [specials] are the
    characters that are operators when not escaped; [escaped] says that
    the previous character was a backslash; [acc] is the part so far,
    reversed. *)
Fixpoint part (specials : list nat) (escaped : bool) (acc s : string) : parsed :=
  match s with
  | EmptyString => Unterminated
  | String c s' =>
      if escaped then
        if escapes_to_itself c then part specials false (String c acc) s'
        else Beyond
      else if Py.ascii_eqb c Py.slash then Part (String.rev acc) s'
      else if backslash c then part specials true acc s'
      else if one_of specials c then Beyond
      else part specials false (String c acc) s'
  end.

(** Unescaped, these are operators of a basic regular expression
    (newline, dollar, star, dot, bracket, caret) and of a replacement
    (newline, ampersand). *)
Definition regex_specials : list nat := [10; 36; 42; 46; 91; 94]%nat.
Definition replacement_specials : list nat := [10; 38]%nat.

Definition flag_char (c : ascii) : bool :=
  one_of [103; 112; 105; 73; 109; 77; 101]%nat c || is_digit c.

Definition ends_command (c : ascii) : bool :=
  one_of [119; 59; 125; 35; 10; 32; 9]%nat c.

(** The flags after the replacement: [Some true] when every character
    is a flag, [Some false] at the first character that [sed] rejects
    (unknown option to [s]), [None] where the model ends (a [w] flag, a
    further command). *)
Fixpoint flags_ok (s : string) : option bool :=
  match s with
  | EmptyString => Some true
  | String c s' =>
      if flag_char c then flags_ok s'
      else if ends_command c then None
      else Some false
  end.

Inductive compiled :=
| Subst (pattern replacement : string)
| BadScript
| NoModel.

(** The script given with [-e]. *)
Definition compile (script : string) : compiled :=
  match script with
  | String "s" (String "/" body) =>
      match part regex_specials false EmptyString body with
      | Part pattern body =>
          match part replacement_specials false EmptyString body with
          | Part replacement flags =>
              match flags_ok flags with
              | Some false => BadScript
              | Some true =>
                  if String.eqb flags "g" && negb (String.eqb pattern EmptyString)
                  then Subst pattern replacement else NoModel
              | None => NoModel
              end
          | Unterminated => BadScript
          | Beyond => NoModel
          end
      | Unterminated => BadScript
      | Beyond => NoModel
      end
  | _ => NoModel
  end.

(** [sed -i -e script file...]: the exit status. A script that does not
    compile ends [sed] with status 1 before any file is touched, a
    missing file operand with status 4; a file that is not there gives
    status 2. *)
Definition run (args : list string) : M Z :=
  match args with
  | "-i" :: "-e" :: script :: files =>
      match compile script with
      | BadScript => ret 1
      | NoModel => raise (Unmodelled script)
      | Subst pattern replacement =>
          match files with
          | [] => ret 4
          | [file] =>
              w <- get_world ;;
              match local w !! file with
              | Some (File (Text lines)) =>
                  let lines := map (fun l => Py.replace l pattern replacement) lines in
                  modify (set_local (fun m => <[file := File (Text lines)]> m)) ;;
                  ret 0
              | Some (File _) => raise (Unmodelled file)
              | Some Dir => ret 4
              | None => ret 2
              end
          | _ => raise (Unmodelled script)
          end
      end
  | _ => raise (Unmodelled "sed")
  end.

End Sed.

(** The shell of a container in which [sed] is the only program the
    model knows. *)
Definition sed_sh (cmd : string) : M Z :=
  match Sh.words cmd with
  | Some ("sed" :: args) => Sed.run args
  | _ => raise (Unmodelled cmd)
  end.

(** The command of the commented-out lines of [add_id_column]: it has a
    blank between the script and the file. *)
Definition add_id_column_cmd_before (destination_json_file guid : string) : string :=
  fstr ["sed -i -e "; Py.sq;
        "s/{"; Py.bs; Py.dq; "frame"; Py.bs; Py.dq;
        "/{"; Py.dq; "id"; Py.dq; ": "; Py.dq; guid; Py.dq; Py.bs; ", ";
        Py.dq; "frame"; Py.dq; "/g"; Py.sq; " ";
        destination_json_file].

(** ** Batch-group assignment *)

(** The file name that the loops read off a listed object. *)
Definition filename_of (b : blob) : string :=
  Py.strip (nth 1 (Py.split (GCS.blob_str b) ",") EmptyString).

(** The objects that [bucket.list_blobs(prefix=prefix)] finds in [w]. *)
Definition listed (bucket prefix : string) (w : World) : list blob :=
  List.filter
    (fun b => String.eqb (blob_bucket b) bucket && Py.startswith prefix (blob_name b))
    (gcs w).

(** The elements of a listing that the loop of
    [process_batch_metadata_files] selects: the loop without what it does
    to a selected manifest. *)
Fixpoint assigned_from {A} (batch_group_size batch_ordinal file_group_ordinal : Z)
         (l : list A) : list A :=
  match l with
  | [] => []
  | x :: rest =>
      let next := file_group_ordinal + 1 in
      let next := if next >? batch_group_size then 1 else next in
      if file_group_ordinal =? batch_ordinal
      then x :: assigned_from batch_group_size batch_ordinal next rest
      else assigned_from batch_group_size batch_ordinal next rest
  end.

Definition assigned {A} (batch_group_size batch_ordinal : Z) (l : list A) : list A :=
  assigned_from batch_group_size batch_ordinal 1 l.

(** The batch ordinals [1..G]. *)
Definition ordinals (batch_group_size : Z) : list Z :=
  map Z.of_nat (seq 1 (Z.to_nat batch_group_size)).

(** The elements of [l] with their positions, counted from [start]. *)
Fixpoint indexed_from {A} (start : Z) (l : list A) : list (Z * A) :=
  match l with
  | [] => []
  | x :: rest => (start, x) :: indexed_from (start + 1) rest
  end.

(** The slot of the manifest at position [i], counted from 0: slots run
    cyclically through [1..G]; with [G < 1] every manifest has slot 1. *)
Definition slot (batch_group_size i : Z) : Z :=
  if batch_group_size <? 1 then 1 else i mod batch_group_size + 1.

Definition by_slot {A} (batch_group_size batch_ordinal start : Z) (l : list A) : list A :=
  map snd (List.filter (fun p => slot batch_group_size (fst p) =? batch_ordinal)
             (indexed_from start l)).

(** The selection as the specification words it: the manifests whose
    index [i], counted from [base], has [i mod G = batch_ordinal]. *)
Definition spec_selected {A} (base batch_group_size batch_ordinal : Z) (l : list A) : list A :=
  map snd (List.filter (fun p => fst p mod batch_group_size =? batch_ordinal)
             (indexed_from base l)).

(** The script that [add_id_column] puts between the single quotes. *)
Module Sed_script.
Definition script (guid : string) : string :=
  fstr ["s/{"; Py.bs; Py.dq; "frame"; Py.bs; Py.dq;
        "/{"; Py.dq; "id"; Py.dq; ": "; Py.bs; Py.dq; guid; Py.bs; Py.dq; ", ";
        Py.bs; Py.dq; "frame"; Py.bs; Py.dq; "/g"].
End Sed_script.

Definition marker_line : string := fstr ["{"; Py.dq; "frame"; Py.dq; ": 1}"].

(** ** Example worlds *)

Module Example.

Definition staging : gmap string node :=
  list_to_map
    [("data", Dir); ("data/tv", Dir); ("data/tv/files", Dir); ("data/tv/unpack", Dir);
     ("data/tv/load", Dir); ("data/tv/batch", Dir)].

Definition archive (guid : string) : content :=
  Tar [(guid +:+ "/out.log", [marker_line])].

Definition source (name : string) : blob :=
  Blob "src" (fstr ["files/"; name; ".tar.gz"]) 1 (archive name).

(** Five archives [a.tar.gz] .. [e.tar.gz] under [gs://src/files]. *)
Definition five_sources : list blob :=
  map source ["a"; "b"; "c"; "d"; "e"].

Definition w5 : World := mkWorld staging five_sources (fun _ => 0) 0 [].

Definition record (name : string) (batch : Z) : row :=
  Row (fstr ["gs://src/files/"; name; ".tar.gz"]) name batch.

Definition manifest_path (n : string) : string :=
  fstr ["data/tv/batch/batch_metadata-"; n; ".txt"].

(** A manifest of two records, as uploaded by the generator. *)
Definition manifest1 : blob :=
  Blob "dst" (manifest_path "000001") 2 (Table [record "a" 1; record "b" 1]).

Definition manifest2 : blob :=
  Blob "dst" (manifest_path "000002") 5 (Table [record "c" 2; record "d" 2]).

Definition w_batch : World :=
  mkWorld staging (five_sources ++ [manifest1; manifest2]) (fun _ => 0) 0 [].

(** The same, with a manifest numbered 9 left in the staging area by
    an earlier run; the store has no such manifest. *)
Definition w_stale : World :=
  mkWorld (<[manifest_path "000009" := File (Table [record "a" 9])]> staging)
    (five_sources ++ [manifest1; manifest2]) (fun _ => 0) 0 [].

(** A shell in which every command succeeds and changes nothing. *)
Definition ok_sh (cmd : string) : M Z := ret 0.

(** A destination bucket that holds copied archives, a load output, a
    manifest and an unrelated object. *)
Definition w_dst : World :=
  mkWorld ∅
    [Blob "dst" "data/tv/files/a.tar.gz" 1 (archive "a");
     Blob "dst" "data/tv/load/outa.log" 2 (Text [marker_line]);
     Blob "dst" (manifest_path "000001") 3 (Table [record "a" 1]);
     Blob "dst" "other/keep.txt" 4 (Text ["keep"])]
    (fun _ => 0) 0 [].

Definition generate_args : main_args :=
  MainArgs "gs://dst/data/tv/files" 2 "dst" "data/tv" "data/tv"
    "files" "unpack" "load" "batch" "project"
    "generate_batch_metadata_files" 1 1.

(** No pipeline name and no store parameters; the staging area is set. *)
Definition unknown_args : main_args :=
  MainArgs EmptyString 0 EmptyString EmptyString "data/tv"
    "files" "unpack" "load" "batch" EmptyString EmptyString 1 1.

(** No parameter set, as when the environment is empty. The batch
    length, which is read in the generator only, stands as 0. *)
Definition default_args : main_args :=
  MainArgs EmptyString 0 EmptyString EmptyString EmptyString EmptyString
    EmptyString EmptyString EmptyString EmptyString EmptyString 1 1.

(** A staging area in which a regular file has the name of the root. *)
Definition w_blocked : World :=
  mkWorld (list_to_map [("data", Dir); ("data/tv", File (Text ["not a folder"]))])
    [] (fun _ => 0) 0 [].

(** The mode [run_batch_data] with one batch group, on the bucket of
    [w_batch]. *)
Definition run_args : main_args :=
  MainArgs "gs://src/files" 2 "dst" "data/tv" "data/tv"
    "files" "unpack" "load" "batch" "project" "run_batch_data" 1 1.

End Example.

(** The folders of the staging area that [generate_folder_hierarchy]
    looks after, in the order in which it does. *)
Definition hierarchy (root sf uf lf bf : string) : list string :=
  [fstr [root];
   fstr [root; "/"; sf];
   fstr [root; "/"; uf];
   fstr [root; "/"; lf];
   fstr [root; "/"; bf]].

Definition staging_folders (a : main_args) : list string :=
  hierarchy (target_root_path a) (target_source_folder a) (target_unpack_folder a)
    (target_load_folder a) (target_batch_folder a).

(** What one guarded [os.makedirs] does when it returns: it touches
    neither the store nor the clock, makes at most the one call, leaves
    its folder in place as a directory, keeps every entry of the staging
    area and puts no regular file anywhere. *)
Definition only_mkdir (p : string) (w w' : World) : Prop :=
  gcs w' = gcs w
  /\ wall w' = wall w /\ ticks w' = ticks w
  /\ (exists dirs, journal w' = journal w ++ map Makedirs dirs /\ incl dirs [p])
  /\ local w' !! p = Some Dir
  /\ local w ⊆ local w'
  /\ (forall q, OS.no_file_on (local w) q = true -> OS.no_file_on (local w') q = true).

(** The world after [k] attempts of [fn] in a row that raised, each
    followed by a reading of the clock. *)
Fixpoint after_failures {A} (fn : M A) (k : nat) (w : World) : World :=
  match k with
  | O => w
  | S k' => after_failures fn k' (fst (time_ms (fst (fn w))))
  end.

(** The time since [start_time] that the clock shows after the [k]-th
    attempt, for [k >= 1]. *)
Definition delay_after {A} (fn : M A) (start_time : Z) (k : nat) (w : World) : Z :=
  let w1 := fst (fn (after_failures fn (k - 1) w)) in
  wall w1 (ticks w1) - start_time.

(** ** Reading the journal *)

(** The manifest files written by [save_to_new_file], in order. *)
Fixpoint saved_files (j : list effect) : list (string * list row) :=
  match j with
  | [] => []
  | SaveFile p rows :: rest => (p, rows) :: saved_files rest
  | _ :: rest => saved_files rest
  end.

Definition saved_paths (j : list effect) : list string := map fst (saved_files j).

(** The manifest file names with the batch numbers [start], [start + 1],
    ..., [start + k - 1]. *)
Definition numbered_from (target_root_path target_batch_folder : string)
           (start k : nat) : list string :=
  map (fun i => batch_metadata_file_path_of target_root_path target_batch_folder
                  (Z.of_nat i))
      (seq start k).

(** The number of listed objects that the generator takes. *)
Definition matching (blobs : list blob) (file_type : string) : nat :=
  length (List.filter (fun b => matches (filename_of b) file_type) blobs).

(** The number of manifests written by the time the generator has taken
    [x] objects with the batch length [N]. *)
Definition written (N x : Z) : Z := if x =? 0 then 0 else (x - 1) / N.

(** [ceil(m / n)] *)
Definition ceil_div (m n : Z) : Z := (m + n - 1) / n.

(** ** Runs on the example worlds *)

Module Run.
Import Example.

(** Manifest generation over the five archives, batch length 2. *)
Definition generate5 : World * (exn + unit) :=
  generate_batch_metadata_files "project" "gs://src/files" 2 "dst"
    "data/tv" "batch" ".tar.gz" w5.

(** [process_batch] on the manifest of two records. *)
Definition batch1 (sh : string -> M Z) : World * (exn + unit) :=
  process_batch sh "project" (manifest_path "000001") "dst" "data/tv" "data/tv"
    "files" "unpack" "load" "batch" w_batch.

(** [main] in the mode [generate_batch_metadata_files] on [w_dst]. *)
Definition preclean : World * (exn + unit) := main sed_sh generate_args w_dst.

(** The staging area once [a.tar.gz] is unpacked. *)
Definition w_unpacked : World :=
  mkWorld (<["data/tv/unpack/a/out.log" := File (Text [marker_line; "# end"])]>
             (<["data/tv/unpack/a" := Dir]> staging))
          [] (fun _ => 0) 0 [].

Definition add_id : World * (exn + unit) :=
  add_id_column sed_sh "data/tv/unpack/a/out.log" "data/tv/load/outa.log" "a"
    w_unpacked.

(** The line that the transform is to produce from [marker_line]. *)
Definition marker_line_with_id (guid : string) : string :=
  fstr ["{"; Py.dq; "id"; Py.dq; ": "; Py.dq; guid; Py.dq; ", ";
        Py.dq; "frame"; Py.dq; ": 1}"].

End Run.

(** ** What [remove_gcs_path] drops *)

(** The key of an object: its bucket and its name. *)
Definition blob_key (b : blob) : string * string := (blob_bucket b, blob_name b).

(** The objects that [remove_gcs_path gcs_bucket gcs_path] lists: those
    of the bucket whose name begins with the directory part of
    [gcs_path] and a slash. *)
Definition dropped (gcs_bucket gcs_path : string) (b : blob) : bool :=
  String.eqb (blob_bucket b) gcs_bucket
  && Py.startswith (fstr [fst (Py.os_path_split gcs_path); "/"]) (blob_name b).

Definition deletions (blobs : list blob) : list effect :=
  map (fun b => DeleteBlob (blob_bucket b) (blob_name b)) blobs.

(** ** What the generator writes *)

(** A manifest file as the generator is to leave it: named after a batch
    number [k >= 1], with at least one and at most [N] rows, each of
    them carrying [k]. *)
Definition manifest_ok (root bf : string) (N : Z) (file : string * list row) : Prop :=
  exists k : Z,
    1 <= k
    /\ fst file = batch_metadata_file_path_of root bf k
    /\ 1 <= Z.of_nat (length (snd file)) <= N
    /\ Forall (fun r => batchnumber r = k) (snd file).

(** The path and the identifier of a row. *)
Definition row_key (r : row) : string * string := (pathname r, guid r).

(** The path and the identifier that the generator gives an object it
    takes, for the objects of a listing in listing order. *)
Definition taken (src ft : string) (blobs : list blob) : list (string * string) :=
  map (fun b =>
         let filenm := Py.os_path_basename (filename_of b) in
         (fstr [src; "/"; filenm], Py.replace filenm ft EmptyString))
      (List.filter (fun b => matches (filename_of b) ft) blobs).

(** The state of the loop between two objects: the rows in the data
    frame carry the current batch number and, once a batch is open, are
    at least one and no more than the objects taken since the last
    multiple of the batch length. *)
Definition gen_inv (N : Z) (st : gen_state) : Prop :=
  0 <= file_counter st
  /\ 0 <= batch_number st
  /\ Forall (fun r => batchnumber r = batch_number st) (df_filelist st)
  /\ (0 < batch_number st ->
      0 < file_counter st
      /\ 1 <= Z.of_nat (length (df_filelist st)) <= (file_counter st - 1) mod N + 1).

(** [w'] holds an object under every key of [w], and the objects
    outside [bucket] are the same. *)
Definition store_grows (bucket : string) (w w' : World) : Prop :=
  (forall k, In k (map blob_key (gcs w)) -> In k (map blob_key (gcs w')))
  /\ (forall b, blob_bucket b <> bucket -> In b (gcs w') <-> In b (gcs w)).

(** The base name of a path read from left to right: what follows the
    last slash. [cur] is the part after the last slash so far, reversed. *)
Fixpoint base_go (cur s : string) : string :=
  match s with
  | EmptyString => String.rev cur
  | String c s' =>
      if Py.ascii_eqb c Py.slash then base_go EmptyString s'
      else base_go (String c cur) s'
  end.

(** What the download of an object that is not in the store leaves
    behind, [r] being the outcome of the call on [w]. When [dest] cannot
    be opened for writing, the call raises the error of the opening and
    the world is as it was. Otherwise it raises [NotFound]; the store,
    the journal and every other path of the staging area are as they
    were, and at [dest] there is no file, or an empty one, whatever was
    there before. *)
Definition download_fails (bucket name dest : string) (w : World)
           (r : World * (exn + unit)) : Prop :=
  match OS.write_file dest (Text []) w with
  | (_, inl e) => r = (w, inl e)
  | (_, inr _) =>
      snd r = inl (NotFound bucket name)
      /\ gcs (fst r) = gcs w
      /\ journal (fst r) = journal w
      /\ (forall q, q <> dest -> local (fst r) !! q = local w !! q)
      /\ (local (fst r) !! dest = None
          \/ local (fst r) !! dest = Some (File (Text [])))
  end.

(** A world whose only object is a manifest without a record. *)
Module Empty.

Definition manifest : blob :=
  Blob "dst" (Example.manifest_path "000003") 7 (Table []).

Definition w : World := mkWorld Example.staging [manifest] (fun _ => 0) 0 [].

(** The staging area once the manifest is downloaded. *)
Definition w1 : World :=
  fst (OS.write_file
         (fstr ["data/tv"; "/"; "batch"; "/";
                Py.os_path_basename (Example.manifest_path "000003")])
         (Table []) w).

End Empty.

(** * Properties *)

(** ** Reading the name off a listed object *)

Lemma split_go_not_nil sep skip cur s : Py.split_go sep skip cur s <> [].
Proof.
  revert skip cur. induction s as [|c s IH]; intros skip cur; simpl.
  - discriminate.
  - destruct skip; [|apply IH].
    destruct (Py.startswith sep (String c s)); [discriminate | apply IH].
Qed.

Lemma split_comma_pieces a b cur :
  (2 <= length (Py.split_go "," 0 cur (a +:+ "," +:+ b)))%nat.
Proof.
  revert cur. induction a as [|c a IH]; intros cur.
  - simpl.
    pose proof (split_go_not_nil "," 0 EmptyString b) as H.
    destruct (Py.split_go "," 0 EmptyString b); [congruence | simpl; lia].
  - change (String c a +:+ "," +:+ b) with (String c (a +:+ "," +:+ b)).
    cbn [Py.split_go]. destruct (Py.startswith "," (String c (a +:+ "," +:+ b))).
    + destruct (Py.split_go _ _ _ _) eqn:E; [|simpl; lia].
      now apply split_go_not_nil in E.
    + apply IH.
Qed.

Lemma append_assoc_str (a b c : string) : (a +:+ b) +:+ c = a +:+ (b +:+ c).
Proof. induction a as [|x a IH]; cbn; [reflexivity | now rewrite IH]. Qed.

Lemma blob_str_pieces b :
  (2 <= length (Py.split (GCS.blob_str b) ","))%nat.
Proof.
  unfold Py.split, GCS.blob_str.
  replace (String.concat EmptyString _) with
      (("<Blob: " +:+ blob_bucket b) +:+ "," +:+
       (" " +:+ blob_name b +:+ ", " +:+ Py.str_of_int (blob_generation b) +:+ ">")).
  - apply split_comma_pieces.
  - cbn [String.concat]. rewrite append_assoc_str. reflexivity.
Qed.

Lemma blob_filename_ret b w : blob_filename b w = (w, inr (filename_of b)).
Proof.
  unfold blob_filename, filename_of, bind, index.
  pose proof (blob_str_pieces b) as H.
  destruct (Py.split (GCS.blob_str b) ",") as [|x [|y l]]; simpl in H; try lia.
  reflexivity.
Qed.

(** ** Batch-group assignment *)

Section Assignment.

Context {A : Type}.
Implicit Types (l : list A) (G o k : Z).

Lemma slot_range G i : 1 <= G -> 1 <= slot G i <= G.
Proof.
  intros HG. unfold slot. destruct (Z.ltb_spec G 1); [lia|].
  pose proof (Z.mod_pos_bound i G). lia.
Qed.

(** The update of [file_group_ordinal] at the end of an iteration takes
    the slot of one position to the slot of the next. *)
Lemma slot_next G k :
  (if slot G k + 1 >? G then 1 else slot G k + 1) = slot G (k + 1).
Proof.
  unfold slot. rewrite Z.gtb_ltb. destruct (Z.ltb_spec G 1) as [HG|HG].
  - destruct (Z.ltb_spec G (1 + 1)); lia.
  - pose proof (Z.mod_pos_bound k G ltac:(lia)) as Hb.
    pose proof (Z.div_mod k G ltac:(lia)) as Hd.
    destruct (Z.ltb_spec G (k mod G + 1 + 1)) as [H|H].
    + rewrite <- (Z.mod_unique (k + 1) G (k / G + 1) 0); lia.
    + rewrite <- (Z.mod_unique (k + 1) G (k / G) (k mod G + 1)); lia.
Qed.

Lemma by_slot_cons G o k x l :
  by_slot G o k (x :: l) =
  if slot G k =? o then x :: by_slot G o (k + 1) l else by_slot G o (k + 1) l.
Proof.
  unfold by_slot. simpl. destruct (slot G k =? o); reflexivity.
Qed.

Lemma assigned_from_by_slot G o k l :
  assigned_from G o (slot G k) l = by_slot G o k l.
Proof.
  revert k. induction l as [|x l IH]; intros k; [reflexivity|].
  rewrite by_slot_cons. cbn [assigned_from]. rewrite slot_next, IH.
  reflexivity.
Qed.

Lemma assigned_by_slot G o l : assigned G o l = by_slot G o 0 l.
Proof.
  unfold assigned. rewrite <- assigned_from_by_slot. f_equal.
  unfold slot. destruct (G <? 1); [reflexivity|]. now rewrite Zmod_0_l.
Qed.

Lemma by_slot_incl G o k l x : In x (by_slot G o k l) -> In x l.
Proof.
  revert k. induction l as [|y l IH]; intros k; [easy|].
  rewrite by_slot_cons. destruct (slot G k =? o); simpl; intuition eauto.
Qed.

Lemma by_slot_one_ordinal G o1 o2 k l x :
  List.NoDup l -> In x (by_slot G o1 k l) -> In x (by_slot G o2 k l) -> o1 = o2.
Proof.
  intros Hnd. revert k. induction Hnd as [|y l Hy Hnd IH]; intros k; [easy|].
  rewrite !by_slot_cons.
  destruct (Z.eqb_spec (slot G k) o1) as [E1|E1],
           (Z.eqb_spec (slot G k) o2) as [E2|E2]; simpl; intros H1 H2.
  - congruence.
  - destruct H1 as [->|H1]; [|eauto]. now apply by_slot_incl in H2.
  - destruct H2 as [->|H2]; [|eauto]. now apply by_slot_incl in H1.
  - eauto.
Qed.

Lemma in_ordinals G s : In s (ordinals G) <-> 1 <= s <= G.
Proof.
  unfold ordinals. rewrite in_map_iff. split.
  - intros (n & <- & Hn). apply in_seq in Hn. lia.
  - intros H. exists (Z.to_nat s). split; [lia|]. apply in_seq. lia.
Qed.

Lemma ordinals_NoDup G : List.NoDup (ordinals G).
Proof.
  unfold ordinals. apply Finite.Injective_map_NoDup; [|apply seq_NoDup].
  intros a b. lia.
Qed.

(** Adding [x] to the part of exactly one ordinal adds [x] to the whole. *)
Lemma concat_one_more (ords : list Z) (s : Z) (g : Z -> list A) (x : A) :
  List.NoDup ords -> In s ords ->
  Permutation
    (concat (map (fun o => if s =? o then x :: g o else g o) ords))
    (x :: concat (map g ords)).
Proof.
  intros Hnd. induction Hnd as [|o os Ho Hnd IH]; [easy|].
  intros [->|Hs]; cbn [map concat].
  - rewrite Z.eqb_refl.
    erewrite (map_ext_in _ g); [reflexivity|].
    intros o' Ho'. destruct (Z.eqb_spec s o'); [congruence | reflexivity].
  - destruct (Z.eqb_spec s o) as [->|_]; [contradiction|].
    rewrite (IH Hs). apply Permutation_sym, Permutation_middle.
Qed.

Lemma by_slot_partition G k l :
  1 <= G ->
  Permutation (concat (map (fun o => by_slot G o k l) (ordinals G))) l.
Proof.
  intros HG. revert k. induction l as [|x l IH]; intros k.
  - unfold by_slot. simpl. induction (ordinals G); simpl; auto.
  - erewrite map_ext; [|intros o; apply by_slot_cons].
    rewrite (concat_one_more (ordinals G) (slot G k)
               (fun o => by_slot G o (k + 1) l) x).
    + constructor. apply IH.
    + apply ordinals_NoDup.
    + apply in_ordinals, slot_range, HG.
Qed.

Lemma assigned_from_out_of_range G o fgo l :
  1 <= fgo <= G -> o < 1 \/ G < o -> assigned_from G o fgo l = [].
Proof.
  intros Hf Ho. revert fgo Hf. induction l as [|x l IH]; intros fgo Hf; [reflexivity|].
  cbn [assigned_from]. destruct (Z.eqb_spec fgo o); [lia|].
  apply IH. rewrite Z.gtb_ltb. destruct (Z.ltb_spec G (fgo + 1)); lia.
Qed.

End Assignment.

(** The loop of [process_batch_metadata_files] calls [call] on the
    selected manifests, in listing order, and stops at the first call
    that raises. *)
Lemma batch_loop_assigned call G o fgo blobs w :
  batch_loop call G o fgo blobs w =
  for_each call (map filename_of (assigned_from G o fgo blobs)) w.
Proof.
  revert fgo w. induction blobs as [|b blobs IH]; intros fgo w; [reflexivity|].
  cbn [batch_loop assigned_from]. unfold bind at 1. rewrite blob_filename_ret.
  destruct (fgo =? o); cbn [map for_each]; unfold bind.
  - destruct (call (filename_of b) w) as [w' [e|[]]]; [reflexivity | apply IH].
  - simpl. apply IH.
Qed.

(** An invocation of [process_batch_metadata_files] lists the manifests
    and runs [process_batch] on those that the loop selects, in listing
    order, up to the first one that raises. *)
Lemma process_batch_metadata_files_assigned
      sh project_id target_gcs_bucket target_gcs_path target_root_path
      target_source_folder target_unpack_folder target_load_folder
      target_batch_folder batch_gcs_path G o w :
  process_batch_metadata_files sh project_id target_gcs_bucket target_gcs_path
    target_root_path target_source_folder target_unpack_folder target_load_folder
    target_batch_folder batch_gcs_path G o w =
  for_each
    (fun batch_filename =>
       process_batch sh project_id batch_filename target_gcs_bucket target_gcs_path
         target_root_path target_source_folder target_unpack_folder
         target_load_folder target_batch_folder)
    (map filename_of (assigned G o (listed target_gcs_bucket batch_gcs_path w)))
    (log (ListBlobs target_gcs_bucket batch_gcs_path) w).
Proof.
  unfold process_batch_metadata_files, bind. cbn [GCS.list_blobs].
  now rewrite batch_loop_assigned.
Qed.

Lemma NoDup_listed bucket prefix w :
  List.NoDup (map blob_key (gcs w)) -> List.NoDup (listed bucket prefix w).
Proof.
  intros H. unfold listed. apply List.NoDup_filter.
  exact (List.NoDup_map_inv _ _ H).
Qed.

(** C2: for a batch group size [G >= 1], on a store that holds no two
    objects under one key, the invocation of
    [process_batch_metadata_files] with batch ordinal [o] hands to
    [process_batch] the manifests that the loop assigns to [o], in
    listing order and up to the first one that raises, whatever is done
    with a manifest; the manifests assigned to the ordinals [1..G] make
    up the whole listing, each manifest once, and no manifest is assigned
    to two ordinals. *)
Theorem batch_group_assignment_partition
        sh project_id target_gcs_bucket target_gcs_path target_root_path
        target_source_folder target_unpack_folder target_load_folder
        target_batch_folder batch_gcs_path G w :
  1 <= G ->
  List.NoDup (map blob_key (gcs w)) ->
  let blobs := listed target_gcs_bucket batch_gcs_path w in
  (forall o,
     process_batch_metadata_files sh project_id target_gcs_bucket target_gcs_path
       target_root_path target_source_folder target_unpack_folder target_load_folder
       target_batch_folder batch_gcs_path G o w =
     for_each
       (fun batch_filename =>
          process_batch sh project_id batch_filename target_gcs_bucket target_gcs_path
            target_root_path target_source_folder target_unpack_folder
            target_load_folder target_batch_folder)
       (map filename_of (assigned G o blobs))
       (log (ListBlobs target_gcs_bucket batch_gcs_path) w))
  /\ (forall call o w0,
        batch_loop call G o 1 blobs w0 =
        for_each call (map filename_of (assigned G o blobs)) w0)
  /\ Permutation (concat (map (fun o => assigned G o blobs) (ordinals G))) blobs
  /\ (forall o1 o2 x,
        In x (assigned G o1 blobs) -> In x (assigned G o2 blobs) -> o1 = o2).
Proof.
  intros HG Hnd blobs. split; [|split; [|split]].
  - intros o. apply process_batch_metadata_files_assigned.
  - intros call o w0. apply batch_loop_assigned.
  - erewrite map_ext; [|intros o; apply assigned_by_slot].
    now apply by_slot_partition.
  - intros o1 o2 x. rewrite !assigned_by_slot.
    apply by_slot_one_ordinal. now apply NoDup_listed.
Qed.

(** The two manifests of the example shared out over a group of size 2. *)
Lemma batch_group_assignment_partition_witness :
  let blobs := listed "dst" "data/tv/batch" Example.w_batch in
  (forall o,
     process_batch_metadata_files Example.ok_sh "project" "dst" "data/tv" "data/tv"
       "files" "unpack" "load" "batch" "data/tv/batch" 2 o Example.w_batch =
     for_each
       (fun batch_filename =>
          process_batch Example.ok_sh "project" batch_filename "dst" "data/tv"
            "data/tv" "files" "unpack" "load" "batch")
       (map filename_of (assigned 2 o blobs))
       (log (ListBlobs "dst" "data/tv/batch") Example.w_batch))
  /\ (forall call o w0,
        batch_loop call 2 o 1 blobs w0 =
        for_each call (map filename_of (assigned 2 o blobs)) w0)
  /\ Permutation (concat (map (fun o => assigned 2 o blobs) (ordinals 2))) blobs
  /\ (forall o1 o2 x,
        In x (assigned 2 o1 blobs) -> In x (assigned 2 o2 blobs) -> o1 = o2).
Proof.
  apply (batch_group_assignment_partition Example.ok_sh "project" "dst" "data/tv"
           "data/tv" "files" "unpack" "load" "batch" "data/tv/batch" 2
           Example.w_batch); [lia|].
  cbn. repeat constructor; cbn; intuition discriminate.
Defined.

(** C3, as stated: with two manifests and a group of size 2, the loop
    hands the second manifest to the invocation with ordinal 2, but no
    index, counted from 0 or from 1, has [index mod 2 = 2]. *)
Lemma spec_selection_misses_last_slot :
  assigned 2 2 ["m1"; "m2"] = ["m2"]
  /\ spec_selected 0 2 2 ["m1"; "m2"] = []
  /\ spec_selected 1 2 2 ["m1"; "m2"] = []
  /\ assigned 2 2 ["m1"; "m2"] <> spec_selected 0 2 2 ["m1"; "m2"]
  /\ assigned 2 2 ["m1"; "m2"] <> spec_selected 1 2 2 ["m1"; "m2"].
Proof. repeat split; try reflexivity; discriminate. Qed.

(** C3, amended: an invocation of [process_batch_metadata_files] runs
    [process_batch] on exactly the listed manifests whose position [i],
    counted from 0, has slot [i mod G + 1] equal to the batch ordinal
    (slot 1 for every manifest when [G < 1]), in listing order, up to
    the first one that raises. *)
Theorem process_batch_metadata_files_by_slot
        sh project_id target_gcs_bucket target_gcs_path target_root_path
        target_source_folder target_unpack_folder target_load_folder
        target_batch_folder batch_gcs_path G o w :
  process_batch_metadata_files sh project_id target_gcs_bucket target_gcs_path
    target_root_path target_source_folder target_unpack_folder target_load_folder
    target_batch_folder batch_gcs_path G o w =
  (blobs <- GCS.list_blobs target_gcs_bucket batch_gcs_path ;;
   for_each
     (fun batch_filename =>
        process_batch sh project_id batch_filename target_gcs_bucket target_gcs_path
          target_root_path target_source_folder target_unpack_folder
          target_load_folder target_batch_folder)
     (map filename_of (by_slot G o 0 blobs))) w.
Proof.
  unfold process_batch_metadata_files, bind. cbn [GCS.list_blobs].
  rewrite batch_loop_assigned.
  pose proof (@assigned_by_slot blob G o) as H. unfold assigned in H.
  now rewrite H.
Qed.

(** C10: with [G >= 1] every slot lies in [1..G], and an invocation of
    [process_batch_metadata_files] whose batch ordinal lies outside
    [1..G] lists the manifests and returns: nothing is downloaded,
    transformed, uploaded or deleted, and the world is the one it started
    in but for the listing in the journal. *)
Theorem ordinal_out_of_range_processes_nothing
        sh project_id target_gcs_bucket target_gcs_path target_root_path
        target_source_folder target_unpack_folder target_load_folder
        target_batch_folder batch_gcs_path G o w :
  1 <= G -> o < 1 \/ G < o ->
  (forall i, 1 <= slot G i <= G)
  /\ process_batch_metadata_files sh project_id target_gcs_bucket target_gcs_path
       target_root_path target_source_folder target_unpack_folder target_load_folder
       target_batch_folder batch_gcs_path G o w
     = (log (ListBlobs target_gcs_bucket batch_gcs_path) w, inr tt).
Proof.
  intros HG Ho. split; [intros i; now apply slot_range|].
  unfold process_batch_metadata_files, bind. cbn [GCS.list_blobs].
  rewrite batch_loop_assigned, assigned_from_out_of_range by lia.
  reflexivity.
Qed.

(** Ordinal 3 in a group of size 2, on the world with two manifests. *)
Lemma ordinal_out_of_range_processes_nothing_witness :
  (forall i, 1 <= slot 2 i <= 2)
  /\ process_batch_metadata_files Example.ok_sh "project" "dst" "data/tv" "data/tv"
       "files" "unpack" "load" "batch" "data/tv/batch" 2 3 Example.w_batch
     = (log (ListBlobs "dst" "data/tv/batch") Example.w_batch, inr tt).
Proof.
  apply ordinal_out_of_range_processes_nothing; [lia | right; lia].
Defined.

(** C1, on the example of the specification: five archives and batch
    length 2. Two manifests are written and uploaded, with the records
    of [a], [b] and of [c], [d]; the record of [e] is in the data frame
    when the loop ends and is never written. *)
Theorem generate_five_by_two_loses_last_batch :
  snd Run.generate5 = inr tt
  /\ saved_files (journal (fst Run.generate5)) =
     [(Example.manifest_path "000001", [Example.record "a" 1; Example.record "b" 1]);
      (Example.manifest_path "000002", [Example.record "c" 2; Example.record "d" 2])]
  /\ map (fun b => (blob_name b, blob_data b))
         (List.filter (fun b => String.eqb (blob_bucket b) "dst") (gcs (fst Run.generate5))) =
     [(Example.manifest_path "000001",
       Table [Example.record "a" 1; Example.record "b" 1]);
      (Example.manifest_path "000002",
       Table [Example.record "c" 2; Example.record "d" 2])]
  /\ Z.of_nat (length (saved_files (journal (fst Run.generate5)))) = ceil_div 5 2 - 1.
Proof. vm_compute. repeat split; reflexivity. Qed.

(** C6, as stated: in the run over five archives the first manifest
    written is numbered 1, so the numbers written are not [0, 1, ...]. *)
Lemma first_manifest_is_not_numbered_zero :
  saved_paths (journal (fst Run.generate5)) =
  [Example.manifest_path "000001"; Example.manifest_path "000002"]
  /\ ~ exists k, saved_paths (journal (fst Run.generate5)) =
                 numbered_from "data/tv" "batch" 0 k.
Proof.
  split; [vm_compute; reflexivity|].
  intros [k Hk].
  assert (Hlen : length (numbered_from "data/tv" "batch" 0 k) = 2%nat)
    by (rewrite <- Hk; vm_compute; reflexivity).
  unfold numbered_from in Hlen. rewrite length_map, length_seq in Hlen. subst k.
  vm_compute in Hk. discriminate.
Qed.

(** C4, on a manifest of two records. When the shell command succeeds,
    the manifest file is unlinked at the end of the first iteration,
    before the second record is processed, and the unlink at the end of
    the second iteration raises. With the shell and [sed] as modelled,
    the first record's [add_id_column] raises and nothing is deleted. *)
Theorem process_batch_two_records :
  (snd (Run.batch1 Example.ok_sh)
   = inl (FileNotFoundError (Example.manifest_path "000001"))
   /\ journal (fst (Run.batch1 Example.ok_sh)) =
      [Download "dst" (Example.manifest_path "000001") (Example.manifest_path "000001");
       Download "src" "files/a.tar.gz" "data/tv/files/a.tar.gz";
       Extract "data/tv/files/a.tar.gz" "data/tv/unpack";
       CopyFile "data/tv/unpack/a/out.log" "data/tv/load/outa.log";
       Shell (add_id_column_cmd "data/tv/load/outa.log" "a");
       Upload "data/tv/load/outa.log" "dst" "data/tv/load/outa.log";
       Unlink "data/tv/files/a.tar.gz";
       Unlink "data/tv/load/outa.log";
       Rmtree "data/tv/unpack/a";
       Unlink (Example.manifest_path "000001");
       Download "src" "files/b.tar.gz" "data/tv/files/b.tar.gz";
       Extract "data/tv/files/b.tar.gz" "data/tv/unpack";
       CopyFile "data/tv/unpack/b/out.log" "data/tv/load/outb.log";
       Shell (add_id_column_cmd "data/tv/load/outb.log" "b");
       Upload "data/tv/load/outb.log" "dst" "data/tv/load/outb.log";
       Unlink "data/tv/files/b.tar.gz";
       Unlink "data/tv/load/outb.log";
       Rmtree "data/tv/unpack/b"])
  /\ (snd (Run.batch1 sed_sh)
      = inl (CalledProcessError 1 (add_id_column_cmd "data/tv/load/outa.log" "a"))
      /\ journal (fst (Run.batch1 sed_sh)) =
         [Download "dst" (Example.manifest_path "000001") (Example.manifest_path "000001");
          Download "src" "files/a.tar.gz" "data/tv/files/a.tar.gz";
          Extract "data/tv/files/a.tar.gz" "data/tv/unpack";
          CopyFile "data/tv/unpack/a/out.log" "data/tv/load/outa.log";
          Shell (add_id_column_cmd "data/tv/load/outa.log" "a")]
      /\ is_Some (local (fst (Run.batch1 sed_sh)) !! "data/tv/files/a.tar.gz")
      /\ is_Some (local (fst (Run.batch1 sed_sh)) !! "data/tv/load/outa.log")
      /\ is_Some (local (fst (Run.batch1 sed_sh)) !! "data/tv/unpack/a")
      /\ is_Some (local (fst (Run.batch1 sed_sh)) !! Example.manifest_path "000001")).
Proof. vm_compute. repeat split; try reflexivity; eexists; reflexivity. Qed.

(** C5, on a log whose first line begins with the marker. The command
    that [add_id_column] builds has no blank between the script and the
    file name: the shell hands [sed] one word, [sed] rejects it, the call
    raises and the copied line is as it was. The command of the
    commented-out lines, which has the blank, rewrites the line the way
    the claim says. *)
Theorem add_id_column_command_fails :
  add_id_column_cmd "data/tv/load/outa.log" "a" =
    fstr ["sed -i -e "; Py.sq; Sed_script.script "a"; Py.sq; "data/tv/load/outa.log"]
  /\ Sh.words (add_id_column_cmd "data/tv/load/outa.log" "a") =
     Some ["sed"; "-i"; "-e"; Sed_script.script "a" +:+ "data/tv/load/outa.log"]
  /\ snd Run.add_id
     = inl (CalledProcessError 1 (add_id_column_cmd "data/tv/load/outa.log" "a"))
  /\ local (fst Run.add_id) !! "data/tv/load/outa.log"
     = Some (File (Text [marker_line; "# end"]))
  /\ (let r := check_call sed_sh
                 (add_id_column_cmd_before "data/tv/load/outa.log" "a") (fst Run.add_id) in
      snd r = inr tt
      /\ local (fst r) !! "data/tv/load/outa.log"
         = Some (File (Text [Run.marker_line_with_id "a"; "# end"]))).
Proof. vm_compute. repeat split; reflexivity. Qed.

(** C7, on a destination bucket that holds a copied archive next to the
    load output and the manifests: the two calls of [remove_gcs_path]
    drop the last component of the path they are given and delete
    everything under [data/tv/], the archive included, though it lies
    under neither of the two prefixes. *)
Theorem preclean_deletes_parent_prefix :
  snd Run.preclean = inr tt
  /\ map blob_name (gcs Example.w_dst) =
     ["data/tv/files/a.tar.gz"; "data/tv/load/outa.log";
      Example.manifest_path "000001"; "other/keep.txt"]
  /\ map blob_name (gcs (fst Run.preclean)) = ["other/keep.txt"]
  /\ journal (fst Run.preclean) =
     [Makedirs "data/tv"; Makedirs "data/tv/files"; Makedirs "data/tv/unpack";
      Makedirs "data/tv/load"; Makedirs "data/tv/batch";
      ListBlobs "dst" "data/tv/";
      DeleteBlob "dst" "data/tv/files/a.tar.gz";
      DeleteBlob "dst" "data/tv/load/outa.log";
      DeleteBlob "dst" (Example.manifest_path "000001");
      ListBlobs "dst" "data/tv/";
      ListBlobs "dst" EmptyString;
      ListBlobs "dst" "data/tv/files"]
  /\ Py.startswith "data/tv/load/" "data/tv/files/a.tar.gz" = false
  /\ Py.startswith "data/tv/batch/" "data/tv/files/a.tar.gz" = false.
Proof. vm_compute. repeat split; reflexivity. Qed.

(** ** Manifest numbering *)

Lemma saved_paths_app j1 j2 : saved_paths (j1 ++ j2) = saved_paths j1 ++ saved_paths j2.
Proof.
  unfold saved_paths. induction j1 as [|e j1 IH]; [reflexivity|].
  destruct e; simpl; rewrite ?IH; reflexivity.
Qed.

Lemma index_world {A} (l : list A) i w : fst (index l i w) = w.
Proof. unfold index. destruct (nth_error l i); reflexivity. Qed.

Lemma bucket_of_world location w : fst (bucket_of location w) = w.
Proof.
  unfold bucket_of, bind.
  pose proof (index_world (Py.split location "gs://") 1 w) as H.
  destruct (index (Py.split location "gs://") 1 w) as [w1 [e|rest]];
    simpl in H; subst w1; [reflexivity|].
  apply index_world.
Qed.

Lemma count_loop_world file_type cnt blobs w :
  fst (count_loop file_type cnt blobs w) = w.
Proof.
  revert cnt. induction blobs as [|b blobs IH]; intros cnt; [reflexivity|].
  cbn [count_loop]. unfold bind. rewrite blob_filename_ret.
  destruct (matches _ _); apply IH.
Qed.

Lemma saved_paths_listing bucket prefix w :
  saved_paths (journal (log (ListBlobs bucket prefix) w)) = saved_paths (journal w).
Proof. cbn [log journal]. rewrite saved_paths_app. cbn. now rewrite app_nil_r. Qed.

Lemma count_files_saved project_id source file_type w :
  saved_paths (journal (fst (count_files_in_gcs_bucket project_id source file_type w)))
  = saved_paths (journal w).
Proof.
  unfold count_files_in_gcs_bucket, bind.
  pose proof (bucket_of_world source w) as H.
  destruct (bucket_of source w) as [w1 [e|bucket_name]]; simpl in H; subst w1;
    [reflexivity|].
  cbn [GCS.list_blobs]. rewrite count_loop_world. apply saved_paths_listing.
Qed.

Lemma enter_cases p w :
  (exists e, OS.enter p w = (w, inl e)) \/ OS.enter p w = (w, inr tt).
Proof.
  unfold OS.enter. destruct (OS.refused p); [eauto|].
  destruct (OS.dirname p) as [d|]; [|now right].
  destruct (local w !! d) as [[|]|]; eauto.
Qed.

Lemma write_file_cases p c w :
  (exists e, OS.write_file p c w = (w, inl e))
  \/ OS.write_file p c w = (set_local (fun m => <[p := File c]> m) w, inr tt).
Proof.
  unfold OS.write_file, bind.
  destruct (enter_cases p w) as [[e He]|He]; rewrite He; [eauto|].
  destruct (local w !! p) as [[|]|]; eauto.
Qed.

(** A file that can be read is an entry of the staging area. *)
Lemma read_file_cases p w :
  (exists e, OS.read_file p w = (w, inl e))
  \/ (exists c, OS.read_file p w = (w, inr c) /\ local w !! p = Some (File c)).
Proof.
  unfold OS.read_file, bind.
  destruct (enter_cases p w) as [[e He]|He]; rewrite He; [eauto|].
  destruct (local w !! p) as [[|]|]; eauto.
Qed.

(** Whether a file can be opened for writing does not depend on what
    is to be written. *)
Lemma write_file_any_content p c c' w w1 :
  OS.write_file p c w = (w1, inr tt) ->
  w1 = set_local (fun m => <[p := File c]> m) w
  /\ OS.write_file p c' w = (set_local (fun m => <[p := File c']> m) w, inr tt).
Proof.
  unfold OS.write_file, bind.
  destruct (enter_cases p w) as [[e He]|He]; rewrite He; [discriminate|].
  destruct (local w !! p) as [[|]|]; intros H; inversion H; now split.
Qed.

(** A file that was written can be read back, whatever else of the
    world has changed but the staging area. *)
Lemma read_back p c w w1 w2 :
  OS.write_file p c w = (w1, inr tt) -> local w2 = local w1 ->
  OS.read_file p w2 = (w2, inr c).
Proof.
  intros Hw Hl.
  destruct (write_file_any_content p c c w w1 Hw) as [Hw1 _].
  assert (Hl2 : local w2 = <[p := File c]> (local w))
    by (rewrite Hl, Hw1; reflexivity).
  unfold OS.write_file, bind, OS.enter in Hw. unfold OS.read_file, bind, OS.enter.
  destruct (OS.refused p); [discriminate|].
  destruct (OS.dirname p) as [d|].
  - destruct (local w !! d) as [[|]|] eqn:Hd; try discriminate.
    assert (Hne : d <> p) by (intros ->; cbv beta in Hw; rewrite Hd in Hw; discriminate).
    cbv beta. rewrite !Hl2. rewrite lookup_insert_ne by congruence.
    rewrite Hd. now rewrite Hl2, lookup_insert_eq.
  - cbv beta. now rewrite Hl2, lookup_insert_eq.
Qed.

(** Writing and uploading one manifest adds its path to the paths
    written, unless the write itself raises. *)
Lemma flush_saved_paths df p bucket gcs_path w :
  let r := (save_to_new_file df p ;; upload_file_to_gcs p bucket gcs_path) w in
  saved_paths (journal (fst r)) = saved_paths (journal w) ++ [p]
  \/ (exists e, snd r = inl e
                /\ saved_paths (journal (fst r)) = saved_paths (journal w)).
Proof.
  cbv zeta.
  unfold save_to_new_file, OS.to_csv, upload_file_to_gcs, GCS.upload_from_filename.
  unfold bind, modify, get_world. cbv beta.
  destruct (write_file_cases p (Table df) w) as [[e He]|He]; rewrite He.
  - right. exists e. now split.
  - left.
    match goal with
    | |- context [OS.read_file p ?w0] =>
        destruct (read_file_cases p w0) as [[e He']|(c & He' & _)]; rewrite He'
    end; cbn [fst snd];
      unfold log, set_gcs, set_local; cbn [journal];
      rewrite !saved_paths_app; cbn; now rewrite ?app_nil_r.
Qed.

Lemma numbered_from_S root bf n k :
  numbered_from root bf n (S k) =
  batch_metadata_file_path_of root bf (Z.of_nat n) :: numbered_from root bf (S n) k.
Proof. reflexivity. Qed.

(** The loop of the generator, entered with batch number [n], writes
    the manifests numbered [max n 1], [max n 1 + 1], ... and no other. *)
Lemma generate_loop_saved src N bucket root bf ft total blobs :
  forall st w (n : nat),
    batch_number st = Z.of_nat n ->
    exists k,
      saved_paths (journal (fst (generate_loop src N bucket root bf ft total st blobs w)))
      = saved_paths (journal w) ++ numbered_from root bf (Nat.max n 1) k.
Proof.
  induction blobs as [|b blobs IH]; intros st w n Hn.
  - exists O. cbn. now rewrite app_nil_r.
  - cbn [generate_loop]. unfold bind at 1. rewrite blob_filename_ret.
    destruct (matches (filename_of b) ft).
    2: { unfold bind at 1. cbn [ret]. now apply IH. }
    set (flush := (save_to_new_file _ _ ;; upload_file_to_gcs _ _ _)%py).
    unfold py_mod, bind, ret. cbv beta.
    destruct (N =? 0).
    { exists O. cbn. now rewrite app_nil_r. }
    destruct ((file_counter st mod N =? 0) || (file_counter st =? total)).
    2: { now apply IH. }
    destruct (Z.gtb_spec (batch_number st) 0) as [Hpos|Hzero].
    + pose proof (flush_saved_paths (df_filelist st)
                    (batch_metadata_file_path_of root bf (batch_number st)) bucket
                    (fstr [root; "/"; bf; "/";
                           Py.os_path_basename
                             (batch_metadata_file_path_of root bf (batch_number st))]) w)
        as Hflush.
      cbv zeta in Hflush. fold flush in Hflush.
      replace (Nat.max n 1) with n by lia.
      destruct (flush w) as [w1 [e|[]]]; cbn [fst snd] in *.
      * destruct Hflush as [H|(e' & _ & H)]; rewrite H.
        -- exists 1%nat. rewrite Hn. reflexivity.
        -- exists O. cbn. now rewrite app_nil_r.
      * destruct Hflush as [H|(e' & He' & _)]; [|discriminate].
        destruct (IH (GenState
                        ([] ++ [Row (fstr [src; "/"; Py.os_path_basename (filename_of b)])
                                  (Py.replace (Py.os_path_basename (filename_of b)) ft EmptyString)
                                  (batch_number st + 1)])
                        (file_counter st + 1) (batch_number st + 1)) w1 (S n))
          as [k Hk]; [cbn; lia|].
        exists (S k). cbn [df_filelist file_counter batch_number] in *.
        rewrite Hk, H, numbered_from_S, Hn, <- app_assoc.
        replace (Nat.max (S n) 1) with (S n) by lia. reflexivity.
    + assert (n = O) by lia. subst n.
      destruct (IH (GenState
                      ([] ++ [Row (fstr [src; "/"; Py.os_path_basename (filename_of b)])
                                (Py.replace (Py.os_path_basename (filename_of b)) ft EmptyString)
                                (batch_number st + 1)])
                      (file_counter st + 1) (batch_number st + 1)) w 1%nat)
        as [k Hk]; [cbn; lia|].
      exists k. exact Hk.
Qed.

(** C6, amended: in every run of [generate_batch_metadata_files] the
    manifest files written are those numbered 1, 2, ..., [k] for some
    [k], in this order: the numbers in the zero-padded file names rise
    by one and the first manifest written is numbered 1. *)
Theorem manifest_numbers_start_at_one
        project_id source_gcs_folder_path N target_gcs_bucket
        target_root_path target_batch_folder file_type w :
  exists k,
    saved_paths
      (journal (fst (generate_batch_metadata_files project_id source_gcs_folder_path N
                       target_gcs_bucket target_root_path target_batch_folder
                       file_type w)))
    = saved_paths (journal w)
      ++ numbered_from target_root_path target_batch_folder 1 k.
Proof.
  unfold generate_batch_metadata_files. unfold bind at 1.
  pose proof (bucket_of_world source_gcs_folder_path w) as Hb.
  destruct (bucket_of source_gcs_folder_path w) as [w1 [e|bucket_name]];
    cbn [fst] in Hb; subst w1.
  { exists O. cbn. now rewrite app_nil_r. }
  unfold bind at 1.
  pose proof (count_files_saved project_id source_gcs_folder_path ".tar.gz" w) as Hc.
  destruct (count_files_in_gcs_bucket _ _ _ w) as [w1 [e|total]];
    cbn [fst] in Hc; rewrite <- Hc.
  { exists O. cbn. now rewrite app_nil_r. }
  unfold bind at 1. cbn [GCS.list_blobs].
  rewrite <- (saved_paths_listing bucket_name
                (Py.replace (Py.replace source_gcs_folder_path "gs://" EmptyString)
                   (fstr [bucket_name; "/"]) EmptyString) w1).
  apply (generate_loop_saved _ _ _ _ _ _ _ _ (GenState [] 0 0) _ O). reflexivity.
Qed.

(** ** The staging area and the dispatch of [main] *)

Lemma add_dirs_subseteq ds (m : gmap string node) : m ⊆ OS.add_dirs ds m.
Proof.
  unfold OS.add_dirs. revert m. induction ds as [|d ds IH]; intros m; [reflexivity|].
  cbn [fold_left]. etransitivity; [|apply IH].
  unfold OS.add_dir. destruct (m !! d) eqn:Hd; [reflexivity|].
  now apply insert_subseteq.
Qed.

Lemma insert_absent_subseteq (m m' : gmap string node) p n :
  m !! p = None -> m ⊆ m' -> m ⊆ <[p := n]> m'.
Proof.
  intros Hp Hsub. apply map_subseteq_spec. intros i x Hi.
  destruct (decide (p = i)) as [->|Hne]; [congruence|].
  rewrite lookup_insert_ne by assumption.
  now apply (lookup_weaken m m').
Qed.

(** Making directories puts no regular file anywhere. *)
Lemma add_dirs_files ds (m : gmap string node) q c :
  OS.add_dirs ds m !! q = Some (File c) -> m !! q = Some (File c).
Proof.
  unfold OS.add_dirs. revert m. induction ds as [|d ds IH]; intros m H; [exact H|].
  cbn [fold_left] in H. apply IH in H. unfold OS.add_dir in H.
  destruct (m !! d) eqn:Hd; [exact H|].
  destruct (decide (d = q)) as [->|Hne].
  - rewrite lookup_insert_eq in H. discriminate.
  - now rewrite lookup_insert_ne in H.
Qed.

Lemma plain_refused p :
  OS.plain p = true -> String.eqb p EmptyString = false /\ OS.refused p = None.
Proof.
  intros Hp. assert (E : String.eqb p EmptyString = false).
  { unfold OS.plain in Hp. destruct (Py.split p "/"); [discriminate|].
    destruct (String.eqb p EmptyString); [discriminate | reflexivity]. }
  split; [exact E|]. unfold OS.refused. now rewrite E, Hp.
Qed.

Lemma below_file_clear m above p :
  forallb (OS.not_file m) above = true -> OS.below_file m above p = None.
Proof.
  induction above as [|q above IH]; cbn [forallb OS.below_file]; [reflexivity|].
  intros H. apply andb_true_iff in H. destruct H as [Hq Hrest].
  unfold OS.not_file in Hq. destruct (m !! q) as [[c|]|]; try discriminate; auto.
Qed.

Lemma no_file_on_spec m p :
  OS.no_file_on m p = true ->
  OS.below_file m (OS.ancestors p) p = None /\ OS.not_file m p = true.
Proof.
  unfold OS.no_file_on. rewrite forallb_app. intros H.
  apply andb_true_iff in H. destruct H as [Habove Hp]. split.
  - now apply below_file_clear.
  - cbn [forallb] in Hp. now rewrite andb_true_r in Hp.
Qed.

Lemma no_file_on_mono (m m' : gmap string node) q :
  (forall x c, m' !! x = Some (File c) -> m !! x = Some (File c)) ->
  OS.no_file_on m q = true -> OS.no_file_on m' q = true.
Proof.
  intros Hf. unfold OS.no_file_on. rewrite !forallb_forall. intros H x Hx.
  specialize (H x Hx). unfold OS.not_file in *.
  destruct (m' !! x) as [[c|]|] eqn:E; auto.
  apply Hf in E. now rewrite E in H.
Qed.

(** On a plain path with no regular file at it or above it, the guarded
    [os.makedirs] returns and leaves a directory. *)
Lemma make_if_missing_ok p w :
  OS.plain p = true -> OS.no_file_on (local w) p = true ->
  exists w', make_if_missing p w = (w', inr tt) /\ only_mkdir p w w'.
Proof.
  intros Hplain Hclear.
  destruct (plain_refused p Hplain) as [Hne Hrefused].
  destruct (no_file_on_spec _ _ Hclear) as [Hbelow Hnot].
  unfold make_if_missing, bind, OS.path_exists, only_mkdir. rewrite Hne, Hplain.
  destruct (bool_decide (is_Some (local w !! p))) eqn:Hex; cbn [negb].
  - apply bool_decide_eq_true in Hex. exists w. split; [reflexivity|].
    repeat split; auto.
    + exists []. cbn. split; [now rewrite app_nil_r | intros x []].
    + unfold OS.not_file in Hnot. destruct Hex as [n Hn]. rewrite Hn in *.
      destruct n; [discriminate | reflexivity].
  - apply bool_decide_eq_false in Hex.
    unfold OS.makedirs. rewrite Hrefused, Hbelow.
    destruct (local w !! p) eqn:Hp; [exfalso; eauto|].
    eexists. split; [reflexivity|]. cbn [log set_local gcs wall ticks journal local].
    repeat split.
    + exists [p]. split; [reflexivity | intros x Hx; exact Hx].
    + apply lookup_insert_eq.
    + apply insert_absent_subseteq; [exact Hp | apply add_dirs_subseteq].
    + intros q. apply no_file_on_mono. intros x c Hx.
      destruct (decide (p = x)) as [->|Hpx].
      * rewrite lookup_insert_eq in Hx. discriminate.
      * rewrite lookup_insert_ne in Hx by assumption. now apply add_dirs_files in Hx.
Qed.

(** A folder that is there is left alone. *)
Lemma make_if_missing_present p w :
  OS.plain p = true -> is_Some (local w !! p) -> make_if_missing p w = (w, inr tt).
Proof.
  intros Hplain Hex. destruct (plain_refused p Hplain) as [Hne _].
  unfold make_if_missing, bind, OS.path_exists. rewrite Hne, Hplain.
  now rewrite (bool_decide_eq_true_2 _ Hex).
Qed.

Lemma forallb_five {A} (f : A -> bool) a b c d e :
  forallb f [a; b; c; d; e] = true ->
  f a = true /\ f b = true /\ f c = true /\ f d = true /\ f e = true.
Proof.
  cbn [forallb]. rewrite !andb_true_iff. tauto.
Qed.

(** With plain staging paths and no regular file at or above any of
    them, [generate_folder_hierarchy] returns: the five folders are
    directories, what was in the staging area is still there, and the
    journal has grown by calls of [os.makedirs] on staging folders only. *)
Lemma generate_folder_hierarchy_ok root sf uf lf bf w :
  forallb OS.plain (hierarchy root sf uf lf bf) = true ->
  forallb (OS.no_file_on (local w)) (hierarchy root sf uf lf bf) = true ->
  exists w',
    generate_folder_hierarchy root sf uf lf bf w = (w', inr tt)
    /\ gcs w' = gcs w /\ wall w' = wall w /\ ticks w' = ticks w
    /\ (exists dirs, journal w' = journal w ++ map Makedirs dirs
                     /\ incl dirs (hierarchy root sf uf lf bf))
    /\ Forall (fun p => local w' !! p = Some Dir) (hierarchy root sf uf lf bf)
    /\ local w ⊆ local w'.
Proof.
  intros Hplain Hclear. unfold hierarchy in *.
  apply forallb_five in Hplain. destruct Hplain as (L1 & L2 & L3 & L4 & L5).
  apply forallb_five in Hclear. destruct Hclear as (C1 & C2 & C3 & C4 & C5).
  unfold generate_folder_hierarchy, bind.
  destruct (make_if_missing_ok _ w L1 C1)
    as (w1 & -> & G1 & W1 & T1 & (d1 & J1 & I1) & P1 & S1 & K1).
  destruct (make_if_missing_ok _ w1 L2 (K1 _ C2))
    as (w2 & -> & G2 & W2 & T2 & (d2 & J2 & I2) & P2 & S2 & K2).
  destruct (make_if_missing_ok _ w2 L3 (K2 _ (K1 _ C3)))
    as (w3 & -> & G3 & W3 & T3 & (d3 & J3 & I3) & P3 & S3 & K3).
  destruct (make_if_missing_ok _ w3 L4 (K3 _ (K2 _ (K1 _ C4))))
    as (w4 & -> & G4 & W4 & T4 & (d4 & J4 & I4) & P4 & S4 & K4).
  destruct (make_if_missing_ok _ w4 L5 (K4 _ (K3 _ (K2 _ (K1 _ C5)))))
    as (w5 & -> & G5 & W5 & T5 & (d5 & J5 & I5) & P5 & S5 & K5).
  exists w5. split; [reflexivity|].
  split; [congruence|]. split; [congruence|]. split; [congruence|].
  split; [|split].
  - exists (d1 ++ d2 ++ d3 ++ d4 ++ d5). split.
    + rewrite J5, J4, J3, J2, J1, !map_app, <- !app_assoc. reflexivity.
    + intros x Hx. rewrite !in_app_iff in Hx.
      destruct Hx as [Hx|[Hx|[Hx|[Hx|Hx]]]];
        [apply I1 in Hx | apply I2 in Hx | apply I3 in Hx | apply I4 in Hx
         | apply I5 in Hx];
        destruct Hx as [<-|[]]; cbn; tauto.
  - assert (S25 : local w2 ⊆ local w5) by (do 2 (etransitivity; [eassumption|]); exact S5).
    assert (S15 : local w1 ⊆ local w5) by (etransitivity; eassumption).
    repeat constructor.
    + exact (lookup_weaken _ _ _ _ P1 S15).
    + exact (lookup_weaken _ _ _ _ P2 S25).
    + refine (lookup_weaken _ _ _ _ P3 _). etransitivity; eassumption.
    + exact (lookup_weaken _ _ _ _ P4 S5).
    + exact P5.
  - do 4 (etransitivity; [eassumption|]). exact S5.
Qed.

(** C9, as stated: with no pipeline name, [main] does not return when
    the staging root is the empty path, as it is when the environment
    sets no parameter: [os.makedirs] raises [FileNotFoundError] at each
    of the seven attempts. Nor does it return when a regular file has
    the name of the staging root: the first folder below it cannot be
    made. *)
Lemma unknown_pipeline_can_raise :
  pipeline_name Example.default_args = EmptyString
  /\ snd (main sed_sh Example.default_args Example.w_dst)
     = inl (FileNotFoundError EmptyString)
  /\ pipeline_name Example.unknown_args = EmptyString
  /\ snd (main sed_sh Example.unknown_args Example.w_blocked)
     = inl (NotADirectoryError "data/tv/files").
Proof. vm_compute. repeat split; reflexivity. Qed.

(** C9, amended: when [pipeline_name] is none of the three modes, the
    empty string included, the staging paths are plain and no regular
    file stands at or above any of them, [main] returns after its first
    attempt: the five staging folders are directories, what was in the
    staging area is still there, the object store is as before, and the
    journal has grown by calls of [os.makedirs] on staging folders only,
    so nothing is listed, downloaded, uploaded or deleted and no command
    is run. *)
Theorem main_unknown_pipeline sh a w :
  pipeline_name a <> "transfer_source" ->
  pipeline_name a <> "generate_batch_metadata_files" ->
  pipeline_name a <> "run_batch_data" ->
  forallb OS.plain (staging_folders a) = true ->
  forallb (OS.no_file_on (local w)) (staging_folders a) = true ->
  exists w',
    main sh a w = (w', inr tt)
    /\ gcs w' = gcs w
    /\ ticks w' = S (ticks w)
    /\ (exists dirs, journal w' = journal w ++ map Makedirs dirs
                     /\ incl dirs (staging_folders a))
    /\ Forall (fun p => local w' !! p = Some Dir) (staging_folders a)
    /\ local w ⊆ local w'.
Proof.
  intros H1 H2 H3 Hplain Hclear.
  destruct (generate_folder_hierarchy_ok _ _ _ _ _
              (mkWorld (local w) (gcs w) (wall w) (S (ticks w)) (journal w))
              Hplain Hclear)
    as (w' & Hg & G & _ & T & J & F & S).
  exists w'. split; [|now repeat split].
  unfold main, retry, bind, time_ms, main_body.
  cbn [Nat.sub retry_call]. unfold bind. rewrite Hg.
  apply String.eqb_neq in H1, H2, H3. rewrite H1, H2, H3. reflexivity.
Qed.

(** The empty pipeline name, with the staging root [data/tv], on a world
    without a staging area. *)
Lemma main_unknown_pipeline_witness :
  exists w',
    main sed_sh Example.unknown_args Example.w_dst = (w', inr tt)
    /\ gcs w' = gcs Example.w_dst
    /\ ticks w' = S (ticks Example.w_dst)
    /\ (exists dirs, journal w' = journal Example.w_dst ++ map Makedirs dirs
                     /\ incl dirs (staging_folders Example.unknown_args))
    /\ Forall (fun p => local w' !! p = Some Dir)
         (staging_folders Example.unknown_args)
    /\ local Example.w_dst ⊆ local w'.
Proof.
  apply (main_unknown_pipeline sed_sh Example.unknown_args Example.w_dst);
    try (cbn; discriminate); reflexivity.
Defined.

(** ** The retry decorator *)

Section Retry.

Context {A : Type} (fn : M A).

(** The world after [j >= 1] failed attempts is the world after [j - 1]
    of them, counted from the world that the first one left. *)
Lemma after_failures_shift w w1 r j :
  fn w = (w1, r) -> (1 <= j)%nat ->
  after_failures fn j w =
  after_failures fn (j - 1)
    (mkWorld (local w1) (gcs w1) (wall w1) (S (ticks w1)) (journal w1)).
Proof.
  intros Hfn Hj. destruct j as [|j]; [lia|].
  cbn [after_failures]. rewrite Hfn. cbn [fst time_ms].
  now replace (S j - 1)%nat with j by lia.
Qed.

(** When every attempt that is made raises, [retry_call] with [n]
    attempts left after the current one makes [k <= n + 1] attempts and
    raises the error of the last one; it went on after an attempt only
    while the delay was under the limit, and it stopped at the last
    attempt allowed or because the delay had reached the limit. *)
Lemma retry_call_failing_run (stop_max_delay start_time : Z) (n : nat) :
  forall w,
    (forall j, (j <= n)%nat ->
               (forall i, (1 <= i <= j)%nat ->
                          delay_after fn start_time i w < stop_max_delay) ->
               exists e, snd (fn (after_failures fn j w)) = inl e) ->
    exists k e,
      (1 <= k <= S n)%nat
      /\ retry_call n stop_max_delay start_time fn w = (after_failures fn k w, inl e)
      /\ snd (fn (after_failures fn (k - 1) w)) = inl e
      /\ (forall j, (1 <= j < k)%nat ->
                    delay_after fn start_time j w < stop_max_delay)
      /\ (k = S n \/ stop_max_delay <= delay_after fn start_time k w).
Proof.
  induction n as [|n IH]; intros w Hraises;
    destruct (Hraises O ltac:(lia) ltac:(intros i Hi; lia)) as [e He];
    cbn [after_failures] in He.
  - exists 1%nat, e. cbn [retry_call after_failures Nat.sub].
    destruct (fn w) as [w1 r] eqn:Hfn. cbn [snd] in He. subst r.
    cbn [time_ms fst]. split; [lia|]. split; [reflexivity|].
    split; [reflexivity|]. split; [intros j Hj; lia | now left].
  - cbn [retry_call]. destruct (fn w) as [w1 r] eqn:Hfn. cbn [snd] in He. subst r.
    cbn [time_ms]. destruct (Z.geb_spec (wall w1 (ticks w1) - start_time) stop_max_delay)
      as [Hstop|Hgo].
    + exists 1%nat, e. cbn [after_failures Nat.sub]. rewrite Hfn. cbn [fst snd time_ms].
      split; [lia|]. split; [reflexivity|]. split; [reflexivity|].
      split; [intros j Hj; lia|]. right. unfold delay_after.
      cbn [Nat.sub after_failures]. rewrite Hfn. cbn [fst]. lia.
    + set (w2 := mkWorld (local w1) (gcs w1) (wall w1) (S (ticks w1)) (journal w1)).
      assert (Hshift : forall j, (1 <= j)%nat ->
                after_failures fn j w = after_failures fn (j - 1) w2)
        by (intros j Hj; now apply (after_failures_shift w w1 (inl e))).
      assert (Hfirst : delay_after fn start_time 1 w < stop_max_delay).
      { unfold delay_after. cbn [Nat.sub after_failures]. rewrite Hfn. cbn [fst]. lia. }
      assert (Hdelay : forall i, (2 <= i)%nat ->
                delay_after fn start_time i w = delay_after fn start_time (i - 1) w2).
      { intros i Hi. unfold delay_after. now rewrite (Hshift (i - 1)%nat) by lia. }
      destruct (IH w2) as (k & e' & Hk & Hrun & Hlast & Hunder & Hwhy).
      { intros j Hj Hd.
        replace (after_failures fn j w2) with (after_failures fn (S j) w)
          by (rewrite (Hshift (S j)) by lia; f_equal; lia).
        apply Hraises; [lia|]. intros i Hi.
        destruct (Nat.eq_dec i 1%nat) as [->|Hi1]; [exact Hfirst|].
        rewrite Hdelay by lia. apply Hd. lia. }
      exists (S k), e'. split; [lia|].
      split; [|split; [|split]].
      * rewrite Hrun. f_equal. rewrite (Hshift (S k)) by lia.
        now replace (S k - 1)%nat with k by lia.
      * replace (S k - 1)%nat with k by lia. rewrite (Hshift k) by lia. exact Hlast.
      * intros j Hj.
        destruct (Nat.eq_dec j 1%nat) as [->|Hj1]; [exact Hfirst|].
        rewrite Hdelay by lia. apply (Hunder (j - 1)%nat). lia.
      * destruct Hwhy as [->|Hwhy]; [now left|right].
        rewrite Hdelay by lia. now replace (S k - 1)%nat with k by lia.
Qed.

(** The same for a call that raises in every world. *)
Lemma retry_call_failing (stop_max_delay start_time : Z) (n : nat) :
  (forall w, exists e, snd (fn w) = inl e) ->
  forall w,
  exists k e,
    (1 <= k <= S n)%nat
    /\ retry_call n stop_max_delay start_time fn w = (after_failures fn k w, inl e)
    /\ snd (fn (after_failures fn (k - 1) w)) = inl e
    /\ (forall j, (1 <= j < k)%nat ->
                  delay_after fn start_time j w < stop_max_delay)
    /\ (k = S n \/ stop_max_delay <= delay_after fn start_time k w).
Proof.
  intros Hfn w. apply retry_call_failing_run. intros j _ _. apply Hfn.
Qed.

End Retry.

(** C8: when every attempt of [main] that is made raises, the retry
    wrapper of [main] (7 attempts, 300000 ms) runs the body of [main]
    [k] times with [1 <= k <= 7] and raises the error of the [k]-th run,
    the last one; it went on after an attempt only while the time since
    the start was under 300000 ms, and it stopped either at the seventh
    attempt or because that time had reached 300000 ms. The attempts
    run one after the other on the world that the one before left, with
    one reading of the clock after each. *)
Theorem retry_failing_call sh a w :
  let fn := main_body sh a in
  let w0 := fst (time_ms w) in
  let start_time := wall w (ticks w) in
  (forall j, (j < 7)%nat ->
             (forall i, (1 <= i <= j)%nat -> delay_after fn start_time i w0 < 300000) ->
             exists e, snd (fn (after_failures fn j w0)) = inl e) ->
  exists k e,
    (1 <= k <= 7)%nat
    /\ main sh a w = (after_failures fn k w0, inl e)
    /\ snd (fn (after_failures fn (k - 1) w0)) = inl e
    /\ (forall j, (1 <= j < k)%nat -> delay_after fn start_time j w0 < 300000)
    /\ (k = 7%nat \/ 300000 <= delay_after fn start_time k w0).
Proof.
  intros fn w0 start_time Hfn. unfold main, retry, bind. cbn [time_ms Nat.sub fst].
  apply (retry_call_failing_run fn 300000 start_time 6 w0).
  intros j Hj. apply Hfn. lia.
Qed.

(** The mode [run_batch_data] on the world with two manifests, with the
    shell and [sed] as modelled: the first record of the first manifest
    makes every attempt raise [CalledProcessError], each on the staging
    area that the attempt before left, and the clock stands still. *)
Lemma retry_failing_call_witness :
  let fn := main_body sed_sh Example.run_args in
  let w0 := fst (time_ms Example.w_batch) in
  let start_time := wall Example.w_batch (ticks Example.w_batch) in
  exists k e,
    (1 <= k <= 7)%nat
    /\ main sed_sh Example.run_args Example.w_batch = (after_failures fn k w0, inl e)
    /\ snd (fn (after_failures fn (k - 1) w0)) = inl e
    /\ (forall j, (1 <= j < k)%nat -> delay_after fn start_time j w0 < 300000)
    /\ (k = 7%nat \/ 300000 <= delay_after fn start_time k w0).
Proof.
  apply (retry_failing_call sed_sh Example.run_args Example.w_batch).
  intros j Hj _.
  exists (CalledProcessError 1 (add_id_column_cmd "data/tv/load/outa.log" "a")).
  do 7 (destruct j as [|j]; [vm_compute; reflexivity|]). lia.
Defined.

(** ** The manifests that the generator writes *)

Lemma saved_files_app j1 j2 : saved_files (j1 ++ j2) = saved_files j1 ++ saved_files j2.
Proof.
  induction j1 as [|e j1 IH]; [reflexivity|].
  destruct e; cbn; rewrite ?IH; reflexivity.
Qed.

Lemma flush_saved_files df p bucket gcs_path w w1 :
  (save_to_new_file df p ;; upload_file_to_gcs p bucket gcs_path) w = (w1, inr tt) ->
  saved_files (journal w1) = saved_files (journal w) ++ [(p, df)].
Proof.
  unfold save_to_new_file, OS.to_csv, upload_file_to_gcs, GCS.upload_from_filename.
  unfold bind, modify, get_world. cbv beta.
  destruct (write_file_cases p (Table df) w) as [[e He]|He]; rewrite He;
    [discriminate|].
  match goal with
  | |- context [OS.read_file p ?w0] =>
      destruct (read_file_cases p w0) as [[e He']|(c & He' & _)]; rewrite He'
  end; intros H; inversion H; subst.
  unfold log, set_gcs, set_local. cbn [journal].
  rewrite !saved_files_app. cbn. now rewrite app_nil_r.
Qed.

Lemma written_step N x :
  1 <= N -> 0 <= x ->
  written N (x + 1) = written N x + (if (x mod N =? 0) && (x >? 0) then 1 else 0).
Proof.
  intros HN Hx. unfold written.
  destruct (Z.eqb_spec (x + 1) 0); [lia|].
  replace (x + 1 - 1) with x by lia.
  destruct (Z.eqb_spec x 0) as [->|Hx0].
  - rewrite Zmod_0_l. cbn. now rewrite Zdiv_0_l.
  - rewrite Z.gtb_ltb. destruct (Z.ltb_spec 0 x); [|lia].
    pose proof (Z.div_mod x N ltac:(lia)) as Hd.
    pose proof (Z.mod_pos_bound x N ltac:(lia)) as Hb.
    destruct (Z.eqb_spec (x mod N) 0) as [Hm|Hm]; cbn [andb].
    + rewrite <- (Z.div_unique (x - 1) N (x / N - 1) (N - 1)); lia.
    + rewrite <- (Z.div_unique (x - 1) N (x / N) (x mod N - 1)); lia.
Qed.

Lemma written_ceil N m :
  1 <= N -> 1 <= m -> written N m = ceil_div m N - 1.
Proof.
  intros HN Hm. unfold written, ceil_div.
  destruct (Z.eqb_spec m 0); [lia|].
  replace (m + N - 1) with (m - 1 + 1 * N) by lia.
  rewrite Z.div_add by lia. lia.
Qed.

(** A run of the loop that returns has written one manifest for every
    batch but the one that is in the data frame when the listing ends. *)
Lemma generate_loop_written src N bucket root bf ft total blobs :
  1 <= N ->
  forall st w w',
    0 <= file_counter st -> 0 <= batch_number st ->
    (batch_number st = 0 <-> file_counter st = 0) ->
    file_counter st + Z.of_nat (matching blobs ft) <= total ->
    generate_loop src N bucket root bf ft total st blobs w = (w', inr tt) ->
    Z.of_nat (length (saved_files (journal w')))
    = Z.of_nat (length (saved_files (journal w)))
      + written N (file_counter st + Z.of_nat (matching blobs ft))
      - written N (file_counter st).
Proof.
  intros HN. induction blobs as [|b blobs IH]; intros st w w' Hfc Hbn Hinv Htot Hrun.
  - cbn in Hrun. inversion Hrun; subst. unfold matching. cbn.
    rewrite Z.add_0_r. lia.
  - cbn [generate_loop] in Hrun. unfold bind at 1 in Hrun.
    rewrite blob_filename_ret in Hrun. unfold matching in *. cbn [List.filter] in *.
    destruct (matches (filename_of b) ft).
    2: { unfold bind at 1 in Hrun. cbn [ret] in Hrun. now apply IH. }
    cbn [length] in *.
    set (flush := (save_to_new_file _ _ ;; upload_file_to_gcs _ _ _)%py) in Hrun.
    unfold py_mod, bind, ret in Hrun. cbv beta in Hrun.
    destruct (Z.eqb_spec N 0); [lia|].
    destruct (Z.eqb_spec (file_counter st) total); [lia|].
    rewrite orb_false_r in Hrun.
    pose proof (written_step N (file_counter st) HN Hfc) as Hstep.
    replace (file_counter st + Z.of_nat (S (length
               (List.filter (fun b0 => matches (filename_of b0) ft) blobs))))
      with (file_counter st + 1 + Z.of_nat (length
               (List.filter (fun b0 => matches (filename_of b0) ft) blobs))) by lia.
    destruct (Z.eqb_spec (file_counter st mod N) 0) as [Hm|Hm]; cbn [andb] in Hstep.
    + rewrite Z.gtb_ltb in *.
      destruct (Z.ltb_spec 0 (batch_number st)) as [Hpos|Hzero].
      * destruct (Z.ltb_spec 0 (file_counter st)); [|lia].
        destruct (flush w) as [w1 [e|[]]] eqn:Hflush; [discriminate|].
        apply flush_saved_files in Hflush.
        apply IH in Hrun; cbn [file_counter batch_number] in *; try lia.
        rewrite Hrun, Hflush, length_app. cbn [length]. lia.
      * destruct (Z.ltb_spec 0 (file_counter st)); [lia|].
        apply IH in Hrun; cbn [file_counter batch_number] in *; try lia.
    + assert (file_counter st <> 0) by (intros E; rewrite E, Zmod_0_l in Hm; lia).
      apply IH in Hrun; cbn [file_counter batch_number] in *; try lia.
Qed.

(** X19: with a batch length [N >= 1] and at least one object taken, a run of
    the loop from its initial state that returns has written
    [ceil(M / N) - 1] manifests, [M] being the number of objects taken,
    when no count of objects taken so far equals the total it is
    compared with. *)
Lemma generate_loop_one_manifest_short src N bucket root bf ft total blobs w w' :
  1 <= N ->
  (1 <= matching blobs ft)%nat ->
  Z.of_nat (matching blobs ft) <= total ->
  generate_loop src N bucket root bf ft total (GenState [] 0 0) blobs w = (w', inr tt) ->
  Z.of_nat (length (saved_files (journal w')))
  = Z.of_nat (length (saved_files (journal w)))
    + (ceil_div (Z.of_nat (matching blobs ft)) N - 1).
Proof.
  intros HN HM Htot Hrun.
  apply (generate_loop_written src N bucket root bf ft total blobs HN) in Hrun;
    cbn [file_counter batch_number] in *; try lia.
  rewrite Hrun, Z.add_0_l, written_ceil by lia. unfold written. cbn. lia.
Qed.

(** * Further properties of the pipeline *)

(** ** Removing a path of the store *)

Lemma is_blob_key b x :
  GCS.is_blob (blob_bucket b) (blob_name b) x = true <-> blob_key x = blob_key b.
Proof.
  unfold GCS.is_blob, blob_key. rewrite andb_true_iff, !String.eqb_eq.
  split; [intros [-> ->]; reflexivity | intros H; inversion H; auto].
Qed.

Lemma filter_filter_and {A} (p q : A -> bool) l :
  List.filter q (List.filter p l) = List.filter (fun x => p x && q x) l.
Proof.
  induction l as [|x l IH]; [reflexivity|]. cbn.
  destruct (p x); cbn; [destruct (q x)|]; now rewrite IH.
Qed.

Lemma filter_none_left {A} (p : A -> bool) l :
  List.filter p (List.filter (fun x => negb (p x)) l) = [].
Proof.
  induction l as [|x l IH]; [reflexivity|]. cbn.
  destruct (p x) eqn:Hp; cbn; [exact IH|]. now rewrite Hp.
Qed.

(** Deleting objects that are all in the store, no two under one key,
    succeeds and takes away exactly the objects with their keys. *)
Lemma delete_blobs_spec targets :
  forall w,
    List.NoDup (map blob_key targets) ->
    (forall t, In t targets ->
               existsb (GCS.is_blob (blob_bucket t) (blob_name t)) (gcs w) = true) ->
    exists w',
      GCS.delete_blobs targets w = (w', inr tt)
      /\ gcs w' =
         List.filter
           (fun x => negb (existsb (fun t => GCS.is_blob (blob_bucket t) (blob_name t) x)
                             targets))
           (gcs w)
      /\ local w' = local w
      /\ journal w' = journal w ++ deletions targets.
Proof.
  unfold GCS.delete_blobs.
  induction targets as [|t ts IH]; intros w Hnd Hin.
  - exists w. cbn. repeat split; [|now rewrite app_nil_r].
    induction (gcs w) as [|x l IHl]; [reflexivity|]. cbn. now rewrite <- IHl.
  - cbn [for_each]. unfold bind. unfold GCS.delete_blob at 1.
    rewrite (Hin t) by now left.
    inversion Hnd as [|k ks Hk Hnd']; subst.
    destruct (IH (log (DeleteBlob (blob_bucket t) (blob_name t))
                    (set_gcs (List.filter
                                (fun x => negb (GCS.is_blob (blob_bucket t) (blob_name t) x)))
                       w)) Hnd')
      as (w' & Hrun & Hg & Hl & Hj).
    + intros t' Ht'. cbn [log set_gcs gcs].
      apply existsb_exists. specialize (Hin t' (or_intror Ht')).
      apply existsb_exists in Hin. destruct Hin as (x & Hx & Hxt).
      exists x. split; [|exact Hxt]. apply filter_In. split; [exact Hx|].
      apply negb_true_iff. apply not_true_iff_false. intros Hxt'.
      apply is_blob_key in Hxt, Hxt'. apply Hk. rewrite <- Hxt', Hxt.
      now apply in_map.
    + exists w'. split; [exact Hrun|]. split; [|split].
      * rewrite Hg. cbn [log set_gcs gcs]. rewrite filter_filter_and.
        apply filter_ext. intros x. cbn [existsb]. now rewrite negb_orb.
      * rewrite Hl. reflexivity.
      * rewrite Hj. cbn [log set_gcs journal deletions map].
        now rewrite <- app_assoc.
Qed.

Lemma NoDup_map_filter {A B} (g : A -> B) (p : A -> bool) l :
  List.NoDup (map g l) -> List.NoDup (map g (List.filter p l)).
Proof.
  induction l as [|x l IH]; cbn; intros H; [constructor|].
  inversion H as [|y ys Hy Hnd]; subst. destruct (p x); cbn; [|now apply IH].
  constructor; [|now apply IH]. intros Hin. apply Hy.
  apply in_map_iff in Hin. destruct Hin as (z & Hz & Hzin).
  apply filter_In in Hzin. rewrite <- Hz. apply in_map. tauto.
Qed.

Lemma dropped_key bucket path x y :
  blob_key x = blob_key y -> dropped bucket path x = dropped bucket path y.
Proof. unfold blob_key, dropped. intros H. inversion H. congruence. Qed.

Lemma remove_gcs_path_deletes_aux gcs_bucket gcs_path w :
  List.NoDup (map blob_key (gcs w)) ->
  exists w',
    remove_gcs_path gcs_bucket gcs_path w = (w', inr tt)
    /\ gcs w' = List.filter (fun b => negb (dropped gcs_bucket gcs_path b)) (gcs w)
    /\ local w' = local w
    /\ journal w' =
       journal w
       ++ ListBlobs gcs_bucket (fstr [fst (Py.os_path_split gcs_path); "/"])
          :: deletions (List.filter (dropped gcs_bucket gcs_path) (gcs w)).
Proof.
  intros Hnd. unfold remove_gcs_path, bind. cbn [GCS.list_blobs].
  fold (dropped gcs_bucket gcs_path).
  destruct (delete_blobs_spec (List.filter (dropped gcs_bucket gcs_path) (gcs w))
              (log (ListBlobs gcs_bucket (fstr [fst (Py.os_path_split gcs_path); "/"])) w))
    as (w' & Hrun & Hg & Hl & Hj).
  - now apply NoDup_map_filter.
  - intros t Ht. cbn [log gcs]. apply existsb_exists. exists t.
    apply filter_In in Ht. split; [tauto|]. now apply is_blob_key.
  - exists w'. split; [exact Hrun|]. split; [|split; [exact Hl|]].
    + rewrite Hg. cbn [log gcs]. apply filter_ext_in. intros x Hx. f_equal.
      destruct (dropped gcs_bucket gcs_path x) eqn:Hd.
      * apply existsb_exists. exists x. split; [|now apply is_blob_key].
        apply filter_In. tauto.
      * apply not_true_iff_false. intros He. apply existsb_exists in He.
        destruct He as (t & Ht & Htx). apply filter_In in Ht.
        apply is_blob_key in Htx.
        rewrite (dropped_key _ _ _ _ Htx) in Hd. destruct Ht; congruence.
    + rewrite Hj. cbn [log journal]. now rewrite <- app_assoc.
Qed.

(** X1: on a store that holds no two objects under one key,
    [remove_gcs_path] returns, deletes every object of the bucket whose
    name begins with the directory part of the path it is given
    followed by a slash, and nothing else: the other objects stay, in
    their order, and the staging area is untouched. *)
Theorem remove_gcs_path_deletes gcs_bucket gcs_path w :
  List.NoDup (map blob_key (gcs w)) ->
  exists w',
    remove_gcs_path gcs_bucket gcs_path w = (w', inr tt)
    /\ gcs w' = List.filter (fun b => negb (dropped gcs_bucket gcs_path b)) (gcs w)
    /\ local w' = local w
    /\ journal w' =
       journal w
       ++ ListBlobs gcs_bucket (fstr [fst (Py.os_path_split gcs_path); "/"])
          :: deletions (List.filter (dropped gcs_bucket gcs_path) (gcs w)).
Proof. apply remove_gcs_path_deletes_aux. Qed.

(** The destination bucket of the example, path [data/tv/load]. *)
Lemma remove_gcs_path_deletes_witness :
  exists w',
    remove_gcs_path "dst" "data/tv/load" Example.w_dst = (w', inr tt)
    /\ gcs w' = List.filter (fun b => negb (dropped "dst" "data/tv/load" b))
                  (gcs Example.w_dst)
    /\ local w' = local Example.w_dst
    /\ journal w' =
       journal Example.w_dst
       ++ ListBlobs "dst" (fstr [fst (Py.os_path_split "data/tv/load"); "/"])
          :: deletions (List.filter (dropped "dst" "data/tv/load") (gcs Example.w_dst)).
Proof.
  apply (remove_gcs_path_deletes "dst" "data/tv/load" Example.w_dst).
  cbn. repeat constructor; cbn; intuition discriminate.
Defined.

(** X2: a second [remove_gcs_path] with the same arguments finds nothing
    to delete: it lists once more and leaves the store as the first call
    left it. *)
Theorem remove_gcs_path_twice gcs_bucket gcs_path w :
  List.NoDup (map blob_key (gcs w)) ->
  exists w1 w2,
    remove_gcs_path gcs_bucket gcs_path w = (w1, inr tt)
    /\ remove_gcs_path gcs_bucket gcs_path w1 = (w2, inr tt)
    /\ gcs w2 = gcs w1
    /\ journal w2 =
       journal w1 ++ [ListBlobs gcs_bucket (fstr [fst (Py.os_path_split gcs_path); "/"])].
Proof.
  intros Hnd.
  destruct (remove_gcs_path_deletes_aux gcs_bucket gcs_path w Hnd)
    as (w1 & Hrun1 & Hg1 & _ & _).
  assert (Hnd1 : List.NoDup (map blob_key (gcs w1)))
    by (rewrite Hg1; now apply NoDup_map_filter).
  destruct (remove_gcs_path_deletes_aux gcs_bucket gcs_path w1 Hnd1)
    as (w2 & Hrun2 & Hg2 & _ & Hj2).
  exists w1, w2. split; [exact Hrun1|]. split; [exact Hrun2|]. split.
  - rewrite Hg2, Hg1, filter_filter_and. apply filter_ext. intros x.
    now destruct (dropped gcs_bucket gcs_path x).
  - rewrite Hj2, Hg1, filter_none_left. reflexivity.
Qed.

(** The destination bucket of the example, path [data/tv/batch]. *)
Lemma remove_gcs_path_twice_witness :
  exists w1 w2,
    remove_gcs_path "dst" "data/tv/batch" Example.w_dst = (w1, inr tt)
    /\ remove_gcs_path "dst" "data/tv/batch" w1 = (w2, inr tt)
    /\ gcs w2 = gcs w1
    /\ journal w2 =
       journal w1 ++ [ListBlobs "dst" (fstr [fst (Py.os_path_split "data/tv/batch"); "/"])].
Proof.
  apply (remove_gcs_path_twice "dst" "data/tv/batch" Example.w_dst).
  cbn. repeat constructor; cbn; intuition discriminate.
Defined.

(** ** The staging area *)

(** X3: with plain staging paths and no regular file at or above any of
    them, [generate_folder_hierarchy] returns and leaves the five
    folders as directories; every file and directory that was there is
    as it was, and a second run on the result changes nothing at all:
    no directory is made and no journal entry added. *)
Theorem generate_folder_hierarchy_idempotent root sf uf lf bf w :
  forallb OS.plain (hierarchy root sf uf lf bf) = true ->
  forallb (OS.no_file_on (local w)) (hierarchy root sf uf lf bf) = true ->
  exists w1,
    generate_folder_hierarchy root sf uf lf bf w = (w1, inr tt)
    /\ local w ⊆ local w1
    /\ Forall (fun p => local w1 !! p = Some Dir) (hierarchy root sf uf lf bf)
    /\ generate_folder_hierarchy root sf uf lf bf w1 = (w1, inr tt).
Proof.
  intros Hplain Hclear.
  destruct (generate_folder_hierarchy_ok root sf uf lf bf w Hplain Hclear)
    as (w1 & Hrun & _ & _ & _ & _ & Hall & Hsub).
  exists w1. split; [exact Hrun|]. split; [exact Hsub|]. split; [exact Hall|].
  unfold hierarchy in *.
  apply forallb_five in Hplain. destruct Hplain as (L1 & L2 & L3 & L4 & L5).
  inversion Hall as [|? ? P1 H1]; subst. inversion H1 as [|? ? P2 H2]; subst.
  inversion H2 as [|? ? P3 H3]; subst. inversion H3 as [|? ? P4 H4]; subst.
  inversion H4 as [|? ? P5 H5]; subst.
  unfold generate_folder_hierarchy, bind.
  rewrite (make_if_missing_present _ w1 L1 (mk_is_Some _ _ P1)).
  rewrite (make_if_missing_present _ w1 L2 (mk_is_Some _ _ P2)).
  rewrite (make_if_missing_present _ w1 L3 (mk_is_Some _ _ P3)).
  rewrite (make_if_missing_present _ w1 L4 (mk_is_Some _ _ P4)).
  now rewrite (make_if_missing_present _ w1 L5 (mk_is_Some _ _ P5)).
Qed.

(** The staging area of the example, on a world with no local files. *)
Lemma generate_folder_hierarchy_idempotent_witness :
  exists w1,
    generate_folder_hierarchy "data/tv" "files" "unpack" "load" "batch" Example.w_dst
    = (w1, inr tt)
    /\ local Example.w_dst ⊆ local w1
    /\ Forall (fun p => local w1 !! p = Some Dir)
         (hierarchy "data/tv" "files" "unpack" "load" "batch")
    /\ generate_folder_hierarchy "data/tv" "files" "unpack" "load" "batch" w1
       = (w1, inr tt).
Proof.
  apply (generate_folder_hierarchy_idempotent
           "data/tv" "files" "unpack" "load" "batch" Example.w_dst);
    reflexivity.
Defined.

Lemma generate_folder_hierarchy_empty_root sf uf lf bf w :
  generate_folder_hierarchy EmptyString sf uf lf bf w
  = (w, inl (FileNotFoundError EmptyString)).
Proof. reflexivity. Qed.

Lemma after_failures_unchanged {A} (fn : M A) e :
  (forall w, fn w = (w, inl e)) ->
  forall k w,
    local (after_failures fn k w) = local w
    /\ gcs (after_failures fn k w) = gcs w
    /\ journal (after_failures fn k w) = journal w.
Proof.
  intros Hfn. induction k as [|k IH]; intros w; [now repeat split|].
  cbn [after_failures]. rewrite Hfn. cbn [fst time_ms].
  destruct (IH (mkWorld (local w) (gcs w) (wall w) (S (ticks w)) (journal w)))
    as (H1 & H2 & H3).
  now rewrite H1, H2, H3.
Qed.

(** X4: with an empty [target_root_path], the default when the
    environment does not set it, [main] raises [FileNotFoundError] in
    every mode, whatever the clock shows: [os.makedirs] is called on the
    empty path at each attempt, and neither the staging area nor the
    store nor the journal changes. *)
Theorem main_empty_root sh a w :
  target_root_path a = EmptyString ->
  exists w',
    main sh a w = (w', inl (FileNotFoundError EmptyString))
    /\ local w' = local w /\ gcs w' = gcs w /\ journal w' = journal w.
Proof.
  intros Hroot.
  assert (Hbody : forall w0, main_body sh a w0 = (w0, inl (FileNotFoundError EmptyString))).
  { intros w0. unfold main_body. unfold bind at 1. rewrite Hroot.
    now rewrite generate_folder_hierarchy_empty_root. }
  unfold main, retry, bind. cbn [time_ms Nat.sub].
  destruct (retry_call_failing (main_body sh a) 300000 (wall w (ticks w)) 6
              (fun w0 => ex_intro _ (FileNotFoundError EmptyString)
                           (f_equal snd (Hbody w0)))
              (mkWorld (local w) (gcs w) (wall w) (S (ticks w)) (journal w)))
    as (k & e & _ & Hrun & Hlast & _).
  rewrite Hbody in Hlast. cbn [snd] in Hlast. inversion Hlast; subst e.
  eexists. split; [exact Hrun|].
  apply (after_failures_unchanged (main_body sh a) _ Hbody k
           (mkWorld (local w) (gcs w) (wall w) (S (ticks w)) (journal w))).
Qed.

(** No parameter set, as when the environment is empty. *)
Lemma main_empty_root_witness :
  exists w',
    main sed_sh
      (MainArgs EmptyString 0 EmptyString EmptyString EmptyString EmptyString
         EmptyString EmptyString EmptyString EmptyString EmptyString 1 1)
      Example.w_dst
    = (w', inl (FileNotFoundError EmptyString))
    /\ local w' = local Example.w_dst /\ gcs w' = gcs Example.w_dst
    /\ journal w' = journal Example.w_dst.
Proof.
  apply (main_empty_root sed_sh
           (MainArgs EmptyString 0 EmptyString EmptyString EmptyString EmptyString
              EmptyString EmptyString EmptyString EmptyString EmptyString 1 1)
           Example.w_dst).
  reflexivity.
Defined.

(** ** Edge cases of the generator *)

(** X5: with a batch length of 0 the loop of the generator raises
    [ZeroDivisionError] at the first object it takes, before anything is
    written: the world is as it was. *)
Theorem generate_loop_zero_batch_length src bucket root bf ft total st blobs w :
  Exists (fun b => matches (filename_of b) ft = true) blobs ->
  generate_loop src 0 bucket root bf ft total st blobs w = (w, inl ZeroDivisionError).
Proof.
  intros Hex. induction blobs as [|b blobs IH]; [inversion Hex|].
  cbn [generate_loop]. unfold bind at 1. rewrite blob_filename_ret.
  destruct (matches (filename_of b) ft) eqn:Hm.
  - reflexivity.
  - unfold bind at 1. cbn [ret]. apply IH.
    inversion Hex as [? ? H|? ? H]; subst; [congruence | exact H].
Qed.

(** The five archives of the example. *)
Lemma generate_loop_zero_batch_length_witness :
  generate_loop "gs://src/files" 0 "dst" "data/tv" "batch" ".tar.gz" 5
    (GenState [] 0 0) Example.five_sources Example.w5
  = (Example.w5, inl ZeroDivisionError).
Proof.
  apply (generate_loop_zero_batch_length "gs://src/files" "dst" "data/tv" "batch"
           ".tar.gz" 5 (GenState [] 0 0) Example.five_sources Example.w5).
  apply Exists_cons_hd. vm_compute. reflexivity.
Defined.

(** X6: when no listed object has the file type at a position after the
    first character of its name, the loop of the generator returns
    without an effect, whatever the batch length. *)
Theorem generate_loop_nothing_taken src N bucket root bf ft total st blobs w :
  Forall (fun b => matches (filename_of b) ft = false) blobs ->
  generate_loop src N bucket root bf ft total st blobs w = (w, inr tt).
Proof.
  intros Hall. induction Hall as [|b blobs Hb Hall IH]; [reflexivity|].
  cbn [generate_loop]. unfold bind at 1. rewrite blob_filename_ret, Hb.
  unfold bind at 1. cbn [ret]. exact IH.
Qed.

(** The manifests of the example are no archives. *)
Lemma generate_loop_nothing_taken_witness :
  generate_loop "gs://dst/data/tv/batch" 0 "dst" "data/tv" "batch" ".tar.gz" 0
    (GenState [] 0 0) [Example.manifest1; Example.manifest2] Example.w_batch
  = (Example.w_batch, inr tt).
Proof.
  apply (generate_loop_nothing_taken "gs://dst/data/tv/batch" 0 "dst" "data/tv" "batch"
           ".tar.gz" 0 (GenState [] 0 0) [Example.manifest1; Example.manifest2]
           Example.w_batch).
  repeat constructor.
Defined.

(** ** What the generator writes *)

Lemma flush_saved_files_cases df p bucket gcs_path w :
  let r := (save_to_new_file df p ;; upload_file_to_gcs p bucket gcs_path) w in
  saved_files (journal (fst r)) = saved_files (journal w) ++ [(p, df)]
  \/ (exists e, snd r = inl e
                /\ saved_files (journal (fst r)) = saved_files (journal w)).
Proof.
  cbv zeta.
  unfold save_to_new_file, OS.to_csv, upload_file_to_gcs, GCS.upload_from_filename.
  unfold bind, modify, get_world. cbv beta.
  destruct (write_file_cases p (Table df) w) as [[e He]|He]; rewrite He.
  - right. exists e. now split.
  - left.
    match goal with
    | |- context [OS.read_file p ?w0] =>
        destruct (read_file_cases p w0) as [[e He']|(c & He' & _)]; rewrite He'
    end; cbn [fst snd];
      unfold log, set_gcs, set_local; cbn [journal];
      rewrite !saved_files_app; cbn; now rewrite ?app_nil_r.
Qed.

Lemma mod_succ_of_pred N x :
  1 <= N -> 0 < x -> x mod N <> 0 -> (x - 1) mod N + 1 = x mod N.
Proof.
  intros HN Hx Hm.
  pose proof (Z.div_mod x N ltac:(lia)) as Hd.
  pose proof (Z.mod_pos_bound x N ltac:(lia)) as Hb.
  rewrite <- (Z.mod_unique (x - 1) N (x / N) (x mod N - 1)); lia.
Qed.

Lemma generate_loop_manifests_ok src N bucket root bf ft total blobs :
  1 <= N ->
  forall st w,
    gen_inv N st ->
    exists new,
      saved_files (journal (fst (generate_loop src N bucket root bf ft total st blobs w)))
      = saved_files (journal w) ++ new
      /\ Forall (manifest_ok root bf N) new.
Proof.
  intros HN. induction blobs as [|b blobs IH]; intros st w (Hfc & Hbn & Hrows & Hopen).
  - exists []. cbn. split; [now rewrite app_nil_r | constructor].
  - cbn [generate_loop]. unfold bind at 1. rewrite blob_filename_ret.
    destruct (matches (filename_of b) ft).
    2: { unfold bind at 1. cbn [ret]. apply IH.
         exact (conj Hfc (conj Hbn (conj Hrows Hopen))). }
    set (flush := (save_to_new_file _ _ ;; upload_file_to_gcs _ _ _)%py).
    unfold py_mod, bind, ret. cbv beta.
    cbn [df_filelist file_counter batch_number].
    destruct (Z.eqb_spec N 0); [lia|].
    pose proof (Z.mod_pos_bound (file_counter st) N ltac:(lia)) as Hmod.
    destruct ((file_counter st mod N =? 0) || (file_counter st =? total)) eqn:Hcond.
    + assert (Hnext : gen_inv N
                (GenState
                   ([] ++ [Row (fstr [src; "/"; Py.os_path_basename (filename_of b)])
                             (Py.replace (Py.os_path_basename (filename_of b)) ft EmptyString)
                             (batch_number st + 1)])
                   (file_counter st + 1) (batch_number st + 1))).
      { unfold gen_inv. cbn [file_counter batch_number df_filelist app length].
        replace (file_counter st + 1 - 1) with (file_counter st) by lia.
        repeat split; try lia. repeat constructor. }
      rewrite Z.gtb_ltb. destruct (Z.ltb_spec 0 (batch_number st)) as [Hpos|Hzero].
      * pose proof (flush_saved_files_cases (df_filelist st)
                      (batch_metadata_file_path_of root bf (batch_number st)) bucket
                      (fstr [root; "/"; bf; "/";
                             Py.os_path_basename
                               (batch_metadata_file_path_of root bf (batch_number st))]) w)
          as Hflush.
        cbv zeta in Hflush. fold flush in Hflush.
        assert (Hok : manifest_ok root bf N
                        (batch_metadata_file_path_of root bf (batch_number st),
                         df_filelist st)).
        { exists (batch_number st). destruct (Hopen Hpos) as (Hfc1 & Hlen).
          pose proof (Z.mod_pos_bound (file_counter st - 1) N ltac:(lia)).
          cbn [fst snd]. repeat split; try lia. exact Hrows. }
        destruct (flush w) as [w1 [e|[]]]; cbn [fst snd] in *.
        -- destruct Hflush as [H|(e' & _ & H)]; rewrite H.
           ++ eexists. split; [reflexivity|]. now repeat constructor.
           ++ exists []. split; [now rewrite app_nil_r | constructor].
        -- destruct Hflush as [H|(e' & He' & _)]; [|discriminate].
           cbn [df_filelist file_counter batch_number].
           destruct (IH _ w1 Hnext) as (new & Hnew & Hall).
           exists ((batch_metadata_file_path_of root bf (batch_number st),
                    df_filelist st) :: new).
           split; [|now constructor].
           rewrite Hnew, H, <- app_assoc. reflexivity.
      * cbn [df_filelist file_counter batch_number]. apply IH. exact Hnext.
    + apply orb_false_iff in Hcond. destruct Hcond as [Hr _].
      apply Z.eqb_neq in Hr.
      apply IH. unfold gen_inv.
      cbn [file_counter batch_number df_filelist].
      replace (file_counter st + 1 - 1) with (file_counter st) by lia.
      split; [lia|]. split; [lia|]. split.
      * apply Forall_app. split; [exact Hrows | now repeat constructor].
      * intros Hpos. destruct (Hopen Hpos) as (Hfc1 & Hlen).
        rewrite length_app. cbn [length].
        pose proof (mod_succ_of_pred N (file_counter st) HN Hfc1 Hr). lia.
Qed.

Lemma count_files_saved_files project_id source file_type w :
  saved_files (journal (fst (count_files_in_gcs_bucket project_id source file_type w)))
  = saved_files (journal w).
Proof.
  unfold count_files_in_gcs_bucket, bind.
  pose proof (bucket_of_world source w) as H.
  destruct (bucket_of source w) as [w1 [e|bucket_name]]; simpl in H; subst w1;
    [reflexivity|].
  cbn [GCS.list_blobs]. rewrite count_loop_world. cbn [log journal].
  rewrite saved_files_app. cbn. now rewrite app_nil_r.
Qed.

(** X7: with a batch length [N >= 1], every manifest file that a run of
    [generate_batch_metadata_files] writes, whether the run returns or
    raises, is named after a batch number [k >= 1], holds at least one
    and at most [N] rows, and each of its rows carries [k] as its batch
    number. *)
Theorem manifests_written_are_well_formed
        project_id source_gcs_folder_path N target_gcs_bucket
        target_root_path target_batch_folder file_type w :
  1 <= N ->
  exists new,
    saved_files
      (journal (fst (generate_batch_metadata_files project_id source_gcs_folder_path N
                       target_gcs_bucket target_root_path target_batch_folder
                       file_type w)))
    = saved_files (journal w) ++ new
    /\ Forall (manifest_ok target_root_path target_batch_folder N) new.
Proof.
  intros HN. unfold generate_batch_metadata_files. unfold bind at 1.
  pose proof (bucket_of_world source_gcs_folder_path w) as Hb.
  destruct (bucket_of source_gcs_folder_path w) as [w1 [e|bucket_name]];
    cbn [fst] in Hb; subst w1.
  { exists []. cbn. split; [now rewrite app_nil_r | constructor]. }
  unfold bind at 1.
  pose proof (count_files_saved_files project_id source_gcs_folder_path ".tar.gz" w) as Hc.
  destruct (count_files_in_gcs_bucket _ _ _ w) as [w1 [e|total]];
    cbn [fst] in Hc; rewrite <- Hc.
  { exists []. cbn. split; [now rewrite app_nil_r | constructor]. }
  unfold bind at 1. cbn [GCS.list_blobs].
  match goal with
  | |- context [generate_loop _ _ _ _ _ _ _ _ ?blobs (log ?e w1)] =>
      destruct (generate_loop_manifests_ok source_gcs_folder_path N target_gcs_bucket
                  target_root_path target_batch_folder file_type total blobs HN
                  (GenState [] 0 0) (log e w1)) as (new & Hnew & Hall)
  end.
  { unfold gen_inv. cbn. repeat split; try lia. constructor. }
  exists new. split; [|exact Hall].
  rewrite Hnew. cbn [log journal]. rewrite saved_files_app. cbn.
  now rewrite app_nil_r.
Qed.

(** Five archives, batch length 2. *)
Lemma manifests_written_are_well_formed_witness :
  exists new,
    saved_files (journal (fst Run.generate5))
    = saved_files (journal Example.w5) ++ new
    /\ Forall (manifest_ok "data/tv" "batch" 2) new.
Proof.
  apply (manifests_written_are_well_formed "project" "gs://src/files" 2 "dst"
           "data/tv" "batch" ".tar.gz" Example.w5).
  lia.
Defined.

Lemma taken_cons src ft b blobs :
  taken src ft (b :: blobs) =
  if matches (filename_of b) ft
  then (fstr [src; "/"; Py.os_path_basename (filename_of b)],
        Py.replace (Py.os_path_basename (filename_of b)) ft EmptyString)
       :: taken src ft blobs
  else taken src ft blobs.
Proof.
  unfold taken. cbn [List.filter]. now destruct (matches (filename_of b) ft).
Qed.

Lemma generate_loop_rows_in_order src N bucket root bf ft total blobs :
  forall st w,
    0 <= batch_number st ->
    (batch_number st = 0 -> df_filelist st = [] /\ file_counter st = 0) ->
    exists new rest,
      saved_files (journal (fst (generate_loop src N bucket root bf ft total st blobs w)))
      = saved_files (journal w) ++ new
      /\ map row_key (df_filelist st) ++ taken src ft blobs
         = map row_key (concat (map snd new)) ++ rest.
Proof.
  induction blobs as [|b blobs IH]; intros st w Hbn Hzero.
  - exists [], (map row_key (df_filelist st)). cbn. now rewrite !app_nil_r.
  - cbn [generate_loop]. unfold bind at 1. rewrite blob_filename_ret, taken_cons.
    destruct (matches (filename_of b) ft).
    2: { unfold bind at 1. cbn [ret]. now apply IH. }
    set (flush := (save_to_new_file _ _ ;; upload_file_to_gcs _ _ _)%py).
    unfold py_mod, bind, ret. cbv beta.
    set (key := (fstr [src; "/"; Py.os_path_basename (filename_of b)],
                 Py.replace (Py.os_path_basename (filename_of b)) ft EmptyString)).
    destruct (Z.eqb_spec N 0).
    { exists [], (map row_key (df_filelist st) ++ key :: taken src ft blobs).
      cbn. now rewrite app_nil_r. }
    destruct ((file_counter st mod N =? 0) || (file_counter st =? total)) eqn:Hcond.
    + rewrite Z.gtb_ltb. destruct (Z.ltb_spec 0 (batch_number st)) as [Hpos|Hnot].
      * pose proof (flush_saved_files_cases (df_filelist st)
                      (batch_metadata_file_path_of root bf (batch_number st)) bucket
                      (fstr [root; "/"; bf; "/";
                             Py.os_path_basename
                               (batch_metadata_file_path_of root bf (batch_number st))]) w)
          as Hflush.
        cbv zeta in Hflush. fold flush in Hflush.
        destruct (flush w) as [w1 [e|[]]]; cbn [fst snd] in *.
        -- destruct Hflush as [H|(e' & _ & H)]; rewrite H.
           ++ exists [(batch_metadata_file_path_of root bf (batch_number st),
                       df_filelist st)], (key :: taken src ft blobs).
              split; [reflexivity|]. cbn. now rewrite app_nil_r.
           ++ exists [], (map row_key (df_filelist st) ++ key :: taken src ft blobs).
              cbn. now rewrite app_nil_r.
        -- destruct Hflush as [H|(e' & He' & _)]; [|discriminate].
           cbn [df_filelist file_counter batch_number].
           match goal with
           | |- context [generate_loop _ _ _ _ _ _ _ ?st' blobs ?w'] =>
               destruct (IH st' w') as (new & rest & Hnew & Hrows);
                 cbn [df_filelist file_counter batch_number] in *; try lia
           end.
           exists ((batch_metadata_file_path_of root bf (batch_number st),
                    df_filelist st) :: new), rest.
           split.
           ++ rewrite Hnew, H, <- app_assoc. reflexivity.
           ++ cbn [map concat snd]. rewrite map_app, <- app_assoc, <- Hrows.
              reflexivity.
      * assert (Hb0 : batch_number st = 0) by lia.
        destruct (Hzero Hb0) as (Hdf & _). rewrite Hdf.
        cbn [df_filelist file_counter batch_number].
        match goal with
        | |- context [generate_loop _ _ _ _ _ _ _ ?st' blobs ?w'] =>
            destruct (IH st' w') as (new & rest & Hnew & Hrows);
              cbn [df_filelist file_counter batch_number] in *; try lia
        end.
        exists new, rest. split; [exact Hnew|]. exact Hrows.
    + apply orb_false_iff in Hcond. destruct Hcond as [Hr _].
      apply Z.eqb_neq in Hr.
      assert (Hpos : 0 < batch_number st).
      { destruct (Z.eq_dec (batch_number st) 0) as [Hb0|]; [|lia].
        destruct (Hzero Hb0) as (_ & Hfc0). rewrite Hfc0, Zmod_0_l in Hr. lia. }
      cbn [df_filelist file_counter batch_number].
      match goal with
      | |- context [generate_loop _ _ _ _ _ _ _ ?st' blobs ?w'] =>
          destruct (IH st' w') as (new & rest & Hnew & Hrows);
            cbn [df_filelist file_counter batch_number] in *; try lia
      end.
      exists new, rest. split; [exact Hnew|].
      rewrite <- Hrows, map_app, <- app_assoc. reflexivity.
Qed.

(** X8: the rows of the manifests that the loop of the generator writes,
    read manifest after manifest, are the paths and identifiers of the
    objects it takes, in listing order and without a gap or a repeat,
    up to some point of the listing: what is missing is missing at the
    end. This holds for every batch length and also when the run raises. *)
Theorem manifest_rows_follow_listing src N bucket root bf ft total blobs w :
  exists new rest,
    saved_files
      (journal (fst (generate_loop src N bucket root bf ft total (GenState [] 0 0) blobs w)))
    = saved_files (journal w) ++ new
    /\ taken src ft blobs = map row_key (concat (map snd new)) ++ rest.
Proof.
  destruct (generate_loop_rows_in_order src N bucket root bf ft total blobs
              (GenState [] 0 0) w) as (new & rest & Hnew & Hrows);
    cbn [df_filelist file_counter batch_number]; [lia | now split |].
  exists new, rest. now split.
Qed.

(** Five archives, batch length 2, as the generator counts them. *)
Lemma generate_loop_one_manifest_short_witness :
  Z.of_nat
    (length
       (saved_files
          (journal
             (fst (generate_loop "gs://src/files" 2 "dst" "data/tv" "batch" ".tar.gz" 5
                     (GenState [] 0 0) Example.five_sources Example.w5)))))
  = Z.of_nat (length (saved_files (journal Example.w5)))
    + (ceil_div (Z.of_nat (matching Example.five_sources ".tar.gz")) 2 - 1).
Proof.
  apply (generate_loop_one_manifest_short "gs://src/files" 2 "dst" "data/tv" "batch"
           ".tar.gz" 5 Example.five_sources Example.w5).
  - lia.
  - vm_compute. lia.
  - vm_compute. discriminate.
  - vm_compute. reflexivity.
Defined.

(** ** The generator and the objects of the store *)

Lemma store_grows_refl bucket w : store_grows bucket w w.
Proof. split; [auto | reflexivity]. Qed.

Lemma store_grows_trans bucket w1 w2 w3 :
  store_grows bucket w1 w2 -> store_grows bucket w2 w3 -> store_grows bucket w1 w3.
Proof.
  intros [K1 F1] [K2 F2]. split; [auto|].
  intros b Hb. now rewrite (F2 b Hb), (F1 b Hb).
Qed.

Lemma replace_blob_keys b l :
  map blob_key (GCS.replace_blob b l) = map blob_key l.
Proof.
  induction l as [|x l IH]; [reflexivity|]. cbn [GCS.replace_blob map].
  rewrite IH. destruct (GCS.is_blob (blob_bucket b) (blob_name b) x) eqn:Hx;
    [|reflexivity].
  apply is_blob_key in Hx. now rewrite Hx.
Qed.

Lemma replace_blob_other_buckets b l x :
  blob_bucket x <> blob_bucket b ->
  In x (GCS.replace_blob b l) <-> In x l.
Proof.
  intros Hx. induction l as [|y l IH]; [reflexivity|]. cbn [GCS.replace_blob In].
  rewrite IH. destruct (GCS.is_blob (blob_bucket b) (blob_name b) y) eqn:Hy;
    [|reflexivity].
  unfold GCS.is_blob in Hy. apply andb_true_iff in Hy. destruct Hy as [Hy _].
  apply String.eqb_eq in Hy.
  split; (intros [E|H]; [subst; congruence | now right]).
Qed.

Lemma insert_blob_In b l x : In x (GCS.insert_blob b l) <-> x = b \/ In x l.
Proof.
  induction l as [|y l IH]; cbn [GCS.insert_blob In]; [intuition congruence|].
  destruct (String.eqb (blob_bucket y) (blob_bucket b)
            && String.ltb (blob_name b) (blob_name y)); cbn [In];
    [|rewrite IH]; intuition congruence.
Qed.

(** An upload takes no key away. *)
Lemma put_blob_keys b l k :
  In k (map blob_key l) -> In k (map blob_key (GCS.put_blob b l)).
Proof.
  unfold GCS.put_blob.
  destruct (existsb (GCS.is_blob (blob_bucket b) (blob_name b)) l).
  - now rewrite replace_blob_keys.
  - rewrite !in_map_iff. intros (x & Hk & Hx). exists x. split; [exact Hk|].
    apply insert_blob_In. now right.
Qed.

(** An upload leaves the other buckets as they are. *)
Lemma put_blob_other_buckets b l x :
  blob_bucket x <> blob_bucket b -> In x (GCS.put_blob b l) <-> In x l.
Proof.
  intros Hx. unfold GCS.put_blob.
  destruct (existsb (GCS.is_blob (blob_bucket b) (blob_name b)) l).
  - now apply replace_blob_other_buckets.
  - rewrite insert_blob_In. split; [intros [->|H]; [congruence | exact H] | now right].
Qed.

Lemma flush_store_grows df p bucket gcs_path w :
  store_grows bucket w
    (fst ((save_to_new_file df p ;; upload_file_to_gcs p bucket gcs_path) w)).
Proof.
  unfold save_to_new_file, OS.to_csv, upload_file_to_gcs, GCS.upload_from_filename.
  unfold bind, modify, get_world. cbv beta.
  destruct (write_file_cases p (Table df) w) as [[e He]|He]; rewrite He;
    [apply store_grows_refl|].
  match goal with
  | |- context [OS.read_file p ?w0] =>
      destruct (read_file_cases p w0) as [[e He']|(c & He' & _)]; rewrite He'
  end; cbn [fst];
    unfold store_grows, log, set_gcs, set_local; cbn [gcs journal];
    try (split; [auto | reflexivity]).
  split.
  - intros k. apply put_blob_keys.
  - intros b Hb.
    apply (put_blob_other_buckets
             (Blob bucket gcs_path (Z.of_nat (length (journal w ++ [SaveFile p df]))) c)).
    exact Hb.
Qed.

Lemma generate_loop_store_grows src N bucket root bf ft total blobs :
  forall st w,
    store_grows bucket w (fst (generate_loop src N bucket root bf ft total st blobs w)).
Proof.
  induction blobs as [|b blobs IH]; intros st w; [apply store_grows_refl|].
  cbn [generate_loop]. unfold bind at 1. rewrite blob_filename_ret.
  destruct (matches (filename_of b) ft).
  2: { unfold bind at 1. cbn [ret]. apply IH. }
  set (flush := (save_to_new_file _ _ ;; upload_file_to_gcs _ _ _)%py).
  unfold py_mod, bind, ret. cbv beta.
  destruct (N =? 0); [apply store_grows_refl|].
  destruct ((file_counter st mod N =? 0) || (file_counter st =? total)); [|apply IH].
  destruct (batch_number st >? 0); [|apply IH].
  pose proof (flush_store_grows (df_filelist st)
                (batch_metadata_file_path_of root bf (batch_number st)) bucket
                (fstr [root; "/"; bf; "/";
                       Py.os_path_basename
                         (batch_metadata_file_path_of root bf (batch_number st))]) w)
    as Hflush.
  fold flush in Hflush.
  destruct (flush w) as [w1 [e|[]]]; cbn [fst] in *; [exact Hflush|].
  eapply store_grows_trans; [exact Hflush | apply IH].
Qed.

Lemma count_files_gcs project_id source file_type w :
  gcs (fst (count_files_in_gcs_bucket project_id source file_type w)) = gcs w.
Proof.
  unfold count_files_in_gcs_bucket, bind.
  pose proof (bucket_of_world source w) as H.
  destruct (bucket_of source w) as [w1 [e|bucket_name]]; simpl in H; subst w1;
    [reflexivity|].
  cbn [GCS.list_blobs]. now rewrite count_loop_world.
Qed.

(** X9: a run of [generate_batch_metadata_files], whether it returns or
    raises, deletes no object and renames none: every key of the store
    as it was is still a key of the store, and the objects outside the
    target bucket are the same. *)
Theorem generator_keeps_the_store
        project_id source_gcs_folder_path N target_gcs_bucket
        target_root_path target_batch_folder file_type w :
  store_grows target_gcs_bucket w
    (fst (generate_batch_metadata_files project_id source_gcs_folder_path N
            target_gcs_bucket target_root_path target_batch_folder file_type w)).
Proof.
  unfold generate_batch_metadata_files. unfold bind at 1.
  pose proof (bucket_of_world source_gcs_folder_path w) as Hb.
  destruct (bucket_of source_gcs_folder_path w) as [w1 [e|bucket_name]];
    cbn [fst] in Hb; subst w1; [apply store_grows_refl|].
  unfold bind at 1.
  pose proof (count_files_gcs project_id source_gcs_folder_path ".tar.gz" w) as Hc.
  destruct (count_files_in_gcs_bucket _ _ _ w) as [w1 [e|total]]; cbn [fst] in Hc.
  { unfold store_grows. cbn [fst]. rewrite Hc. apply store_grows_refl. }
  unfold bind at 1. cbn [GCS.list_blobs].
  match goal with
  | |- context [generate_loop ?a ?b ?c ?d ?e0 ?g ?h ?st ?blobs (log ?ev w1)] =>
      pose proof (generate_loop_store_grows a b c d e0 g h blobs st (log ev w1)) as Hloop
  end.
  unfold store_grows in *. cbn [log gcs] in Hloop. rewrite <- Hc. exact Hloop.
Qed.

(** ** The shares of the batch ordinals *)

Lemma share_step G o k :
  1 <= G -> 1 <= o <= G -> 0 <= k ->
  (k + 1 + G - o) / G - (k + G - o) / G = if slot G k =? o then 1 else 0.
Proof.
  intros HG Ho Hk. unfold slot. destruct (Z.ltb_spec G 1); [lia|].
  pose proof (Z.div_mod k G ltac:(lia)) as Hd.
  pose proof (Z.mod_pos_bound k G ltac:(lia)) as Hb.
  destruct (Z.eqb_spec (k mod G + 1) o) as [He|Hne].
  - rewrite <- (Z.div_unique (k + 1 + G - o) G (k / G + 1) 0) by lia.
    rewrite <- (Z.div_unique (k + G - o) G (k / G) (G - 1)) by lia. lia.
  - destruct (Z.lt_ge_cases (k mod G + 1) o).
    + rewrite <- (Z.div_unique (k + 1 + G - o) G (k / G) (k mod G + 1 + G - o)) by lia.
      rewrite <- (Z.div_unique (k + G - o) G (k / G) (k mod G + G - o)) by lia. lia.
    + rewrite <- (Z.div_unique (k + 1 + G - o) G (k / G + 1) (k mod G + 1 - o)) by lia.
      rewrite <- (Z.div_unique (k + G - o) G (k / G + 1) (k mod G - o)) by lia. lia.
Qed.

Lemma by_slot_length {A} G o k (l : list A) :
  1 <= G -> 1 <= o <= G -> 0 <= k ->
  Z.of_nat (length (by_slot G o k l))
  = (k + Z.of_nat (length l) + G - o) / G - (k + G - o) / G.
Proof.
  intros HG Ho. revert k. induction l as [|x l IH]; intros k Hk.
  - cbn. rewrite Z.add_0_r. lia.
  - rewrite by_slot_cons. pose proof (share_step G o k HG Ho Hk) as Hs.
    specialize (IH (k + 1) ltac:(lia)).
    replace (k + Z.of_nat (length (x :: l)) + G - o)
      with (k + 1 + Z.of_nat (length l) + G - o) by (cbn [length]; lia).
    destruct (slot G k =? o); cbn [length]; lia.
Qed.

Lemma assigned_share {A} G o (l : list A) :
  1 <= G -> 1 <= o <= G ->
  Z.of_nat (length (assigned G o l)) = (Z.of_nat (length l) + G - o) / G.
Proof.
  intros HG Ho. rewrite assigned_by_slot, by_slot_length by lia.
  rewrite (Z.div_small (0 + G - o)) by lia.
  replace (0 + Z.of_nat (length l) + G - o) with (Z.of_nat (length l) + G - o) by lia.
  lia.
Qed.

(** X10: with [G >= 1], the invocations of
    [process_batch_metadata_files] with the ordinals [o1] and [o2] in
    [1..G] hand to [process_batch] lists of manifests whose lengths are
    [(n + G - o1) / G] and [(n + G - o2) / G], [n] being the number of
    manifests listed: the shares of two ordinals differ by one manifest
    at most. *)
Theorem batch_shares_are_balanced
        sh project_id target_gcs_bucket target_gcs_path target_root_path
        target_source_folder target_unpack_folder target_load_folder
        target_batch_folder batch_gcs_path G o1 o2 w :
  1 <= G -> 1 <= o1 <= G -> 1 <= o2 <= G ->
  let blobs := listed target_gcs_bucket batch_gcs_path w in
  let share := fun o => map filename_of (assigned G o blobs) in
  let run := fun o =>
    process_batch_metadata_files sh project_id target_gcs_bucket target_gcs_path
      target_root_path target_source_folder target_unpack_folder target_load_folder
      target_batch_folder batch_gcs_path G o w in
  let each := for_each
    (fun batch_filename =>
       process_batch sh project_id batch_filename target_gcs_bucket target_gcs_path
         target_root_path target_source_folder target_unpack_folder
         target_load_folder target_batch_folder) in
  run o1 = each (share o1) (log (ListBlobs target_gcs_bucket batch_gcs_path) w)
  /\ run o2 = each (share o2) (log (ListBlobs target_gcs_bucket batch_gcs_path) w)
  /\ Z.of_nat (length (share o1)) = (Z.of_nat (length blobs) + G - o1) / G
  /\ Z.of_nat (length (share o2)) = (Z.of_nat (length blobs) + G - o2) / G
  /\ Z.abs (Z.of_nat (length (share o1)) - Z.of_nat (length (share o2))) <= 1.
Proof.
  intros HG H1 H2 blobs share run each.
  split; [apply process_batch_metadata_files_assigned|].
  split; [apply process_batch_metadata_files_assigned|].
  unfold share. rewrite !length_map, !assigned_share by assumption.
  split; [reflexivity|]. split; [reflexivity|].
  set (n := Z.of_nat (length blobs)).
  assert (Hmono : forall a b, a <= b <= a + G -> a / G <= b / G <= a / G + 1).
  { intros a b Hab. split.
    - apply Z.div_le_mono; lia.
    - replace (a / G + 1) with ((a + 1 * G) / G) by (rewrite Z.div_add; lia).
      apply Z.div_le_mono; lia. }
  destruct (Z.le_ge_cases o1 o2).
  - pose proof (Hmono (n + G - o2) (n + G - o1) ltac:(lia)). lia.
  - pose proof (Hmono (n + G - o1) (n + G - o2) ltac:(lia)). lia.
Qed.

(** The two manifests of the example, two ordinals: one each. *)
Lemma batch_shares_are_balanced_witness :
  let blobs := listed "dst" "data/tv/batch" Example.w_batch in
  let share := fun o => map filename_of (assigned 2 o blobs) in
  let run := fun o =>
    process_batch_metadata_files Example.ok_sh "project" "dst" "data/tv" "data/tv"
      "files" "unpack" "load" "batch" "data/tv/batch" 2 o Example.w_batch in
  let each := for_each
    (fun batch_filename =>
       process_batch Example.ok_sh "project" batch_filename "dst" "data/tv"
         "data/tv" "files" "unpack" "load" "batch") in
  run 1 = each (share 1) (log (ListBlobs "dst" "data/tv/batch") Example.w_batch)
  /\ run 2 = each (share 2) (log (ListBlobs "dst" "data/tv/batch") Example.w_batch)
  /\ Z.of_nat (length (share 1)) = (Z.of_nat (length blobs) + 2 - 1) / 2
  /\ Z.of_nat (length (share 2)) = (Z.of_nat (length blobs) + 2 - 2) / 2
  /\ Z.abs (Z.of_nat (length (share 1)) - Z.of_nat (length (share 2))) <= 1.
Proof.
  apply (batch_shares_are_balanced Example.ok_sh "project" "dst" "data/tv"
           "data/tv" "files" "unpack" "load" "batch" "data/tv/batch" 2 1 2
           Example.w_batch); lia.
Defined.

Lemma assigned_from_single_slot {A} G (l : list A) :
  G <= 1 -> assigned_from G 1 1 l = l.
Proof.
  intros HG. induction l as [|x l IH]; [reflexivity|].
  cbn [assigned_from]. rewrite Z.eqb_refl, Z.gtb_ltb.
  destruct (Z.ltb_spec G (1 + 1)); [|lia]. now rewrite IH.
Qed.

(** X11: with a batch group size of 1, the default, or less, the
    invocation with batch ordinal 1 runs [process_batch] on every listed
    manifest, in listing order, up to the first that raises. *)
Theorem single_group_processes_every_manifest
        sh project_id target_gcs_bucket target_gcs_path target_root_path
        target_source_folder target_unpack_folder target_load_folder
        target_batch_folder batch_gcs_path G w :
  G <= 1 ->
  process_batch_metadata_files sh project_id target_gcs_bucket target_gcs_path
    target_root_path target_source_folder target_unpack_folder target_load_folder
    target_batch_folder batch_gcs_path G 1 w =
  (blobs <- GCS.list_blobs target_gcs_bucket batch_gcs_path ;;
   for_each
     (fun batch_filename =>
        process_batch sh project_id batch_filename target_gcs_bucket target_gcs_path
          target_root_path target_source_folder target_unpack_folder
          target_load_folder target_batch_folder)
     (map filename_of blobs)) w.
Proof.
  intros HG. unfold process_batch_metadata_files, bind. cbn [GCS.list_blobs].
  now rewrite batch_loop_assigned, assigned_from_single_slot.
Qed.

(** The defaults of the environment, on the world with two manifests. *)
Lemma single_group_processes_every_manifest_witness :
  process_batch_metadata_files Example.ok_sh "project" "dst" "data/tv" "data/tv"
    "files" "unpack" "load" "batch" "data/tv/batch" 1 1 Example.w_batch =
  (blobs <- GCS.list_blobs "dst" "data/tv/batch" ;;
   for_each
     (fun batch_filename =>
        process_batch Example.ok_sh "project" batch_filename "dst" "data/tv"
          "data/tv" "files" "unpack" "load" "batch")
     (map filename_of blobs)) Example.w_batch.
Proof.
  apply (single_group_processes_every_manifest Example.ok_sh "project" "dst"
           "data/tv" "data/tv" "files" "unpack" "load" "batch" "data/tv/batch" 1
           Example.w_batch).
  lia.
Defined.

(** ** Counting, copying and the file type *)

Lemma count_loop_value file_type cnt blobs w :
  count_loop file_type cnt blobs w =
  (w, inr (cnt + Z.of_nat
                   (length (List.filter
                              (fun b => matches (Py.os_path_basename (filename_of b))
                                          file_type)
                              blobs)))).
Proof.
  revert cnt. induction blobs as [|b blobs IH]; intros cnt.
  - cbn. now rewrite Z.add_0_r.
  - cbn [count_loop List.filter]. unfold bind. rewrite blob_filename_ret.
    destruct (matches _ _); rewrite IH; cbn [length]; do 2 f_equal; lia.
Qed.

(** X12: [count_files_in_gcs_bucket] counts over the whole bucket of
    the source path, whatever the folder of the path: it returns the
    number of objects of the bucket whose base name has the file type
    after its first character (every object when the file type is
    empty), and only adds the listing to the journal. *)
Theorem count_files_covers_the_bucket project_id source file_type bucket w :
  bucket_of source w = (w, inr bucket) ->
  count_files_in_gcs_bucket project_id source file_type w =
  (log (ListBlobs bucket EmptyString) w,
   inr (Z.of_nat
          (length
             (List.filter
                (fun b => String.eqb (blob_bucket b) bucket
                          && matches (Py.os_path_basename (filename_of b)) file_type)
                (gcs w))))).
Proof.
  intros Hb. unfold count_files_in_gcs_bucket, bind. rewrite Hb.
  cbn [GCS.list_blobs]. rewrite count_loop_value, filter_filter_and.
  cbn [log gcs]. rewrite Z.add_0_l. do 4 f_equal.
  apply filter_ext. intros b. cbn [Py.startswith]. now rewrite andb_true_r.
Qed.

(** The bucket [src] of the five archives, read off [gs://src/files]. *)
Lemma count_files_covers_the_bucket_witness :
  count_files_in_gcs_bucket "project" "gs://src/files" ".tar.gz" Example.w5 =
  (log (ListBlobs "src" EmptyString) Example.w5,
   inr (Z.of_nat
          (length
             (List.filter
                (fun b => String.eqb (blob_bucket b) "src"
                          && matches (Py.os_path_basename (filename_of b)) ".tar.gz")
                (gcs Example.w5))))).
Proof.
  apply (count_files_covers_the_bucket "project" "gs://src/files" ".tar.gz" "src"
           Example.w5).
  reflexivity.
Defined.

(** X13: when [which gsutil] ends with a status other than 0,
    [copy_source_files_gcs_to_gcs] raises [CalledProcessError] for that
    command and the copy command is not run. *)
Theorem copy_needs_gsutil sh source_bucket destination_bucket destination_folder
        file_type silent w w1 status :
  sh "which gsutil" (log (Shell "which gsutil") w) = (w1, inr status) ->
  status <> 0 ->
  copy_source_files_gcs_to_gcs sh source_bucket destination_bucket destination_folder
    file_type silent w
  = (w1, inl (CalledProcessError status "which gsutil")).
Proof.
  intros Hsh Hst. apply Z.eqb_neq in Hst.
  unfold copy_source_files_gcs_to_gcs. unfold bind at 1.
  unfold check_call at 1. unfold bind, modify. rewrite Hsh, Hst. reflexivity.
Qed.

(** A shell in which [which] finds nothing. *)
Lemma copy_needs_gsutil_witness :
  copy_source_files_gcs_to_gcs (fun _ => ret 1) "gcs-public-data-trafficvision" "dst"
    "data/trafficvision/files" ".tar.gz" true Example.w_dst
  = (log (Shell "which gsutil") Example.w_dst,
     inl (CalledProcessError 1 "which gsutil")).
Proof.
  apply (copy_needs_gsutil (fun _ => ret 1) "gcs-public-data-trafficvision" "dst"
           "data/trafficvision/files" ".tar.gz" true Example.w_dst
           (log (Shell "which gsutil") Example.w_dst) 1).
  - reflexivity.
  - discriminate.
Defined.

Lemma startswith_append p s : Py.startswith p (p +:+ s) = true.
Proof.
  induction p as [|c p IH]; [reflexivity|]. cbn.
  unfold Py.ascii_eqb. now rewrite Ascii.eqb_refl, IH.
Qed.

(** X14: an object is taken when the file type occurs in its name after
    the first character: a name that begins with a non-empty file type
    is not taken, whatever follows, and with the empty file type every
    name is taken. *)
Theorem file_type_at_the_start_is_skipped file_type rest name :
  (file_type <> EmptyString -> matches (file_type +:+ rest) file_type = false)
  /\ matches name EmptyString = true.
Proof.
  split.
  - intros Hft. unfold matches, Py.find.
    assert (Hfind : Py.find_from file_type (file_type +:+ rest) 0 = 0).
    { destruct file_type as [|c ft]; [congruence|].
      cbn [String.append Py.find_from]. 
      change (String c (ft +:+ rest)) with (String c ft +:+ rest).
      now rewrite startswith_append. }
    rewrite Hfind. apply String.eqb_neq in Hft. now rewrite Hft.
  - unfold matches. cbn. apply orb_true_r.
Qed.

(** A name that begins with [.tar.gz], and the empty file type. *)
Lemma file_type_at_the_start_is_skipped_witness :
  matches (".tar.gz" +:+ "x") ".tar.gz" = false /\ matches "a.tar.gz" EmptyString = true.
Proof.
  destruct (file_type_at_the_start_is_skipped ".tar.gz" "x" "a.tar.gz") as [H1 H2].
  split; [apply H1; discriminate | exact H2].
Defined.

(** ** Reading a [gs://] location *)

Lemma find_from_none sub s i :
  0 <= i -> Py.find_from sub s i = -1 ->
  Py.startswith sub s = false
  /\ forall c s', s = String c s' -> Py.find_from sub s' (i + 1) = -1.
Proof.
  intros Hi H. destruct s as [|c s]; cbn [Py.find_from] in H.
  - destruct (Py.startswith sub EmptyString); [lia|]. split; [reflexivity|].
    intros c s' E. discriminate.
  - destruct (Py.startswith sub (String c s)); [lia|]. split; [reflexivity|].
    intros c' s' E. inversion E; subst. exact H.
Qed.

(** A string in which the separator does not occur is one piece. *)
Lemma split_go_no_sep sep s :
  forall i cur,
    0 <= i -> Py.find_from sep s i = -1 ->
    Py.split_go sep 0 cur s = [String.rev_app cur s].
Proof.
  induction s as [|c s IH]; intros i cur Hi H; [reflexivity|].
  destruct (find_from_none sep (String c s) i Hi H) as [Hs Hrest].
  cbn [Py.split_go]. rewrite Hs.
  now apply (IH (i + 1) (String c cur) ltac:(lia) (Hrest c s eq_refl)).
Qed.

Lemma split_no_sep s sep : Py.find s sep = -1 -> Py.split s sep = [s].
Proof.
  intros H. unfold Py.split. now rewrite (split_go_no_sep sep s 0 EmptyString ltac:(lia) H).
Qed.

Lemma bucket_of_no_scheme location w :
  Py.find location "gs://" = -1 -> bucket_of location w = (w, inl IndexError).
Proof.
  intros H. unfold bucket_of, bind. now rewrite (split_no_sep _ _ H).
Qed.

(** X15: a source or object location in which [gs://] does not occur
    makes [generate_batch_metadata_files], [count_files_in_gcs_bucket]
    and [download_file_gcs] raise [IndexError] before they touch the
    store or the staging area. *)
Theorem location_without_scheme_raises project_id location N target_gcs_bucket
        target_root_path target_batch_folder file_type destination_folder w :
  Py.find location "gs://" = -1 ->
  generate_batch_metadata_files project_id location N target_gcs_bucket
    target_root_path target_batch_folder file_type w = (w, inl IndexError)
  /\ count_files_in_gcs_bucket project_id location file_type w = (w, inl IndexError)
  /\ download_file_gcs project_id location destination_folder w = (w, inl IndexError).
Proof.
  intros H.
  unfold generate_batch_metadata_files, count_files_in_gcs_bucket, download_file_gcs.
  cbv zeta. unfold bind. now rewrite (bucket_of_no_scheme location w H).
Qed.

(** A path of the local file system given as the source. *)
Lemma location_without_scheme_raises_witness :
  generate_batch_metadata_files "project" "data/tv/files" 2 "dst" "data/tv" "batch"
    ".tar.gz" Example.w5 = (Example.w5, inl IndexError)
  /\ count_files_in_gcs_bucket "project" "data/tv/files" ".tar.gz" Example.w5
     = (Example.w5, inl IndexError)
  /\ download_file_gcs "project" "data/tv/files" "data/tv/files" Example.w5
     = (Example.w5, inl IndexError).
Proof.
  apply (location_without_scheme_raises "project" "data/tv/files" 2 "dst" "data/tv"
           "batch" ".tar.gz" "data/tv/files" Example.w5).
  reflexivity.
Defined.

Lemma split_go_skip sep p s cur :
  Py.split_go sep (String.length p) cur (p +:+ s) = Py.split_go sep 0 cur s.
Proof.
  induction p as [|c p IH]; [reflexivity|]. cbn [String.length String.append Py.split_go].
  exact IH.
Qed.

(** A string that begins with the separator: an empty piece, then the
    pieces of the rest. *)
Lemma split_go_at_sep c sep s cur :
  Py.split_go (String c sep) 0 cur (String c sep +:+ s)
  = String.rev cur :: Py.split_go (String c sep) 0 EmptyString s.
Proof.
  cbn [String.append Py.split_go].
  change (String c (sep +:+ s)) with (String c sep +:+ s).
  rewrite startswith_append. cbn [String.length Nat.sub].
  rewrite Nat.sub_0_r. now rewrite split_go_skip.
Qed.

Lemma rev_app_rev_app a b c :
  String.rev_app (String.rev_app a b) c = String.rev_app b (a +:+ c).
Proof.
  revert b c. induction a as [|x a IH]; intros b c; [reflexivity|].
  cbn [String.rev_app String.append]. now rewrite IH.
Qed.

Lemma append_nil_r (s : string) : s +:+ EmptyString = s.
Proof. induction s as [|c s IH]; cbn; [reflexivity | now rewrite IH]. Qed.

Lemma rev_rev_app s : String.rev (String.rev_app s EmptyString) = s.
Proof. unfold String.rev. rewrite rev_app_rev_app. cbn. apply append_nil_r. Qed.

(** The first piece of a split at slashes is what stands before the
    first slash. *)
Lemma split_go_slash_head bucket rest :
  forall i cur,
    0 <= i -> Py.find_from "/" bucket i = -1 ->
    Py.split_go "/" 0 cur (bucket +:+ String "/" rest)
    = String.rev (String.rev_app bucket cur) :: Py.split_go "/" 0 EmptyString rest.
Proof.
  induction bucket as [|c b IH]; intros i cur Hi H; [reflexivity|].
  destruct (find_from_none "/" (String c b) i Hi H) as [Hs Hrest].
  cbn [String.append Py.split_go String.rev_app].
  cbn [Py.startswith] in Hs |- *. rewrite andb_true_r in Hs |- *. rewrite Hs.
  apply (IH (i + 1) (String c cur) ltac:(lia) (Hrest c b eq_refl)).
Qed.

(** The bucket and the object path that [download_file_gcs] reads off
    the location [gs://bucket/name]. *)
Lemma location_parts bucket name w :
  Py.find (bucket +:+ "/" +:+ name) "gs://" = -1 ->
  Py.find bucket "/" = -1 ->
  Py.find name (fstr ["gs://"; bucket; "/"]) = -1 ->
  bucket_of (fstr ["gs://"; bucket; "/"; name]) w = (w, inr bucket)
  /\ index (Py.split (fstr ["gs://"; bucket; "/"; name]) (fstr ["gs://"; bucket; "/"])) 1 w
     = (w, inr name).
Proof.
  intros Ha Hb Hc. split.
  - unfold bucket_of, bind, Py.split.
    change (fstr ["gs://"; bucket; "/"; name]) with ("gs://" +:+ bucket +:+ "/" +:+ name).
    rewrite (split_go_at_sep "g" "s://").
    rewrite (split_go_no_sep "gs://" (bucket +:+ "/" +:+ name) 0 EmptyString ltac:(lia) Ha).
    cbn [index nth_error ret String.rev_app].
    change (bucket +:+ "/" +:+ name) with (bucket +:+ String "/" name).
    rewrite (split_go_slash_head bucket name 0 EmptyString ltac:(lia) Hb).
    cbn [nth_error]. now rewrite rev_rev_app.
  - unfold Py.split.
    assert (E : fstr ["gs://"; bucket; "/"; name]
                = String "g" ("s://" +:+ bucket +:+ "/") +:+ name).
    { unfold fstr. cbn. now rewrite (append_assoc_str bucket "/" name). }
    rewrite E.
    change (fstr ["gs://"; bucket; "/"]) with (String "g" ("s://" +:+ bucket +:+ "/")) in *.
    rewrite (split_go_at_sep "g" ("s://" +:+ bucket +:+ "/")).
    rewrite (split_go_no_sep _ name 0 EmptyString ltac:(lia) Hc).
    reflexivity.
Qed.

(** ** Base names *)

Lemma rev_app_append a b : String.rev_app a b = String.rev_app a EmptyString +:+ b.
Proof.
  revert b. induction a as [|x a IH]; intros b; [reflexivity|].
  cbn [String.rev_app]. rewrite (IH (String x b)), (IH (String x EmptyString)).
  now rewrite append_assoc_str.
Qed.

Lemma length_append (a b : string) :
  String.length (a +:+ b) = (String.length a + String.length b)%nat.
Proof. induction a as [|x a IH]; cbn; [reflexivity | now rewrite IH]. Qed.

Lemma substring_all (s : string) : String.substring 0 (String.length s) s = s.
Proof. induction s as [|c s IH]; cbn; [reflexivity | now rewrite IH]. Qed.

Lemma substring_after (a b : string) n :
  String.substring (String.length a) n (a +:+ b) = String.substring 0 n b.
Proof. induction a as [|x a IH]; cbn; [reflexivity | exact IH]. Qed.

(** Reading on from the end of [q +:+ rev cur], where the last slash of
    what was read is the last character of [q] (or nothing was read and
    [q] is empty), [os.path.basename] cuts the whole path where the
    left-to-right reading cuts it. *)
Lemma basename_go t :
  forall q cur last,
    last + 1 = Z.of_nat (String.length q) ->
    let p := (q +:+ String.rev cur) +:+ t in
    let i := Py.rfind_slash_from t (Z.of_nat (String.length (q +:+ String.rev cur))) last + 1 in
    String.substring (Z.to_nat i) (String.length p - Z.to_nat i) p = base_go cur t.
Proof.
  induction t as [|c t IH]; intros q cur last Hq; cbv zeta.
  - cbn [Py.rfind_slash_from base_go]. rewrite append_nil_r, Hq, Nat2Z.id.
    rewrite length_append, Nat.add_comm, Nat.add_sub.
    rewrite substring_after. apply substring_all.
  - cbn [Py.rfind_slash_from base_go].
    assert (Hstep : forall pre, (pre +:+ String c EmptyString) +:+ t = pre +:+ String c t).
    { intros pre. now rewrite append_assoc_str. }
    destruct (Py.ascii_eqb c Py.slash) eqn:Hc.
    + specialize (IH ((q +:+ String.rev cur) +:+ String c EmptyString) EmptyString
                    (Z.of_nat (String.length (q +:+ String.rev cur)))).
      cbv zeta in IH. cbn [String.rev String.rev_app] in IH.
      rewrite append_nil_r, Hstep in IH.
      rewrite (length_append _ (String c EmptyString)) in IH. cbn [String.length] in IH.
      replace (Z.of_nat (String.length (q +:+ String.rev cur) + 1))
        with (Z.of_nat (String.length (q +:+ String.rev cur)) + 1) in IH by lia.
      apply IH. lia.
    + specialize (IH q (String c cur) last Hq). cbv zeta in IH.
      assert (Hrev : q +:+ String.rev (String c cur)
                     = (q +:+ String.rev cur) +:+ String c EmptyString).
      { unfold String.rev. cbn [String.rev_app].
        rewrite (rev_app_append cur (String c EmptyString)).
        now rewrite append_assoc_str. }
      rewrite Hrev, Hstep in IH.
      rewrite (length_append _ (String c EmptyString)) in IH. cbn [String.length] in IH.
      replace (Z.of_nat (String.length (q +:+ String.rev cur) + 1))
        with (Z.of_nat (String.length (q +:+ String.rev cur)) + 1) in IH by lia.
      exact IH.
Qed.

Lemma basename_base p : Py.os_path_basename p = base_go EmptyString p.
Proof.
  pose proof (basename_go p EmptyString EmptyString (-1) eq_refl) as H.
  cbv zeta in H. exact H.
Qed.

Lemma base_go_after_slash a name cur :
  base_go cur (a +:+ String "/" name) = base_go EmptyString name.
Proof.
  revert cur. induction a as [|x a IH]; intros cur; [reflexivity|].
  cbn [String.append base_go]. destruct (Py.ascii_eqb x Py.slash); apply IH.
Qed.

(** The base name of [a/name] is the base name of [name]. *)
Lemma basename_after_slash a name :
  Py.os_path_basename (a +:+ String "/" name) = Py.os_path_basename name.
Proof. now rewrite !basename_base, base_go_after_slash. Qed.

(** ** Downloads *)

Lemma fstr_nested a b c :
  fstr [fstr [a; "/"; b]; "/"; c] = fstr [a; "/"; b; "/"; c].
Proof.
  unfold fstr. cbn. rewrite append_assoc_str. reflexivity.
Qed.

(** [download_file_gcs] on the location [gs://bucket/name]: the object
    [name] of [bucket] goes to the destination folder under its base
    name. *)
Lemma download_file_gcs_parts project_id bucket name folder w :
  Py.find (bucket +:+ "/" +:+ name) "gs://" = -1 ->
  Py.find bucket "/" = -1 ->
  Py.find name (fstr ["gs://"; bucket; "/"]) = -1 ->
  download_file_gcs project_id (fstr ["gs://"; bucket; "/"; name]) folder w
  = GCS.download_to_filename bucket name
      (fstr [folder; "/"; Py.os_path_basename name]) w.
Proof.
  intros Ha Hb Hc. destruct (location_parts bucket name w Ha Hb Hc) as [H1 H2].
  unfold download_file_gcs. cbv zeta. unfold bind. rewrite H1, H2.
  replace (Py.os_path_basename (fstr ["gs://"; bucket; "/"; name]))
    with (Py.os_path_basename name); [reflexivity|].
  change (fstr ["gs://"; bucket; "/"; name]) with ("gs://" +:+ bucket +:+ String "/" name).
  rewrite <- (append_assoc_str "gs://" bucket (String "/" name)).
  now rewrite basename_after_slash.
Qed.

Lemma find_replace_blob b l :
  existsb (GCS.is_blob (blob_bucket b) (blob_name b)) l = true ->
  List.find (GCS.is_blob (blob_bucket b) (blob_name b)) (GCS.replace_blob b l) = Some b.
Proof.
  assert (Hb : GCS.is_blob (blob_bucket b) (blob_name b) b = true)
    by now apply is_blob_key.
  induction l as [|x l IH]; cbn [existsb GCS.replace_blob]; [discriminate|].
  destruct (GCS.is_blob (blob_bucket b) (blob_name b) x) eqn:Hx; cbn [List.find orb].
  - now rewrite Hb.
  - now rewrite Hx.
Qed.

Lemma find_insert_blob b l :
  existsb (GCS.is_blob (blob_bucket b) (blob_name b)) l = false ->
  List.find (GCS.is_blob (blob_bucket b) (blob_name b)) (GCS.insert_blob b l) = Some b.
Proof.
  assert (Hb : GCS.is_blob (blob_bucket b) (blob_name b) b = true)
    by now apply is_blob_key.
  induction l as [|x l IH]; cbn [existsb GCS.insert_blob].
  - intros _. cbn. now rewrite Hb.
  - intros H. apply orb_false_iff in H. destruct H as [Hx Hl].
    destruct (String.eqb (blob_bucket x) (blob_bucket b)
              && String.ltb (blob_name b) (blob_name x)); cbn [List.find].
    + now rewrite Hb.
    + rewrite Hx. now apply IH.
Qed.

(** The object that an upload puts is the one found under its key. *)
Lemma find_put_blob b l :
  List.find (GCS.is_blob (blob_bucket b) (blob_name b)) (GCS.put_blob b l) = Some b.
Proof.
  unfold GCS.put_blob.
  destruct (existsb (GCS.is_blob (blob_bucket b) (blob_name b)) l) eqn:E.
  - now apply find_replace_blob.
  - now apply find_insert_blob.
Qed.

(** X16: a local file uploaded with [upload_file_to_gcs] to [name] in
    [bucket] and fetched back with [download_file_gcs] from
    [gs://bucket/name] arrives in the destination folder under the base
    name of [name] with the content it had, whenever both calls return. *)
Theorem upload_then_download project_id file_path bucket name folder c w w' :
  Py.find (bucket +:+ "/" +:+ name) "gs://" = -1 ->
  Py.find bucket "/" = -1 ->
  Py.find name (fstr ["gs://"; bucket; "/"]) = -1 ->
  local w !! file_path = Some (File c) ->
  (upload_file_to_gcs file_path bucket name ;;
   download_file_gcs project_id (fstr ["gs://"; bucket; "/"; name]) folder) w
  = (w', inr tt) ->
  local w' !! fstr [folder; "/"; Py.os_path_basename name] = Some (File c).
Proof.
  intros Ha Hb Hc Hfile.
  unfold bind at 1. unfold upload_file_to_gcs, GCS.upload_from_filename.
  unfold bind at 1.
  destruct (read_file_cases file_path w) as [[e He]|(c' & He & Hc')]; rewrite He;
    [discriminate|].
  assert (c' = c) by congruence. subst c'.
  unfold bind, modify, get_world. cbv beta.
  rewrite download_file_gcs_parts by assumption.
  unfold GCS.download_to_filename, bind, get_world, modify.
  match goal with
  | |- context [OS.write_file ?p ?x ?w0] =>
      destruct (write_file_cases p x w0) as [[e He']|He']; rewrite He'
  end; [discriminate|].
  cbn [log set_gcs set_local gcs journal local].
  pose proof (find_put_blob (Blob bucket name (Z.of_nat (length (journal w))) c) (gcs w))
    as Hf.
  cbn [blob_bucket blob_name] in Hf. rewrite Hf. cbn [blob_data].
  intros H. inversion H; subst. cbn [log set_local local].
  apply lookup_insert_eq.
Qed.

(** The first archive of the example, staged and sent to [dst]. *)
Lemma upload_then_download_witness :
  local
    (fst ((upload_file_to_gcs "data/tv/unpack/a/out.log" "dst" "data/tv/load/outa.log" ;;
           download_file_gcs "project"
             (fstr ["gs://"; "dst"; "/"; "data/tv/load/outa.log"]) "data/tv/files")
            Run.w_unpacked))
    !! fstr ["data/tv/files"; "/"; Py.os_path_basename "data/tv/load/outa.log"]
  = Some (File (Text [marker_line; "# end"])).
Proof.
  apply (upload_then_download "project" "data/tv/unpack/a/out.log" "dst"
           "data/tv/load/outa.log" "data/tv/files" (Text [marker_line; "# end"])
           Run.w_unpacked); try reflexivity.
Defined.

Lemma download_to_filename_missing bucket name dest w :
  List.find (GCS.is_blob bucket name) (gcs w) = None ->
  download_fails bucket name dest w (GCS.download_to_filename bucket name dest w).
Proof.
  intros Hnone. unfold download_fails, GCS.download_to_filename, bind.
  destruct (write_file_cases dest (Text []) w) as [[e He]|He]; rewrite He;
    [reflexivity|].
  unfold get_world, modify, raise. cbn [set_local gcs]. rewrite Hnone.
  cbn [fst snd set_local gcs journal local].
  split; [reflexivity|]. split; [reflexivity|]. split; [reflexivity|]. split.
  - intros q Hq. rewrite lookup_delete_ne by congruence.
    now rewrite lookup_insert_ne by congruence.
  - left. apply lookup_delete_eq.
Qed.

(** A call that raises ends the calls that follow it. *)
Lemma download_fails_then {B} bucket name dest w (c : M unit) (k : unit -> M B) :
  download_fails bucket name dest w (c w) ->
  exists e, c w = (fst (c w), inl e) /\ bind c k w = (fst (c w), inl e).
Proof.
  unfold download_fails, bind.
  destruct (OS.write_file dest (Text []) w) as [w0 [e|[]]].
  - intros ->. exists e. now split.
  - intros (Hr & _). destruct (c w) as [w1 r]. cbn [snd fst] in *. subst r.
    exists (NotFound bucket name). now split.
Qed.

(** X17: when the store holds no object [name] in [bucket],
    [download_file_gcs] from [gs://bucket/name] opens its destination
    for writing before it asks for the object. If the destination cannot
    be opened, as when its folder is missing, the error of the opening is
    raised and nothing has changed. Otherwise [NotFound] is raised, and
    whatever stood at the destination is lost: no file or an empty one is
    there; the store, the journal and the rest of the staging area are as
    before. [process_batch] on the manifest [name] of [bucket] ends in the
    same way, with nothing read, run, uploaded or deleted. *)
Theorem missing_object_raises_not_found
        sh project_id bucket name folder target_gcs_path target_root_path
        target_source_folder target_unpack_folder target_load_folder
        target_batch_folder w :
  Py.find (bucket +:+ "/" +:+ name) "gs://" = -1 ->
  Py.find bucket "/" = -1 ->
  Py.find name (fstr ["gs://"; bucket; "/"]) = -1 ->
  List.find (GCS.is_blob bucket name) (gcs w) = None ->
  download_fails bucket name (fstr [folder; "/"; Py.os_path_basename name]) w
    (download_file_gcs project_id (fstr ["gs://"; bucket; "/"; name]) folder w)
  /\ download_fails bucket name
       (fstr [target_root_path; "/"; target_batch_folder; "/"; Py.os_path_basename name])
       w
       (process_batch sh project_id name bucket target_gcs_path target_root_path
          target_source_folder target_unpack_folder target_load_folder
          target_batch_folder w).
Proof.
  intros Ha Hb Hc Hnone.
  assert (Hd : forall folder0,
             download_fails bucket name (fstr [folder0; "/"; Py.os_path_basename name]) w
               (download_file_gcs project_id (fstr ["gs://"; bucket; "/"; name])
                  folder0 w)).
  { intros folder0. rewrite download_file_gcs_parts by assumption.
    now apply download_to_filename_missing. }
  split; [apply Hd|].
  specialize (Hd (fstr [target_root_path; "/"; target_batch_folder])).
  rewrite fstr_nested in Hd.
  unfold process_batch.
  match goal with
  | |- context [bind ?c ?k w] =>
      destruct (download_fails_then _ _ _ _ c k Hd) as (e & Hc1 & Hc2)
  end.
  rewrite Hc2. rewrite Hc1 in Hd. exact Hd.
Qed.

(** A manifest number that was never written, with a file of that name
    in the staging area. *)
Lemma missing_object_raises_not_found_witness :
  download_fails "dst" (Example.manifest_path "000009")
    (fstr ["data/tv/batch"; "/"; Py.os_path_basename (Example.manifest_path "000009")])
    Example.w_stale
    (download_file_gcs "project"
       (fstr ["gs://"; "dst"; "/"; Example.manifest_path "000009"]) "data/tv/batch"
       Example.w_stale)
  /\ download_fails "dst" (Example.manifest_path "000009")
       (fstr ["data/tv"; "/"; "batch"; "/";
              Py.os_path_basename (Example.manifest_path "000009")])
       Example.w_stale
       (process_batch Example.ok_sh "project" (Example.manifest_path "000009") "dst"
          "data/tv" "data/tv" "files" "unpack" "load" "batch" Example.w_stale).
Proof.
  apply (missing_object_raises_not_found Example.ok_sh "project" "dst"
           (Example.manifest_path "000009") "data/tv/batch" "data/tv" "data/tv"
           "files" "unpack" "load" "batch" Example.w_stale); reflexivity.
Defined.

(** X18: on a manifest without a record, [process_batch] downloads the
    manifest and returns: no record is processed, and the local copy of
    the manifest, which only the per-record loop unlinks, stays in the
    staging area. *)
Theorem process_batch_empty_manifest
        sh project_id bucket name target_gcs_path target_root_path
        target_source_folder target_unpack_folder target_load_folder
        target_batch_folder b w w1 :
  Py.find (bucket +:+ "/" +:+ name) "gs://" = -1 ->
  Py.find bucket "/" = -1 ->
  Py.find name (fstr ["gs://"; bucket; "/"]) = -1 ->
  List.find (GCS.is_blob bucket name) (gcs w) = Some b ->
  blob_data b = Table [] ->
  OS.write_file
    (fstr [target_root_path; "/"; target_batch_folder; "/"; Py.os_path_basename name])
    (Table []) w = (w1, inr tt) ->
  process_batch sh project_id name bucket target_gcs_path target_root_path
    target_source_folder target_unpack_folder target_load_folder
    target_batch_folder w
  = (log (Download bucket name
            (fstr [target_root_path; "/"; target_batch_folder; "/";
                   Py.os_path_basename name])) w1,
     inr tt)
  /\ local w1 !! fstr [target_root_path; "/"; target_batch_folder; "/";
                       Py.os_path_basename name]
     = Some (File (Table [])).
Proof.
  intros Ha Hb Hc Hfind Hdata Hwrite.
  destruct (write_file_any_content _ _ (Text []) _ _ Hwrite) as [Hw1 Hopen].
  assert (Hlocal : local w1 !! fstr [target_root_path; "/"; target_batch_folder; "/";
                                     Py.os_path_basename name]
                   = Some (File (Table []))).
  { rewrite Hw1. cbn [set_local local]. apply lookup_insert_eq. }
  split; [|exact Hlocal].
  unfold process_batch. unfold bind at 1.
  rewrite download_file_gcs_parts by assumption.
  unfold GCS.download_to_filename, bind, get_world, modify.
  rewrite fstr_nested, Hopen. cbn [set_local gcs]. rewrite Hfind, Hdata.
  match goal with
  | |- context [set_local ?f (set_local ?g w)] =>
      assert (Hsame : set_local f (set_local g w) = w1)
        by (rewrite Hw1; unfold set_local; cbn [local gcs wall ticks journal];
            now rewrite insert_insert_eq);
      rewrite Hsame
  end.
  unfold OS.read_csv, bind.
  rewrite (read_back _ (Table []) w w1 _ Hwrite) by reflexivity.
  reflexivity.
Qed.

(** The manifest without a record of [Empty.w]. *)
Lemma process_batch_empty_manifest_witness :
  process_batch Example.ok_sh "project" (Example.manifest_path "000003") "dst"
    "data/tv" "data/tv" "files" "unpack" "load" "batch" Empty.w
  = (log (Download "dst" (Example.manifest_path "000003")
            (fstr ["data/tv"; "/"; "batch"; "/";
                   Py.os_path_basename (Example.manifest_path "000003")])) Empty.w1,
     inr tt)
  /\ local Empty.w1 !! fstr ["data/tv"; "/"; "batch"; "/";
                             Py.os_path_basename (Example.manifest_path "000003")]
     = Some (File (Table [])).
Proof.
  apply (process_batch_empty_manifest Example.ok_sh "project" "dst"
           (Example.manifest_path "000003") "data/tv" "data/tv" "files" "unpack"
           "load" "batch" Empty.manifest Empty.w Empty.w1); try reflexivity.
Defined.
